(** * House-price notebook (Proj_2.ipynb): data preparation, training cells
      and the Dash prediction callback.

    The notebook is embedded cell by cell.  pandas frames are row lists with
    an index label per row and a list of column names; the calls into pandas,
    scikit-learn and Dash that the notebook makes are either written out
    (column selection, boolean indexing, column assignment, [drop], [quantile],
    the f-string format) or, for the learners themselves, taken as parameters
    of a section.

    Numbers: a float64 value is represented by the exact rational it denotes,
    together with the IEEE special values (the infinities and NaN).  Finite
    arithmetic is exact: rounding, overflow and signed zeros are outside the
    model. *)

From Stdlib Require Import String Ascii ZArith QArith Qround Qabs List Bool Lia Lqa Sorted.
Import ListNotations.

Set Implicit Arguments.
Open Scope string_scope.
Open Scope list_scope.
Open Scope Q_scope.
Open Scope nat_scope.

(* ================================================================== *)
(** ** Numbers *)

Module F64.

Inductive float64 : Type :=
| Fin (q : Q)
| Inf (neg : bool)
| NaN.

Definition Qlt_bool (a b : Q) : bool := negb (Qle_bool b a).

Definition zero : float64 := Fin 0.

Definition neg (x : float64) : float64 :=
  match x with
  | Fin q => Fin (- q)
  | Inf s => Inf (negb s)
  | NaN => NaN
  end.

Definition add (x y : float64) : float64 :=
  match x, y with
  | Fin a, Fin b => Fin (a + b)
  | Fin _, Inf s => Inf s
  | Inf s, Fin _ => Inf s
  | Inf s, Inf t => if Bool.eqb s t then Inf s else NaN
  | _, _ => NaN
  end.

Definition sub (x y : float64) : float64 := add x (neg y).

Definition mul (x y : float64) : float64 :=
  match x, y with
  | Fin a, Fin b => Fin (a * b)
  | Fin a, Inf s => if Qeq_bool a 0 then NaN else Inf (xorb (Qlt_bool a 0) s)
  | Inf s, Fin b => if Qeq_bool b 0 then NaN else Inf (xorb s (Qlt_bool b 0))
  | Inf s, Inf t => Inf (xorb s t)
  | _, _ => NaN
  end.

(** numpy's true division, as pandas applies it to two numeric columns:
    no exception, [x / 0] is an infinity with the sign of [x], [0 / 0] is
    NaN. *)
Definition div (x y : float64) : float64 :=
  match x, y with
  | Fin a, Fin b =>
      if Qeq_bool b 0
      then (if Qeq_bool a 0 then NaN else Inf (Qlt_bool a 0))
      else Fin (a / b)
  | Fin _, Inf _ => Fin 0
  | Inf s, Fin b => Inf (xorb s (Qlt_bool b 0))
  | _, _ => NaN
  end.

(** Comparisons are false as soon as one side is NaN. *)
Definition leb (x y : float64) : bool :=
  match x, y with
  | Fin a, Fin b => Qle_bool a b
  | Fin _, Inf s => negb s
  | Inf s, Fin _ => s
  | Inf s, Inf t => s || negb t
  | _, _ => false
  end.

Definition geb (x y : float64) : bool := leb y x.

Definition is_nan (x : float64) : bool :=
  match x with NaN => true | _ => false end.

Definition is_inf (x : float64) : bool :=
  match x with Inf _ => true | _ => false end.

Definition is_finite (x : float64) : bool :=
  match x with Fin _ => true | _ => false end.

Definition of_Z (z : Z) : float64 := Fin (inject_Z z).

End F64.

Import F64.

(* ================================================================== *)
(** ** Exceptions *)

Inductive pyerr : Type :=
| KeyError (k : string)
| TypeError
| ValueError
| ZeroDivisionError
| FileNotFoundError (path : string)
| NameError (name : string)
| LibraryError (code : nat).

Inductive res (A : Type) : Type :=
| Ok (a : A)
| Raise (e : pyerr).

Arguments Ok {A} a.
Arguments Raise {A} e.

Definition bind {A B : Type} (m : res A) (k : A -> res B) : res B :=
  match m with
  | Ok a => k a
  | Raise e => Raise e
  end.

Declare Scope py_scope.
Delimit Scope py_scope with py.
Notation "x <- m ;; k" := (bind m (fun x => k))
  (at level 61, m at next level, right associativity) : py_scope.
Notation "' p <- m ;; k" := (bind m (fun p => k))
  (at level 61, p pattern, m at next level, right associativity) : py_scope.
Open Scope py_scope.

Fixpoint mapM {A B : Type} (f : A -> res B) (l : list A) : res (list B) :=
  match l with
  | [] => Ok []
  | x :: t => y <- f x ;; ys <- mapM f t ;; Ok (y :: ys)
  end.

(* ================================================================== *)
(** ** Frames and series *)

Inductive cell : Type :=
| CNum (x : float64)
| CStr (s : string)
| CBool (b : bool)
| CDate (t : Z)
| CNone.

(** A series is the list of its values; every series the notebook combines
    is taken from one frame, so aligning on the index is aligning by
    position. *)
Definition Series : Type := list cell.

Record DataFrame : Type := mkDF {
  columns : list string;
  rows : list (nat * list cell)
}.

Definition index (df : DataFrame) : list nat := map fst (rows df).

Fixpoint index_of (c : string) (cs : list string) : option nat :=
  match cs with
  | [] => None
  | c' :: t => if String.eqb c c' then Some O
               else option_map S (index_of c t)
  end.

Definition has_col (cs : list string) (c : string) : bool :=
  existsb (String.eqb c) cs.

Definition missing : cell := CNum NaN.

(** [df[c]] *)
Definition getitem (df : DataFrame) (c : string) : res Series :=
  match index_of c (columns df) with
  | None => Raise (KeyError c)
  | Some i => Ok (map (fun r => nth i (snd r) missing) (rows df))
  end.

Fixpoint set_nth {A : Type} (i : nat) (v : A) (l : list A) : list A :=
  match i, l with
  | _, [] => []
  | O, _ :: t => v :: t
  | S j, x :: t => x :: set_nth j v t
  end.

(** [df[c] = s]: an existing column is overwritten in place, a new one is
    appended on the right. *)
Definition setitem (df : DataFrame) (c : string) (s : Series) : res DataFrame :=
  if negb (Nat.eqb (length s) (length (rows df))) then Raise ValueError
  else
    match index_of c (columns df) with
    | Some i =>
        Ok (mkDF (columns df)
                 (map (fun rv => (fst (fst rv), set_nth i (snd rv) (snd (fst rv))))
                      (combine (rows df) s)))
    | None =>
        Ok (mkDF (columns df ++ [c])
                 (map (fun rv => (fst (fst rv), snd (fst rv) ++ [snd rv]))
                      (combine (rows df) s)))
    end.

Definition as_num (c : cell) : res float64 :=
  match c with
  | CNum x => Ok x
  | _ => Raise TypeError
  end.

Definition as_bool (c : cell) : res bool :=
  match c with
  | CBool b => Ok b
  | _ => Raise TypeError
  end.

(** [s >= x] and [s <= x] for a scalar [x] *)
Definition series_ge (s : Series) (x : float64) : res Series :=
  mapM (fun c => v <- as_num c ;; Ok (CBool (geb v x))) s.

Definition series_le (s : Series) (x : float64) : res Series :=
  mapM (fun c => v <- as_num c ;; Ok (CBool (leb v x))) s.

(** Element-wise binary operation on two series of one frame. *)
Definition series_zip (f : cell -> cell -> res cell) (s t : Series) : res Series :=
  if negb (Nat.eqb (length s) (length t)) then Raise ValueError
  else mapM (fun ab => f (fst ab) (snd ab)) (combine s t).

Definition num_op (f : float64 -> float64 -> float64) (a b : cell) : res cell :=
  x <- as_num a ;; y <- as_num b ;; Ok (CNum (f x y)).

Definition series_div : Series -> Series -> res Series := series_zip (num_op div).
Definition series_mul : Series -> Series -> res Series := series_zip (num_op mul).

(** [m1 & m2] *)
Definition series_and : Series -> Series -> res Series :=
  series_zip (fun a b => x <- as_bool a ;; y <- as_bool b ;; Ok (CBool (x && y))).

(** [df[mask]] for a boolean series [mask] *)
Definition boolean_index (df : DataFrame) (mask : Series) : res DataFrame :=
  if negb (Nat.eqb (length mask) (length (rows df))) then Raise ValueError
  else
    bs <- mapM as_bool mask ;;
    Ok (mkDF (columns df)
             (map fst (filter (fun rb => snd rb) (combine (rows df) bs)))).

(** [df.drop(columns=cs)]: every label must exist. *)
Definition first_missing (cs have : list string) : option string :=
  find (fun c => negb (has_col have c)) cs.

Definition drop_cells (cols drop : list string) (cells : list cell) : list cell :=
  map snd (filter (fun nc => negb (has_col drop (fst nc))) (combine cols cells)).

Definition drop_columns (df : DataFrame) (cs : list string) : res DataFrame :=
  match first_missing cs (columns df) with
  | Some c => Raise (KeyError c)
  | None =>
      Ok (mkDF (filter (fun c => negb (has_col cs c)) (columns df))
               (map (fun r => (fst r, drop_cells (columns df) cs (snd r))) (rows df)))
  end.

(** *** [Series.quantile] with the default linear interpolation *)

Fixpoint insert_sorted (x : float64) (l : list float64) : list float64 :=
  match l with
  | [] => [x]
  | y :: t => if leb x y then x :: l else y :: insert_sorted x t
  end.

Definition sort_values (l : list float64) : list float64 :=
  fold_right insert_sorted [] l.

Definition dropna (l : list float64) : list float64 :=
  filter (fun x => negb (is_nan x)) l.

(** The value at fractional position [q * (n - 1)] of the sorted non-NaN
    values: [lo + (hi - lo) * fraction]. *)
Definition interpolate (sorted : list float64) (q : Q) : float64 :=
  match sorted with
  | [] => NaN
  | _ =>
      let pos := (q * inject_Z (Z.of_nat (length sorted) - 1))%Q in
      let k := Qfloor pos in
      let frac := (pos - inject_Z k)%Q in
      let lo := nth (Z.to_nat k) sorted NaN in
      if Qeq_bool frac 0 then lo
      else
        let hi := nth (S (Z.to_nat k)) sorted NaN in
        add lo (mul (sub hi lo) (Fin frac))
  end.

Definition quantile (s : Series) (q : Q) : res float64 :=
  if negb (Qle_bool 0 q && Qle_bool q 1) then Raise ValueError
  else
    vs <- mapM as_num s ;;
    Ok (interpolate (sort_values (dropna vs)) q).

(* ================================================================== *)
(** ** Data preparation (cell "def data_prepared()") *)

Section DataPreparation.

(** The working directory as [pd.read_csv] sees it: for a path, the header
    and the typed records of the file, when it exists. *)
Variable files : string -> option (list string * list (list cell)).

(** pandas' conversion of one value to a timestamp. *)
Variable to_timestamp : cell -> res cell.

(** [pd.read_csv(path)]: the records under a fresh [RangeIndex]. *)
Definition read_csv (path : string) : res DataFrame :=
  match files path with
  | None => Raise (FileNotFoundError path)
  | Some (header, records) =>
      Ok (mkDF header (combine (seq 0 (length records)) records))
  end.

Definition to_datetime (s : Series) : res Series := mapM to_timestamp s.

Definition data_prepared : res DataFrame :=
  (* Read the CSV file into a DataFrame *)
  df <- read_csv "data.csv" ;;
  (* Convert 'date' column to datetime *)
  date <- getitem df "date" ;;
  date <- to_datetime date ;;
  df <- setitem df "date" date ;;
  (* Filter out outliers in the 'price' column *)
  price <- getitem df "price" ;;
  price' <- getitem df "price" ;;
  q10 <- quantile price' (1 # 10) ;;
  above <- series_ge price q10 ;;
  price <- getitem df "price" ;;
  price' <- getitem df "price" ;;
  q90 <- quantile price' (9 # 10) ;;
  below <- series_le price q90 ;;
  mask <- series_and above below ;;
  df <- boolean_index df mask ;;
  (* Feature Engineering: Calculate the ratio of Bedrooms to Bathrooms *)
  bedrooms <- getitem df "bedrooms" ;;
  bathrooms <- getitem df "bathrooms" ;;
  ratio <- series_div bedrooms bathrooms ;;
  df <- setitem df "bedrooms_to_bathrooms_ratio" ratio ;;
  (* Feature Engineering: Calculate Price per Square Foot *)
  price <- getitem df "price" ;;
  sqft_living <- getitem df "sqft_living" ;;
  ppsf <- series_div price sqft_living ;;
  df <- setitem df "price_per_sqft" ppsf ;;
  (* Feature Engineering: Create Interaction Features *)
  bedrooms <- getitem df "bedrooms" ;;
  bathrooms <- getitem df "bathrooms" ;;
  inter <- series_mul bedrooms bathrooms ;;
  df <- setitem df "bedrooms_bathrooms_interaction" inter ;;
  (* Drop 'country' and 'statezip' columns *)
  df <- drop_columns df ["country"; "statezip"] ;;
  (* Drop additional features not needed for analysis *)
  df <- drop_columns df ["sqft_above"; "sqft_basement"; "yr_renovated";
                         "condition"; "yr_built"; "date"; "street"; "city";
                         "sqft_lot"] ;;
  Ok df.

(** The quantile [q] of the price column of the file as read, before any
    filtering. *)
Definition original_quantile (q : Q) : res float64 :=
  raw <- read_csv "data.csv" ;;
  price <- getitem raw "price" ;;
  quantile price q.

End DataPreparation.

(** Modelled from the spec: the header of data.csv, which is not part of the
    repository (section 6 lists the raw schema in this order). *)
Definition raw_columns : list string :=
  ["date"; "price"; "bedrooms"; "bathrooms"; "sqft_living"; "sqft_lot";
   "floors"; "waterfront"; "view"; "condition"; "sqft_above";
   "sqft_basement"; "yr_built"; "yr_renovated"; "street"; "city";
   "statezip"; "country"]%string.

(* ================================================================== *)
(** ** scikit-learn objects *)

(** Hyper-parameters of [RandomForestRegressor] that the notebook sets or
    searches; the others keep their defaults. *)
Record RFParams : Type := mkRFParams {
  n_estimators : Z;
  max_depth : option Z;
  random_state : option Z
}.

(** A fitted regression tree: a sample goes left when its feature is at most
    the threshold, and a leaf holds the predicted value. *)
Inductive tree : Type :=
| Leaf (value : float64)
| Node (feature : nat) (threshold : float64) (left right : tree).

Definition Forest : Type := list tree.

Record RandomForestRegressor : Type := mkRFR {
  rf_params : RFParams;
  estimators_ : option Forest
}.

(** [RandomForestRegressor(random_state=rs)] *)
Definition new_RandomForestRegressor (rs : Z) : RandomForestRegressor :=
  mkRFR (mkRFParams 100 None (Some rs)) None.

(** [SimpleImputer()]: the column statistics once fitted. *)
Record SimpleImputer : Type := mkImputer {
  statistics_ : option (list float64)
}.

(** [make_pipeline(SimpleImputer(), RandomForestRegressor(...))]: the steps
    are named "simpleimputer" and "randomforestregressor". *)
Record Pipeline : Type := mkPipeline {
  simpleimputer : SimpleImputer;
  randomforestregressor : RandomForestRegressor
}.

Definition make_pipeline (i : SimpleImputer) (r : RandomForestRegressor) : Pipeline :=
  mkPipeline i r.

(** [clone]: same parameters, nothing fitted. *)
Definition clone (p : Pipeline) : Pipeline :=
  mkPipeline (mkImputer None)
             (mkRFR (rf_params (randomforestregressor p)) None).

Definition Candidate : Type := list (string * Z).

Definition set_param (p : Pipeline) (kv : string * Z) : res Pipeline :=
  let r := randomforestregressor p in
  let h := rf_params r in
  if String.eqb (fst kv) "randomforestregressor__n_estimators" then
    Ok (mkPipeline (simpleimputer p)
          (mkRFR (mkRFParams (snd kv) (max_depth h) (random_state h)) (estimators_ r)))
  else if String.eqb (fst kv) "randomforestregressor__max_depth" then
    Ok (mkPipeline (simpleimputer p)
          (mkRFR (mkRFParams (n_estimators h) (Some (snd kv)) (random_state h)) (estimators_ r)))
  else Raise ValueError.

Fixpoint set_params (p : Pipeline) (c : Candidate) : res Pipeline :=
  match c with
  | [] => Ok p
  | kv :: t => p' <- set_param p kv ;; set_params p' t
  end.

(** *** Prediction of a fitted forest *)

Fixpoint tree_predict (t : tree) (x : list float64) : float64 :=
  match t with
  | Leaf v => v
  | Node f th l r =>
      if leb (nth f x NaN) th then tree_predict l x else tree_predict r x
  end.

Definition fsum (l : list float64) : float64 := fold_left add l zero.

Definition of_nat (n : nat) : float64 := of_Z (Z.of_nat n).

(** The forest averages its trees. *)
Definition forest_predict_row (f : Forest) (x : list float64) : float64 :=
  div (fsum (map (fun t => tree_predict t x) f)) (of_nat (length f)).

(** Input validation: every feature must be a finite number. *)
Definition as_feature (c : cell) : res float64 :=
  match c with
  | CNum (Fin q) => Ok (Fin q)
  | _ => Raise ValueError
  end.

Definition feature_matrix (X : DataFrame) : res (list (list float64)) :=
  mapM (fun r => mapM as_feature (snd r)) (rows X).

Definition forest_predict (m : RandomForestRegressor) (X : DataFrame)
  : res (list float64) :=
  match estimators_ m with
  | None => Raise (LibraryError 0) (* NotFittedError *)
  | Some f =>
      xs <- feature_matrix X ;;
      Ok (map (forest_predict_row f) xs)
  end.

(** *** Python's [range] and the parameter grid *)

Definition py_range (start stop step : Z) : list Z :=
  if (0 <? step)%Z then
    map (fun i => (start + step * Z.of_nat i)%Z)
        (seq 0 (Z.to_nat ((stop - start + step - 1) / step)))
  else if (step <? 0)%Z then
    map (fun i => (start + step * Z.of_nat i)%Z)
        (seq 0 (Z.to_nat ((start - stop - step - 1) / (- step))))
  else [].

Fixpoint insert_key (kv : string * list Z) (l : list (string * list Z))
  : list (string * list Z) :=
  match l with
  | [] => [kv]
  | kv' :: t => if String.leb (fst kv) (fst kv') then kv :: l
                else kv' :: insert_key kv t
  end.

Definition sorted_items (d : list (string * list Z)) : list (string * list Z) :=
  fold_right insert_key [] d.

Fixpoint product (items : list (string * list Z)) : list Candidate :=
  match items with
  | [] => [[]]
  | (k, vs) :: t =>
      flat_map (fun v => map (fun c => (k, v) :: c) (product t)) vs
  end.

(** [ParameterGrid(d)]: keys in sorted order, the first key varying slowest. *)
Definition ParameterGrid (d : list (string * list Z)) : list Candidate :=
  product (sorted_items d).

(** *** K-fold splitting (no shuffling): consecutive blocks, the first
    [n mod k] of them one row longer. *)

Definition fold_sizes (n k : nat) : list nat :=
  map (fun i => n / k + (if i <? n mod k then 1 else 0)) (seq 0 k).

Fixpoint fold_bounds (start : nat) (sizes : list nat) : list (nat * nat) :=
  match sizes with
  | [] => []
  | sz :: t => (start, start + sz) :: fold_bounds (start + sz) t
  end.

Definition slice {A : Type} (l : list A) (a b : nat) : list A :=
  firstn (b - a) (skipn a l).

Definition without {A : Type} (l : list A) (a b : nat) : list A :=
  firstn a l ++ skipn b l.

Definition KFold (k : nat) (X : DataFrame) (y : Series)
  : res (list ((DataFrame * Series) * (DataFrame * Series))) :=
  let n := length (rows X) in
  if (k <? 2) || (n <? k) then Raise ValueError
  else
    Ok (map (fun ab =>
               ((mkDF (columns X) (without (rows X) (fst ab) (snd ab)),
                 without y (fst ab) (snd ab)),
                (mkDF (columns X) (slice (rows X) (fst ab) (snd ab)),
                 slice y (fst ab) (snd ab))))
            (fold_bounds 0 (fold_sizes n k))).

(** *** Choosing the best candidate: the first one of the highest mean
    score, NaN scores ranking last. *)

Definition ltb (x y : float64) : bool := leb x y && negb (leb y x).

Definition better (new old : float64) : bool :=
  (is_nan old && negb (is_nan new)) || ltb old new.

Fixpoint argbest {A : Type} (best : A * float64) (l : list (A * float64))
  : A * float64 :=
  match l with
  | [] => best
  | c :: t => argbest (if better (snd c) (snd best) then c else best) t
  end.

Record GridSearchCV : Type := mkGrid {
  estimator : Pipeline;
  param_grid : list (string * list Z);
  cv : nat;
  refit : bool;
  cv_results_ : option (list (Candidate * float64));
  best_params_ : option Candidate;
  best_estimator_ : option Pipeline
}.

Definition new_GridSearchCV (est : Pipeline) (grid : list (string * list Z))
  (cv : nat) (refit : bool) : GridSearchCV :=
  mkGrid est grid cv refit None None None.

(* ================================================================== *)
(** ** The f-string format [:,.2f] *)

Definition digit (d : Z) : string :=
  String (ascii_of_nat (48 + Z.to_nat d)) EmptyString.

(** Up to three digits, no leading zero. *)
Definition dec3 (n : Z) : string :=
  if (n <? 10)%Z then digit n
  else if (n <? 100)%Z then digit (n / 10) ++ digit (n mod 10)
  else digit (n / 100) ++ digit (n / 10 mod 10) ++ digit (n mod 10).

(** Exactly three digits. *)
Definition pad3 (n : Z) : string :=
  digit (n / 100) ++ digit (n / 10 mod 10) ++ digit (n mod 10).

Fixpoint group_fuel (fuel : nat) (n : Z) : string :=
  match fuel with
  | O => dec3 n
  | S f =>
      if (n <? 1000)%Z then dec3 n
      else group_fuel f (n / 1000) ++ "," ++ pad3 (n mod 1000)
  end.

(** The integer [n >= 0] in decimal with a comma every three digits. *)
Definition group_thousands (n : Z) : string :=
  group_fuel (Z.to_nat (Z.log2 n)) n.

(** Rounding of a non-negative rational to the nearest integer, ties to
    even. *)
Definition round_half_even (q : Q) : Z :=
  let n := Qnum q in
  let d := Zpos (Qden q) in
  let fl := (n / d)%Z in
  let r2 := (2 * (n mod d))%Z in
  if (r2 <? d)%Z then fl
  else if (d <? r2)%Z then (fl + 1)%Z
  else if Z.even fl then fl else (fl + 1)%Z.

(** [f"{x:,.2f}"] *)
Definition format_comma_2f (x : float64) : string :=
  match x with
  | NaN => "nan"
  | Inf s => if s then "-inf" else "inf"
  | Fin q =>
      let cents := round_half_even (Qabs q * 100) in
      (if Qlt_bool q 0 then "-" else "") ++
      group_thousands (cents / 100) ++ "." ++
      digit (cents mod 100 / 10) ++ digit (cents mod 10)
  end.

(* ================================================================== *)
(** ** The notebook kernel *)

Inductive pyobj : Type :=
| OFrame (df : DataFrame)
| OSeries (s : Series)
| ONum (x : float64)
| OArray (a : list float64)
| ODict (d : list (string * list Z))
| OForest (m : RandomForestRegressor)
| OPipeline (p : Pipeline)
| OGrid (g : GridSearchCV).

(** Calls into scikit-learn, in the order the cells make them. *)
Inductive event : Type :=
| EvSplit (test_size : Q) (seed : Z)
| EvFit (name : string) (X : DataFrame) (y : Series)
| EvScore (name : string) (X : DataFrame) (y : Series)
| EvPredict (name : string) (X : DataFrame).

Record Kernel : Type := mkKernel {
  globals : list (string * pyobj);
  history : list event
}.

Definition fresh_kernel : Kernel := mkKernel [] [].

Fixpoint lookup (g : list (string * pyobj)) (name : string) : res pyobj :=
  match g with
  | [] => Raise (NameError name)
  | (n, v) :: t => if String.eqb name n then Ok v else lookup t name
  end.

(** A later binding of a name shadows the earlier ones. *)
Definition assign (k : Kernel) (name : string) (v : pyobj) : Kernel :=
  mkKernel ((name, v) :: globals k) (history k).

Definition log (k : Kernel) (e : event) : Kernel :=
  mkKernel (globals k) (history k ++ [e]).

Definition get_frame (k : Kernel) (name : string) : res DataFrame :=
  v <- lookup (globals k) name ;;
  match v with OFrame df => Ok df | _ => Raise TypeError end.

Definition get_series (k : Kernel) (name : string) : res Series :=
  v <- lookup (globals k) name ;;
  match v with OSeries s => Ok s | _ => Raise TypeError end.

Definition get_dict (k : Kernel) (name : string) : res (list (string * list Z)) :=
  v <- lookup (globals k) name ;;
  match v with ODict d => Ok d | _ => Raise TypeError end.

Definition get_forest (k : Kernel) (name : string) : res RandomForestRegressor :=
  v <- lookup (globals k) name ;;
  match v with OForest m => Ok m | _ => Raise TypeError end.

Definition get_pipeline (k : Kernel) (name : string) : res Pipeline :=
  v <- lookup (globals k) name ;;
  match v with OPipeline p => Ok p | _ => Raise TypeError end.

Definition get_grid (k : Kernel) (name : string) : res GridSearchCV :=
  v <- lookup (globals k) name ;;
  match v with OGrid g => Ok g | _ => Raise TypeError end.

(* ================================================================== *)
(** ** The cells *)

Section Notebook.

Variable files : string -> option (list string * list (list cell)).
Variable to_timestamp : cell -> res cell.

(** The scikit-learn routines the notebook relies on.  [rf_fit] grows the
    trees of a forest; the imputer learns and applies column statistics;
    [r2_score] and [mean_absolute_error] compare targets with predictions. *)
Variable train_test_split :
  DataFrame -> Series -> Q -> Z ->
  res ((DataFrame * DataFrame) * (Series * Series)).
Variable rf_fit : RFParams -> DataFrame -> Series -> res Forest.
Variable imputer_fit : DataFrame -> res (list float64).
Variable imputer_transform : list float64 -> DataFrame -> res DataFrame.
Variable r2_score : Series -> list float64 -> res float64.
Variable mean_absolute_error : Series -> list float64 -> res float64.

(** *** Estimator methods *)

Definition rfr_fit (m : RandomForestRegressor) (X : DataFrame) (y : Series)
  : res RandomForestRegressor :=
  f <- rf_fit (rf_params m) X y ;;
  Ok (mkRFR (rf_params m) (Some f)).

Definition rfr_score (m : RandomForestRegressor) (X : DataFrame) (y : Series)
  : res float64 :=
  preds <- forest_predict m X ;;
  r2_score y preds.

Definition pipeline_fit (p : Pipeline) (X : DataFrame) (y : Series)
  : res Pipeline :=
  st <- imputer_fit X ;;
  Xt <- imputer_transform st X ;;
  r <- rfr_fit (randomforestregressor p) Xt y ;;
  Ok (mkPipeline (mkImputer (Some st)) r).

Definition pipeline_predict (p : Pipeline) (X : DataFrame)
  : res (list float64) :=
  match statistics_ (simpleimputer p) with
  | None => Raise (LibraryError 0)
  | Some st =>
      Xt <- imputer_transform st X ;;
      forest_predict (randomforestregressor p) Xt
  end.

Definition pipeline_score (p : Pipeline) (X : DataFrame) (y : Series)
  : res float64 :=
  preds <- pipeline_predict p X ;;
  r2_score y preds.

(** *** [GridSearchCV.fit] *)

(** Score of one fold: the estimator is fitted on the training part and
    scored on the held-out part; a failure counts as NaN ([error_score]). *)
Definition fold_score (est : Pipeline)
  (fold : (DataFrame * Series) * (DataFrame * Series)) : float64 :=
  match pipeline_fit est (fst (fst fold)) (snd (fst fold)) with
  | Raise _ => NaN
  | Ok fitted =>
      match pipeline_score fitted (fst (snd fold)) (snd (snd fold)) with
      | Raise _ => NaN
      | Ok s => s
      end
  end.

Definition cross_val_mean (est : Pipeline) (k : nat) (X : DataFrame) (y : Series)
  : res float64 :=
  folds <- KFold k X y ;;
  Ok (div (fsum (map (fold_score est) folds)) (of_nat (length folds))).

Definition grid_fit (g : GridSearchCV) (X : DataFrame) (y : Series)
  : res GridSearchCV :=
  let base := clone (estimator g) in
  results <- mapM (fun c =>
                     est <- set_params base c ;;
                     s <- cross_val_mean est (cv g) X y ;;
                     Ok (c, s))
                  (ParameterGrid (param_grid g)) ;;
  match results with
  | [] => Raise ValueError
  | r0 :: t =>
      let best := argbest r0 t in
      if refit g then
        est <- set_params base (fst best) ;;
        fitted <- pipeline_fit est X y ;;
        Ok (mkGrid (estimator g) (param_grid g) (cv g) (refit g)
                   (Some results) (Some (fst best)) (Some fitted))
      else
        Ok (mkGrid (estimator g) (param_grid g) (cv g) (refit g)
                   (Some results) (Some (fst best)) None)
  end.

Definition grid_predict (g : GridSearchCV) (X : DataFrame) : res (list float64) :=
  match best_estimator_ g with
  | None => Raise (LibraryError 0)
  | Some p => pipeline_predict p X
  end.

(** *** Modelling cells *)

(** [X = data_prepared().drop(columns=['price'])], [y = data_prepared()['price']]
    and the first split. *)
Definition cell_features_target (k : Kernel) : res Kernel :=
  df <- data_prepared files to_timestamp ;;
  X <- drop_columns df ["price"] ;;
  let k := assign k "X" (OFrame X) in
  df <- data_prepared files to_timestamp ;;
  y <- getitem df "price" ;;
  let k := assign k "y" (OSeries y) in
  X <- get_frame k "X" ;;
  y <- get_series k "y" ;;
  parts <- train_test_split X y (3 # 10) 42 ;;
  let k := log k (EvSplit (3 # 10) 42) in
  let k := assign k "X_train" (OFrame (fst (fst parts))) in
  let k := assign k "X_test" (OFrame (snd (fst parts))) in
  let k := assign k "y_train" (OSeries (fst (snd parts))) in
  let k := assign k "y_test" (OSeries (snd (snd parts))) in
  Ok k.

(** [rf_reg]: created, the data split again, fitted and scored. *)
Definition cell_rf_reg (k : Kernel) : res Kernel :=
  let k := assign k "rf_reg" (OForest (new_RandomForestRegressor 42)) in
  X <- get_frame k "X" ;;
  y <- get_series k "y" ;;
  parts <- train_test_split X y (2 # 10) 42 ;;
  let k := log k (EvSplit (2 # 10) 42) in
  let k := assign k "X_train" (OFrame (fst (fst parts))) in
  let k := assign k "X_test" (OFrame (snd (fst parts))) in
  let k := assign k "y_train" (OSeries (fst (snd parts))) in
  let k := assign k "y_test" (OSeries (snd (snd parts))) in
  m <- get_forest k "rf_reg" ;;
  X_train <- get_frame k "X_train" ;;
  y_train <- get_series k "y_train" ;;
  m <- rfr_fit m X_train y_train ;;
  let k := log (assign k "rf_reg" (OForest m)) (EvFit "rf_reg" X_train y_train) in
  m <- get_forest k "rf_reg" ;;
  X_test <- get_frame k "X_test" ;;
  y_test <- get_series k "y_test" ;;
  rf_score <- rfr_score m X_test y_test ;;
  let k := log (assign k "rf_score" (ONum rf_score)) (EvScore "rf_reg" X_test y_test) in
  Ok k.

(** [rf = make_pipeline(SimpleImputer(), RandomForestRegressor(random_state=42))]
    and [rf.fit(X_train, y_train)]. *)
Definition cell_pipeline (k : Kernel) : res Kernel :=
  let k := assign k "rf"
             (OPipeline (make_pipeline (mkImputer None)
                                       (new_RandomForestRegressor 42))) in
  p <- get_pipeline k "rf" ;;
  X_train <- get_frame k "X_train" ;;
  y_train <- get_series k "y_train" ;;
  p <- pipeline_fit p X_train y_train ;;
  let k := log (assign k "rf" (OPipeline p)) (EvFit "rf" X_train y_train) in
  Ok k.

(** Training and test MAE of [rf]. *)
Definition cell_pipeline_mae (k : Kernel) : res Kernel :=
  p <- get_pipeline k "rf" ;;
  X_train <- get_frame k "X_train" ;;
  preds <- pipeline_predict p X_train ;;
  let k := log (assign k "y_pred_training" (OArray preds)) (EvPredict "rf" X_train) in
  p <- get_pipeline k "rf" ;;
  X_test <- get_frame k "X_test" ;;
  preds' <- pipeline_predict p X_test ;;
  let k := log (assign k "y_pred_test" (OArray preds')) (EvPredict "rf" X_test) in
  y_train <- get_series k "y_train" ;;
  _ <- mean_absolute_error y_train preds ;;
  y_test <- get_series k "y_test" ;;
  _ <- mean_absolute_error y_test preds' ;;
  Ok k.

(** [params = {...}] *)
Definition cell_params (k : Kernel) : res Kernel :=
  Ok (assign k "params"
        (ODict [("randomforestregressor__n_estimators", py_range 25 100 25);
                ("randomforestregressor__max_depth", py_range 10 50 10)])).

(** [model = GridSearchCV(estimator=rf, param_grid=params, cv=5, ...,
    refit=True)] and [model.fit(X_train, y_train)]. *)
Definition cell_grid_search (k : Kernel) : res Kernel :=
  rf <- get_pipeline k "rf" ;;
  params <- get_dict k "params" ;;
  let k := assign k "model" (OGrid (new_GridSearchCV rf params 5 true)) in
  g <- get_grid k "model" ;;
  X_train <- get_frame k "X_train" ;;
  y_train <- get_series k "y_train" ;;
  g <- grid_fit g X_train y_train ;;
  let k := log (assign k "model" (OGrid g)) (EvFit "model" X_train y_train) in
  Ok k.

(** Training and test MAE of [model]. *)
Definition cell_grid_mae (k : Kernel) : res Kernel :=
  g <- get_grid k "model" ;;
  X_train <- get_frame k "X_train" ;;
  preds <- grid_predict g X_train ;;
  let k := log (assign k "y_pred_training" (OArray preds)) (EvPredict "model" X_train) in
  g <- get_grid k "model" ;;
  X_test <- get_frame k "X_test" ;;
  preds' <- grid_predict g X_test ;;
  let k := log (assign k "y_pred_test" (OArray preds')) (EvPredict "model" X_test) in
  y_train <- get_series k "y_train" ;;
  _ <- mean_absolute_error y_train preds ;;
  y_test <- get_series k "y_test" ;;
  _ <- mean_absolute_error y_test preds' ;;
  Ok k.

(** [cross_val_score(model, X_train, y_train, cv=5)]: clones of [model] are
    fitted and scored fold by fold and the scores are discarded; then
    [cv_results = pd.DataFrame(model.cv_results_)]. *)
Definition grid_score (g : GridSearchCV) (X : DataFrame) (y : Series)
  : res float64 :=
  preds <- grid_predict g X ;;
  r2_score y preds.

Definition cell_cross_val (k : Kernel) : res Kernel :=
  g <- get_grid k "model" ;;
  X_train <- get_frame k "X_train" ;;
  y_train <- get_series k "y_train" ;;
  folds <- KFold 5 X_train y_train ;;
  let _scores :=
    map (fun fold =>
           match grid_fit g (fst (fst fold)) (snd (fst fold)) with
           | Raise _ => NaN
           | Ok fitted =>
               match grid_score fitted (fst (snd fold)) (snd (snd fold)) with
               | Raise _ => NaN
               | Ok s => s
               end
           end) folds in
  g <- get_grid k "model" ;;
  match cv_results_ g with
  | None => Raise (LibraryError 1) (* AttributeError *)
  | Some r => Ok (assign k "cv_results" (OArray (map snd r)))
  end.

(** The modelling cells run top to bottom on a fresh kernel. *)
Definition run_notebook : res Kernel :=
  k <- cell_features_target fresh_kernel ;;
  k <- cell_rf_reg k ;;
  k <- cell_pipeline k ;;
  k <- cell_pipeline_mae k ;;
  k <- cell_params k ;;
  k <- cell_grid_search k ;;
  k <- cell_cross_val k ;;
  k <- cell_grid_mae k ;;
  Ok k.

End Notebook.

(* ================================================================== *)
(** ** Model deployment: the Dash callback *)

(** A value a [dcc.Input(type='number')] hands to the callback: [None] for
    an empty field, otherwise the number of the JSON request, an [int] or a
    finite [float]. *)
Inductive pyval : Type :=
| PyNone
| PyInt (z : Z)
| PyFloat (q : Q).

Definition to_Q (v : pyval) : res Q :=
  match v with
  | PyNone => Raise TypeError
  | PyInt z => Ok (inject_Z z)
  | PyFloat q => Ok q
  end.

Definition is_zero (x : float64) : bool :=
  match x with Fin q => Qeq_bool q 0 | _ => false end.

(** Python's [a / b] on numbers. *)
Definition py_truediv (a b : pyval) : res pyval :=
  x <- to_Q a ;;
  y <- to_Q b ;;
  if Qeq_bool y 0 then Raise ZeroDivisionError
  else Ok (PyFloat (x / y)).

(** Python's [a * b] on numbers. *)
Definition py_mul (a b : pyval) : res pyval :=
  match a, b with
  | PyInt x, PyInt y => Ok (PyInt (x * y))
  | _, _ => x <- to_Q a ;; y <- to_Q b ;; Ok (PyFloat (x * y))
  end.

Definition to_cell (v : pyval) : cell :=
  match v with
  | PyNone => CNone
  | PyInt z => CNum (of_Z z)
  | PyFloat q => CNum (Fin q)
  end.

(** [pd.DataFrame({name: [value], ...})]: one row, the columns in the order
    of the dictionary. *)
Definition single_row_frame (d : list (string * pyval)) : DataFrame :=
  mkDF (map fst d) [(O, map (fun kv => to_cell (snd kv)) d)].

(** [html.Div(text, style=...)] *)
Record Div : Type := mkDiv {
  children : string;
  style : list (string * string)
}.

Definition input_data (bedrooms bathrooms sqft_living floors waterfront view : pyval)
  : res DataFrame :=
  ratio <- py_truediv bedrooms bathrooms ;;
  inter <- py_mul bedrooms bathrooms ;;
  Ok (single_row_frame
        [("bedrooms", bedrooms);
         ("bathrooms", bathrooms);
         ("sqft_living", sqft_living);
         ("floors", floors);
         ("waterfront", waterfront);
         ("view", view);
         ("bedrooms_to_bathrooms_ratio", ratio);
         ("price_per_sqft", PyInt 0);
         ("bedrooms_bathrooms_interaction", inter)]).

Definition first_item (a : list float64) : res float64 :=
  match a with
  | [] => Raise (LibraryError 2) (* IndexError *)
  | x :: _ => Ok x
  end.

(** The callback; [None] is returned when the button was never clicked. *)
Definition update_output (k : Kernel) (n_clicks : Z)
  (bedrooms bathrooms sqft_living floors waterfront view : pyval)
  : res (option Div) :=
  if (n_clicks >? 0)%Z then
    X <- input_data bedrooms bathrooms sqft_living floors waterfront view ;;
    rf_reg <- get_forest k "rf_reg" ;;
    preds <- forest_predict rf_reg X ;;
    predicted_price <- first_item preds ;;
    Ok (Some (mkDiv ("Predicted Price: $" ++ format_comma_2f predicted_price)%string
                    [("font-weight", "bold")]))
  else Ok None.

(** The limits the form declares for its six fields ([min], [max]). *)
Definition in_range (lo hi : Z) (v : pyval) : bool :=
  match v with
  | PyNone => false
  | PyInt z => (lo <=? z)%Z && (z <=? hi)%Z
  | PyFloat q => Qle_bool (inject_Z lo) q && Qle_bool q (inject_Z hi)
  end.

Definition valid_form (bedrooms bathrooms sqft_living floors waterfront view : pyval)
  : bool :=
  in_range 1 10 bedrooms && in_range 1 10 bathrooms &&
  in_range 500 10000 sqft_living && in_range 1 5 floors &&
  in_range 0 1 waterfront && in_range 0 4 view.

(* ================================================================== *)
(** ** Vocabulary of the statements *)

(** The value a row of a frame holds in a column. *)
Definition cell_at (df : DataFrame) (r : nat * list cell) (c : string) : cell :=
  match index_of c (columns df) with
  | Some i => nth i (snd r) missing
  | None => missing
  end.

Definition num_of (c : cell) : float64 :=
  match c with CNum x => x | _ => NaN end.

Definition is_num (c : cell) : bool :=
  match c with CNum _ => true | _ => false end.

(** A price cell lies in the closed band [lo, hi]. *)
Definition price_within (lo hi : float64) (c : cell) : bool :=
  match c with
  | CNum p => leb lo p && leb p hi
  | _ => false
  end.

(** A record of the raw schema that [data_prepared] can process: eighteen
    cells, a date pandas can convert, and numbers for price, bedrooms,
    bathrooms and sqft_living. *)
Definition raw_record_ok (to_timestamp : cell -> res cell) (r : list cell) : bool :=
  match r with
  | [date; CNum _; CNum _; CNum _; CNum _; _; _; _; _; _; _; _; _; _; _; _; _; _] =>
      match to_timestamp date with Ok _ => true | Raise _ => false end
  | _ => false
  end.

Definition num_at (i : nat) (r : list cell) : float64 := num_of (nth i r missing).

(** Positions in the raw schema. *)
Definition raw_price (r : list cell) : float64 := num_at 1 r.
Definition raw_bedrooms (r : list cell) : float64 := num_at 2 r.
Definition raw_bathrooms (r : list cell) : float64 := num_at 3 r.
Definition raw_sqft_living (r : list cell) : float64 := num_at 4 r.

Definition prepared_columns : list string :=
  ["price"; "bedrooms"; "bathrooms"; "sqft_living"; "floors"; "waterfront";
   "view"; "bedrooms_to_bathrooms_ratio"; "price_per_sqft";
   "bedrooms_bathrooms_interaction"].

Definition serving_columns : list string :=
  ["bedrooms"; "bathrooms"; "sqft_living"; "floors"; "waterfront"; "view";
   "bedrooms_to_bathrooms_ratio"; "price_per_sqft";
   "bedrooms_bathrooms_interaction"].

(** The prepared image of a raw record. *)
Definition prepared_row (r : list cell) : list cell :=
  [CNum (raw_price r); CNum (raw_bedrooms r); CNum (raw_bathrooms r);
   CNum (raw_sqft_living r); nth 6 r missing; nth 7 r missing; nth 8 r missing;
   CNum (div (raw_bedrooms r) (raw_bathrooms r));
   CNum (div (raw_price r) (raw_sqft_living r));
   CNum (mul (raw_bedrooms r) (raw_bathrooms r))].

Definition labelled (records : list (list cell)) : list (nat * list cell) :=
  combine (seq 0 (length records)) records.

Definition price_quantile (records : list (list cell)) (q : Q) : float64 :=
  interpolate (sort_values (dropna (map raw_price records))) q.

Definition in_band (lo hi : float64) (r : list cell) : bool :=
  geb (raw_price r) lo && leb (raw_price r) hi.

Definition ts_of (to_timestamp : cell -> res cell) (c : cell) : cell :=
  match to_timestamp c with Ok d => d | Raise _ => missing end.


(** The dictionary bound to [params] and the pipeline first bound to [rf]. *)
Definition the_params : list (string * list Z) :=
  [("randomforestregressor__n_estimators", py_range 25 100 25);
   ("randomforestregressor__max_depth", py_range 10 50 10)].

Definition the_pipeline : Pipeline :=
  make_pipeline (mkImputer None) (new_RandomForestRegressor 42).

(** The grid written out: [max_depth] in {10, 20, 30, 40} crossed with
    [n_estimators] in {25, 50, 75}, [max_depth] varying slowest as the grid
    orders its keys. *)
Definition grid_pairs : list (Z * Z) :=
  list_prod [10; 20; 30; 40]%Z [25; 50; 75]%Z.

Definition candidate_of (dn : Z * Z) : Candidate :=
  [("randomforestregressor__max_depth", fst dn);
   ("randomforestregressor__n_estimators", snd dn)].

Definition the_candidates : list Candidate := map candidate_of grid_pairs.


Definition bold : list (string * string) := [("font-weight", "bold")].

(** *** Shape of a currency string *)

Definition is_digit (a : ascii) : bool :=
  (48 <=? nat_of_ascii a) && (nat_of_ascii a <=? 57).

(** What may follow the leading group: groups of a comma and three digits,
    then the point and two digits. *)
Fixpoint groups (s : string) : bool :=
  match s with
  | String "," (String a (String b (String c rest))) =>
      is_digit a && is_digit b && is_digit c && groups rest
  | String "." (String a (String b EmptyString)) => is_digit a && is_digit b
  | _ => false
  end.

(** One to three digits, then [groups]. *)
Definition is_money (s : string) : bool :=
  match s with
  | String a r1 =>
      is_digit a &&
      (groups r1 ||
       match r1 with
       | String b r2 =>
           is_digit b &&
           (groups r2 ||
            match r2 with
            | String c r3 => is_digit c && groups r3
            | EmptyString => false
            end)
       | EmptyString => false
       end)
  | EmptyString => false
  end.

(** "$" followed by a grouped amount with two decimals. *)
Definition is_currency (s : string) : bool :=
  match s with
  | String "$" r => is_money r
  | _ => false
  end.

(** *** Forests grown on non-negative targets *)

Fixpoint tree_leaves (t : tree) : list float64 :=
  match t with
  | Leaf v => [v]
  | Node _ _ l r => tree_leaves l ++ tree_leaves r
  end.

(** A leaf value lies between two of the training targets. *)
Definition leaf_within (y : Series) (v : float64) : Prop :=
  exists a b, In (CNum a) y /\ In (CNum b) y /\ leb a v = true /\ leb v b = true.

(** What fitting a random forest regressor guarantees: at least one tree,
    and every leaf predicts a mean of training targets, hence a value within
    their range. *)
Definition fit_respects_targets
  (rf_fit : RFParams -> DataFrame -> Series -> res Forest) : Prop :=
  forall p X y f, rf_fit p X y = Ok f ->
    f <> [] /\
    forall t, In t f -> forall v, In v (tree_leaves t) -> leaf_within y v.

Definition nonneg_cell (c : cell) : bool :=
  match c with
  | CNum (Fin q) => Qle_bool 0 q
  | _ => false
  end.

Definition nonneg (x : float64) : Prop := exists q, x = Fin q /\ (0 <= q)%Q.

(* ================================================================== *)
(** ** A small world to run the notebook in *)

Module Sample.

(** Dates are kept as strings in the file; the sample conversion accepts any
    string. *)
Definition to_timestamp (c : cell) : res cell :=
  match c with
  | CStr s => Ok (CDate (Z.of_nat (String.length s)))
  | CDate t => Ok (CDate t)
  | _ => Raise ValueError
  end.

Definition num (q : Q) : cell := CNum (Fin q).

(** One sale: price, bedrooms, bathrooms, sqft_living, floors; the other
    attributes are the same for every sample house. *)
Definition house (price bedrooms bathrooms sqft_living floors : Q) : list cell :=
  [CStr "2014-05-02 00:00:00"; num price; num bedrooms; num bathrooms;
   num sqft_living; num 7200; num floors; num 0; num 0; num 3;
   num sqft_living; num 0; num 1975; num 0;
   CStr "18810 Densmore Ave N"; CStr "Shoreline"; CStr "WA 98133"; CStr "USA"].

Definition records : list (list cell) :=
  [house 313000 3 (3 # 2) 1340 (3 # 2);
   house 2384000 5 (5 # 2) 3650 2;
   house 342000 3 2 1930 1;
   house 420000 3 (9 # 4) 2000 1;
   house 550000 4 (5 # 2) 1940 1;
   house 490000 2 1 880 1;
   house 335000 2 2 1350 1;
   house 482000 4 (5 # 2) 2710 2;
   house 452500 3 (5 # 2) 2430 1;
   house 640000 4 2 1520 (3 # 2);
   house 463000 3 (7 # 4) 1710 1;
   house 0 3 1 1200 1].

Definition files (path : string) : option (list string * list (list cell)) :=
  if String.eqb path "data.csv" then Some (raw_columns, records) else None.



(** Stand-ins for the scikit-learn routines: the split keeps the order of
    the rows and puts the last [ceil(test_size * n)] of them in the test
    part; the forest is [n_estimators] single-leaf trees that all predict one
    of the training targets; the imputer changes nothing; the score is the
    negated sum of squared errors and the error measure the mean absolute
    error. *)
Definition train_test_split (X : DataFrame) (y : Series) (test_size : Q) (seed : Z)
  : res ((DataFrame * DataFrame) * (Series * Series)) :=
  let n := length (rows X) in
  let n_test := Z.to_nat (Qceiling (test_size * inject_Z (Z.of_nat n))) in
  let n_train := n - n_test in
  if (n_train =? 0) || (n_test =? 0) then Raise ValueError
  else Ok ((mkDF (columns X) (firstn n_train (rows X)),
            mkDF (columns X) (skipn n_train (rows X))),
           (firstn n_train y, skipn n_train y)).

Definition rf_fit (p : RFParams) (X : DataFrame) (y : Series) : res Forest :=
  _ <- feature_matrix X ;;
  ys <- mapM as_feature y ;;
  if (length ys =? 0) || (n_estimators p <? 1)%Z then Raise ValueError
  else
    let n := Z.to_nat (n_estimators p) in
    Ok (repeat (Leaf (nth (n mod length ys) ys NaN)) n).

Definition imputer_fit (X : DataFrame) : res (list float64) := Ok [].

Definition imputer_transform (st : list float64) (X : DataFrame) : res DataFrame :=
  Ok X.

Definition fabs (x : float64) : float64 :=
  match x with
  | Fin q => Fin (Qabs q)
  | Inf _ => Inf false
  | NaN => NaN
  end.

Definition errors (y : Series) (preds : list float64) : res (list float64) :=
  if negb (length y =? length preds) then Raise ValueError
  else mapM (fun cp => v <- as_num (fst cp) ;; Ok (sub v (snd cp))) (combine y preds).

Definition r2_score (y : Series) (preds : list float64) : res float64 :=
  es <- errors y preds ;;
  Ok (neg (fsum (map (fun e => mul e e) es))).

Definition mean_absolute_error (y : Series) (preds : list float64) : res float64 :=
  es <- errors y preds ;;
  Ok (div (fsum (map fabs es)) (of_nat (length es))).

Definition run : res Kernel :=
  run_notebook files to_timestamp train_test_split rf_fit imputer_fit
               imputer_transform r2_score mean_absolute_error.

(** The kernel after the run. *)
Definition kernel : Kernel :=
  Eval vm_compute in match run with Ok k => k | Raise _ => fresh_kernel end.

(** The training part it ends with. *)
Definition X_train : DataFrame :=
  Eval vm_compute in
    match get_frame kernel "X_train" with Ok d => d | Raise _ => mkDF [] [] end.

Definition y_train : Series :=
  Eval vm_compute in
    match get_series kernel "y_train" with Ok t => t | Raise _ => [] end.

(** The submission the form shows by default. *)
Definition bedrooms : pyval := PyInt 3.
Definition bathrooms : pyval := PyInt 2.
Definition sqft_living : pyval := PyInt 1500.
Definition floors : pyval := PyInt 1.
Definition waterfront : pyval := PyInt 0.
Definition view : pyval := PyInt 0.

End Sample.

(* ================================================================== *)
(** ** Vocabulary of the further properties *)

(** The columns [data_prepared] names: the five it reads and the eleven it
    drops ("date" is both read and dropped). *)
Definition read_columns : list string :=
  ["date"; "price"; "bedrooms"; "bathrooms"; "sqft_living"].

Definition dropped_columns : list string :=
  ["country"; "statezip"; "sqft_above"; "sqft_basement"; "yr_renovated";
   "condition"; "yr_built"; "date"; "street"; "city"; "sqft_lot"].

Definition derived_columns : list string :=
  ["bedrooms_to_bathrooms_ratio"; "price_per_sqft";
   "bedrooms_bathrooms_interaction"].

(** The cells of a raw record that survive preparation: price, bedrooms,
    bathrooms, sqft_living, floors, waterfront and view. *)
Definition kept_cells (r : list cell) : list cell :=
  [nth 1 r missing; nth 2 r missing; nth 3 r missing; nth 4 r missing;
   nth 6 r missing; nth 7 r missing; nth 8 r missing].

(** The prepared rows as a function of the kept cells alone. *)
Definition kept_price (k : list cell) : float64 := num_of (nth 0 k missing).

Definition kept_row (k : list cell) : list cell :=
  let price := kept_price k in
  let bedrooms := num_of (nth 1 k missing) in
  let bathrooms := num_of (nth 2 k missing) in
  let sqft_living := num_of (nth 3 k missing) in
  [CNum price; CNum bedrooms; CNum bathrooms; CNum sqft_living;
   nth 4 k missing; nth 5 k missing; nth 6 k missing;
   CNum (div bedrooms bathrooms); CNum (div price sqft_living);
   CNum (mul bedrooms bathrooms)].

Definition prepared_from_kept (ks : list (list cell)) : list (nat * list cell) :=
  let quant q := interpolate (sort_values (dropna (map kept_price ks))) q in
  map (fun k => (fst k, kept_row (snd k)))
      (filter (fun k => geb (kept_price (snd k)) (quant (1 # 10)) &&
                        leb (kept_price (snd k)) (quant (9 # 10)))
              (labelled ks)).

(** The amount a formatted price shows, in cents: its digits read from left
    to right, separators and sign skipped. *)
Fixpoint cents_acc (s : string) (acc : Z) : Z :=
  match s with
  | EmptyString => acc
  | String a r =>
      if is_digit a
      then cents_acc r (10 * acc + (Z.of_nat (nat_of_ascii a) - 48))
      else cents_acc r acc
  end.

Definition cents_of_text (s : string) : Z := cents_acc s 0.

(** [text] renders the non-negative amount [price] as currency: it has
    the shape of a grouped amount with two decimals; its digits, read as
    cents, are within half a cent of the price, the even one at a tie; and
    it has no leading zero but the single 0 of an amount below 1. *)
Definition renders (text : string) (price : Q) : Prop :=
  is_currency ("$" ++ text) = true /\
  (Qabs (price * 100 - inject_Z (cents_of_text text)) <= 1 # 2)%Q /\
  ((Qabs (price * 100 - inject_Z (cents_of_text text)) == 1 # 2)%Q ->
   Z.even (cents_of_text text) = true) /\
  (forall rest, text = String "0" rest -> get 0 rest = Some "."%char).

(** *** The form of the layout and the wiring of the callback *)

(** [dcc.Input(id=..., type='number', value=..., min=..., max=..., step=...)] *)
Record NumberInput : Type := mkInput {
  input_id : string;
  input_value : pyval;
  input_min : Z;
  input_max : Z;
  input_step : Q
}.

Definition layout_inputs : list NumberInput :=
  [mkInput "bedrooms" (PyInt 3) 1 10 1;
   mkInput "bathrooms" (PyInt 2) 1 10 (1 # 2);
   mkInput "sqft_living" (PyInt 1500) 500 10000 50;
   mkInput "floors" (PyInt 1) 1 5 (1 # 2);
   mkInput "waterfront" (PyInt 0) 0 1 1;
   mkInput "view" (PyInt 0) 0 4 1].

(** [html.Button('Predict Price', id='predict-button', n_clicks=0)] *)
Definition button_n_clicks : Z := 0.

(** The [State] list of [@app.callback], in the order of the decorator. *)
Definition callback_state : list string :=
  ["bedrooms"; "bathrooms"; "sqft_living"; "floors"; "waterfront"; "view"].

(** The current value of the component with a given id; a component the
    page does not hold has no value. *)
Definition field_value (fields : list (string * pyval)) (id : string) : pyval :=
  match find (fun kv => String.eqb (fst kv) id) fields with
  | Some kv => snd kv
  | None => PyNone
  end.

(** The call Dash makes when the click count changes: the click count, then
    the values of the [State] components in their declared order. *)
Definition dispatch (k : Kernel) (n_clicks : Z) (fields : list (string * pyval))
  : res (option Div) :=
  match map (field_value fields) callback_state with
  | [bedrooms; bathrooms; sqft_living; floors; waterfront; view] =>
      update_output k n_clicks bedrooms bathrooms sqft_living floors waterfront view
  | _ => Raise TypeError
  end.

(** The fields of the page as loaded. *)
Definition form_defaults : list (string * pyval) :=
  map (fun i => (input_id i, input_value i)) layout_inputs.

(** The value of a field respects the [min] and [max] its input declares. *)
Definition within_limits (fields : list (string * pyval)) (i : NumberInput) : bool :=
  in_range (input_min i) (input_max i) (field_value fields (input_id i)).

(** The price of a record is a finite number. *)
Definition finite_price (r : list cell) : bool := is_finite (raw_price r).

(** What [train_test_split] guarantees of the training targets: each one is
    one of the targets it was given. *)
Definition split_keeps_targets
  (train_test_split :
     DataFrame -> Series -> Q -> Z ->
     res ((DataFrame * DataFrame) * (Series * Series))) : Prop :=
  forall X y size seed parts,
    train_test_split X y size seed = Ok parts -> incl (fst (snd parts)) y.

(** ** Further sample files *)

Module Variant.

Definition file_of (records : list (list cell)) (path : string)
  : option (list string * list (list cell)) :=
  if String.eqb path "data.csv" then Some (raw_columns, records) else None.

(** A file of one sale. *)
Definition one_house : list cell := Sample.house 313000 3 (3 # 2) 1340 (3 # 2).
Definition other_house : list cell := Sample.house 420000 3 (9 # 4) 2000 1.
Definition one_record := file_of [one_house].

(** The sample houses with another date, lot size, condition, year, street
    and city: every column [data_prepared] drops at its end is changed in
    some cell. *)
Definition relocate (r : list cell) : list cell :=
  set_nth 0 (CStr "2014-07-10")
    (set_nth 5 (Sample.num 9050)
       (set_nth 9 (Sample.num 4)
          (set_nth 12 (Sample.num 1990)
             (set_nth 14 (CStr "9245 Fremont Ave N")
                (set_nth 15 (CStr "Seattle") r))))).

Definition relocated_records : list (list cell) := map relocate Sample.records.
Definition relocated := file_of relocated_records.

(** Another date conversion: every date becomes the same instant. *)
Definition to_timestamp (c : cell) : res cell :=
  match c with
  | CStr _ => Ok (CDate 0)
  | CDate t => Ok (CDate t)
  | _ => Raise ValueError
  end.

(** A file in which one price is text. *)
Definition text_price_records : list (list cell) :=
  [set_nth 1 (CStr "313,000 USD") one_house;
   set_nth 1 (CStr "420,000 USD") other_house].
Definition text_price := file_of text_price_records.

(** The table prepared from the sample file. *)
Definition prepared : DataFrame :=
  Eval vm_compute in
    match data_prepared Sample.files Sample.to_timestamp with
    | Ok d => d
    | Raise _ => mkDF [] []
    end.

End Variant.


(* ================================================================== *)
(** * Facts *)

Unset Implicit Arguments.

(** ** The definitions at work *)

Example format_comma_2f_millions :
  format_comma_2f (Fin (1234567891 # 1000)) = "1,234,567.89".
Proof. reflexivity. Qed.

Example format_comma_2f_ties_to_even :
  format_comma_2f (Fin (5 # 1000)) = "0.00" /\
  format_comma_2f (Fin (15 # 1000)) = "0.02".
Proof. split; reflexivity. Qed.

Example format_comma_2f_special :
  format_comma_2f (Fin (- (1 # 1000))) = "-0.00" /\
  format_comma_2f (Inf false) = "inf" /\ format_comma_2f NaN = "nan".
Proof. repeat split. Qed.

Example py_range_of_the_grid :
  py_range 25 100 25 = [25; 50; 75]%Z /\ py_range 10 50 10 = [10; 20; 30; 40]%Z.
Proof. split; reflexivity. Qed.

Example fold_bounds_13_rows :
  fold_bounds 0 (fold_sizes 13 5) = [(0, 3); (3, 6); (6, 9); (9, 11); (11, 13)].
Proof. reflexivity. Qed.

Example sample_quantiles :
  original_quantile Sample.files (1 # 10) = Ok (Fin (3152000 # 10)) /\
  original_quantile Sample.files (9 # 10) = Ok (Fin (6310000 # 10)).
Proof. split; vm_compute; reflexivity. Qed.

Example sample_prepared_index :
  option_map index
    (match data_prepared Sample.files Sample.to_timestamp with
     | Ok d => Some d
     | Raise _ => None
     end) = Some [2; 3; 4; 5; 6; 7; 8; 10].
Proof. vm_compute. reflexivity. Qed.

Example zero_bathrooms_division :
  div (Fin 2) (Fin 0) = Inf false /\ div (Fin 0) (Fin 0) = NaN /\
  py_truediv (PyInt 2) (PyInt 0) = Raise ZeroDivisionError.
Proof. repeat split. Qed.

Example callback_before_any_click :
  update_output Sample.kernel 0 Sample.bedrooms Sample.bathrooms
                Sample.sqft_living Sample.floors Sample.waterfront Sample.view
  = Ok None.
Proof. reflexivity. Qed.

(** ** Generic facts *)

Lemma bind_ok {A B : Type} (m : res A) (k : A -> res B) (b : B) :
  bind m k = Ok b -> exists a, m = Ok a /\ k a = Ok b.
Proof. destruct m as [a|e]; simpl; [eauto | discriminate]. Qed.

Lemma mapM_map {A B C : Type} (f : B -> res C) (h : A -> B) (g : A -> C) (l : list A) :
  (forall x, In x l -> f (h x) = Ok (g x)) ->
  mapM f (map h l) = Ok (map g l).
Proof.
  induction l as [|x t IH]; intros H; simpl; [reflexivity|].
  rewrite (H x (or_introl eq_refl)); simpl.
  rewrite IH by (intros; apply H; now right). reflexivity.
Qed.

Lemma mapM_length {A B : Type} (f : A -> res B) (l : list A) (r : list B) :
  mapM f l = Ok r -> length r = length l.
Proof.
  revert r; induction l as [|x t IH]; simpl; intros r H.
  - now inversion H.
  - apply bind_ok in H as (y & _ & H). apply bind_ok in H as (ys & Hys & H).
    inversion H; subst; simpl. now rewrite (IH ys).
Qed.

Lemma mapM_In {A B : Type} (f : A -> res B) (l : list A) (r : list B) :
  mapM f l = Ok r -> forall y, In y r -> exists x, In x l /\ f x = Ok y.
Proof.
  revert r; induction l as [|x t IH]; simpl; intros r H y Hy.
  - inversion H; subst; destruct Hy.
  - apply bind_ok in H as (y0 & Hy0 & H). apply bind_ok in H as (ys & Hys & H).
    inversion H; subst. destruct Hy as [<-|Hy]; [eauto|].
    destruct (IH ys Hys y Hy) as (x0 & ? & ?); eauto.
Qed.

Lemma combine_map_map {A B C : Type} (f : A -> B) (g : A -> C) (l : list A) :
  combine (map f l) (map g l) = map (fun x => (f x, g x)) l.
Proof. induction l; simpl; congruence. Qed.

Lemma combine_map_r {A C : Type} (g : A -> C) (l : list A) :
  combine l (map g l) = map (fun x => (x, g x)) l.
Proof. induction l; simpl; congruence. Qed.

Lemma filter_map_comm {A B : Type} (p : B -> bool) (f : A -> B) (l : list A) :
  filter p (map f l) = map f (filter (fun x => p (f x)) l).
Proof.
  induction l as [|x t IH]; simpl; [reflexivity|].
  destruct (p (f x)); simpl; now rewrite IH.
Qed.

Lemma mask_filter {A : Type} (b : A -> bool) (l : list A) :
  map fst (filter (fun rb => snd rb) (combine l (map b l))) = filter b l.
Proof.
  induction l as [|x t IH]; simpl; [reflexivity|].
  destruct (b x); simpl; now rewrite IH.
Qed.

(** ** Row-wise reading of the pandas operations *)

Lemma as_num_of c : is_num c = true -> as_num c = Ok (num_of c).
Proof. destruct c; simpl; congruence. Qed.

Section RowWise.
Variable cols : list string.
Variable rs : list (nat * list cell).
Let R := (nat * list cell)%type.

Lemma getitem_rows c i :
  index_of c cols = Some i ->
  getitem (mkDF cols rs) c = Ok (map (fun r : R => nth i (snd r) missing) rs).
Proof. unfold getitem; simpl; intros ->; reflexivity. Qed.

Lemma setitem_new c (h : R -> cell) :
  index_of c cols = None ->
  setitem (mkDF cols rs) c (map h rs)
  = Ok (mkDF (cols ++ [c]) (map (fun r => (fst r, snd r ++ [h r])) rs)).
Proof.
  unfold setitem; simpl; intros ->.
  rewrite length_map, Nat.eqb_refl; simpl.
  now rewrite combine_map_r, map_map.
Qed.

Lemma setitem_old c i (h : R -> cell) :
  index_of c cols = Some i ->
  setitem (mkDF cols rs) c (map h rs)
  = Ok (mkDF cols (map (fun r => (fst r, set_nth i (h r) (snd r))) rs)).
Proof.
  unfold setitem; simpl; intros ->.
  rewrite length_map, Nat.eqb_refl; simpl.
  now rewrite combine_map_r, map_map.
Qed.

Lemma series_ge_rows (h : R -> cell) x :
  (forall r, In r rs -> is_num (h r) = true) ->
  series_ge (map h rs) x = Ok (map (fun r => CBool (geb (num_of (h r)) x)) rs).
Proof.
  intros H; unfold series_ge; apply mapM_map; intros r Hr.
  now rewrite (as_num_of _ (H r Hr)).
Qed.

Lemma series_le_rows (h : R -> cell) x :
  (forall r, In r rs -> is_num (h r) = true) ->
  series_le (map h rs) x = Ok (map (fun r => CBool (leb (num_of (h r)) x)) rs).
Proof.
  intros H; unfold series_le; apply mapM_map; intros r Hr.
  now rewrite (as_num_of _ (H r Hr)).
Qed.

Lemma series_zip_rows f (h1 h2 g : R -> cell) :
  (forall r, In r rs -> f (h1 r) (h2 r) = Ok (g r)) ->
  series_zip f (map h1 rs) (map h2 rs) = Ok (map g rs).
Proof.
  intros H; unfold series_zip.
  rewrite !length_map, Nat.eqb_refl; simpl.
  rewrite combine_map_map. now apply mapM_map.
Qed.

Lemma series_num_rows op (h1 h2 : R -> cell) :
  (forall r, In r rs -> is_num (h1 r) = true /\ is_num (h2 r) = true) ->
  series_zip (num_op op) (map h1 rs) (map h2 rs)
  = Ok (map (fun r => CNum (op (num_of (h1 r)) (num_of (h2 r)))) rs).
Proof.
  intros H; apply series_zip_rows; intros r Hr.
  destruct (H r Hr) as [H1 H2]; unfold num_op.
  now rewrite (as_num_of _ H1), (as_num_of _ H2).
Qed.

Lemma series_and_rows (b1 b2 : R -> bool) :
  series_and (map (fun r => CBool (b1 r)) rs) (map (fun r => CBool (b2 r)) rs)
  = Ok (map (fun r => CBool (b1 r && b2 r)) rs).
Proof. unfold series_and; now apply series_zip_rows. Qed.

Lemma boolean_index_rows (b : R -> bool) :
  boolean_index (mkDF cols rs) (map (fun r => CBool (b r)) rs)
  = Ok (mkDF cols (filter b rs)).
Proof.
  unfold boolean_index; simpl.
  rewrite length_map, Nat.eqb_refl; simpl.
  rewrite (mapM_map as_bool (fun r => CBool (b r)) b) by reflexivity; simpl.
  now rewrite mask_filter.
Qed.

Lemma quantile_rows (h : R -> cell) q :
  Qle_bool 0 q && Qle_bool q 1 = true ->
  (forall r, In r rs -> is_num (h r) = true) ->
  quantile (map h rs) q
  = Ok (interpolate (sort_values (dropna (map (fun r => num_of (h r)) rs))) q).
Proof.
  intros Hq H; unfold quantile; rewrite Hq; simpl.
  rewrite (mapM_map as_num h (fun r => num_of (h r))); [reflexivity|].
  intros r Hr; now apply as_num_of, H.
Qed.

Lemma drop_columns_rows cs :
  first_missing cs cols = None ->
  drop_columns (mkDF cols rs) cs
  = Ok (mkDF (filter (fun c => negb (has_col cs c)) cols)
             (map (fun r => (fst r, drop_cells cols cs (snd r))) rs)).
Proof. unfold drop_columns; simpl; intros ->; reflexivity. Qed.

End RowWise.

Lemma raw_record_ok_inv ts r :
  raw_record_ok ts r = true ->
  exists date p be ba sl c5 c6 c7 c8 c9 c10 c11 c12 c13 c14 c15 c16 c17 d,
    r = [date; CNum p; CNum be; CNum ba; CNum sl; c5; c6; c7; c8; c9; c10;
         c11; c12; c13; c14; c15; c16; c17] /\ ts date = Ok d.
Proof.
  unfold raw_record_ok.
  destruct r as [|date r]; [discriminate|].
  do 4 (destruct r as [|[?| | | |] r]; try discriminate).
  do 13 (destruct r as [|? r]; [discriminate|]).
  destruct r; [|discriminate].
  destruct (ts date) eqn:E; [|discriminate].
  intros _. repeat eexists. exact E.
Qed.

Lemma labelled_snd records : map snd (labelled records) = records.
Proof.
  unfold labelled. generalize 0%nat.
  induction records as [|r t IH]; intros n; simpl; [reflexivity|].
  now rewrite IH.
Qed.

Lemma labelled_In records i r : In (i, r) (labelled records) -> In r records.
Proof. unfold labelled; apply in_combine_r. Qed.

Section PreparationFacts.

Variable files : string -> option (list string * list (list cell)).
Variable to_timestamp : cell -> res cell.
Variable records : list (list cell).

Hypothesis Hfile : files "data.csv" = Some (raw_columns, records).
Hypothesis Hrecords : forallb (raw_record_ok to_timestamp) records = true.

Lemma labelled_ok r : In r (labelled records) -> raw_record_ok to_timestamp (snd r) = true.
Proof.
  destruct r as [i r]; intros H; apply labelled_In in H.
  rewrite forallb_forall in Hrecords. now apply Hrecords.
Qed.

Ltac peel H :=
  repeat first
    [ apply in_map_iff in H; destruct H as (? & <- & H)
    | apply filter_In in H; destruct H as [H _] ];
  apply labelled_ok in H;
  apply raw_record_ok_inv in H;
  destruct H as (? & ? & ? & ? & ? & ? & ? & ? & ? & ? & ? & ? & ? & ? & ? & ? & ? & ? & ? & H & ?);
  match goal with r : (nat * list cell)%type |- _ => destruct r; simpl in H; subst end.

Lemma data_prepared_ok :
  data_prepared files to_timestamp
  = Ok (mkDF prepared_columns
          (map (fun r => (fst r, prepared_row (snd r)))
               (filter (fun r => in_band (price_quantile records (1 # 10))
                                         (price_quantile records (9 # 10)) (snd r))
                       (labelled records)))).
Proof.
  unfold data_prepared, read_csv. rewrite Hfile. cbn [bind].
  fold (labelled records).
  rewrite getitem_rows with (i := 0) by reflexivity. cbn [bind].
  unfold to_datetime.
  rewrite (mapM_map to_timestamp _ (fun r => ts_of to_timestamp (nth 0 (snd r) missing))).
  2:{ intros r Hr. peel Hr. unfold ts_of; simpl.
      match goal with E : to_timestamp _ = _ |- _ => now rewrite E end. }
  cbn [bind].
  rewrite setitem_old with (i := 0) by reflexivity. cbn [bind].
  set (rs1 := map _ (labelled records)).
  assert (Hprice : forall r, In r rs1 -> is_num (nth 1 (snd r) missing) = true).
  { intros r Hr; subst rs1. peel Hr. reflexivity. }
  assert (Hq : forall q, interpolate (sort_values (dropna
             (map (fun r : nat * list cell => num_of (nth 1 (snd r) missing)) rs1))) q
           = price_quantile records q).
  { intros q; unfold price_quantile. do 3 f_equal.
    subst rs1. rewrite map_map.
    rewrite <- (labelled_snd records) at 2. rewrite map_map.
    apply map_ext_in. intros r Hr. peel Hr. reflexivity. }
  rewrite getitem_rows with (i := 1) by reflexivity. cbn [bind].
  rewrite quantile_rows by (reflexivity || exact Hprice). rewrite Hq. cbn [bind].
  rewrite series_ge_rows by exact Hprice. cbn [bind].
  rewrite quantile_rows by (reflexivity || exact Hprice). rewrite Hq. cbn [bind].
  rewrite series_le_rows by exact Hprice. cbn [bind].
  rewrite series_and_rows. cbn [bind].
  rewrite boolean_index_rows. cbn [bind].
  set (rs2 := filter _ rs1).
  rewrite getitem_rows with (i := 2) by reflexivity. cbn [bind].
  rewrite getitem_rows with (i := 3) by reflexivity. cbn [bind].
  unfold series_div at 1.
  rewrite series_num_rows.
  2:{ intros r Hr; subst rs2 rs1. peel Hr. split; reflexivity. }
  cbn [bind].
  rewrite setitem_new by reflexivity. cbn [bind].
  set (rs3 := map _ rs2).
  rewrite getitem_rows with (i := 1) by reflexivity. cbn [bind].
  rewrite getitem_rows with (i := 4) by reflexivity. cbn [bind].
  unfold series_div at 1.
  rewrite series_num_rows.
  2:{ intros r Hr; subst rs3 rs2 rs1. peel Hr. split; reflexivity. }
  cbn [bind].
  rewrite setitem_new by reflexivity. cbn [bind].
  set (rs4 := map _ rs3).
  rewrite getitem_rows with (i := 2) by reflexivity. cbn [bind].
  rewrite getitem_rows with (i := 3) by reflexivity. cbn [bind].
  unfold series_mul at 1.
  rewrite series_num_rows.
  2:{ intros r Hr; subst rs4 rs3 rs2 rs1. peel Hr. split; reflexivity. }
  cbn [bind].
  rewrite setitem_new by reflexivity. cbn [bind].
  set (rs5 := map _ rs4).
  rewrite drop_columns_rows by reflexivity. cbn [bind].
  rewrite drop_columns_rows by reflexivity. cbn [bind].
  assert (Hrs2 : rs2 = map (fun r => (fst r, set_nth 0 (ts_of to_timestamp (nth 0 (snd r) missing)) (snd r)))
            (filter (fun r => in_band (price_quantile records (1 # 10))
                                      (price_quantile records (9 # 10)) (snd r))
                    (labelled records))).
  { subst rs2 rs1. rewrite filter_map_comm. f_equal.
    apply filter_ext_in. intros r Hr. peel Hr. reflexivity. }
  f_equal. f_equal.
  subst rs5 rs4 rs3. rewrite Hrs2, !map_map.
  apply map_ext_in. intros r Hr. peel Hr. reflexivity.
Qed.


Lemma original_quantile_ok q :
  Qle_bool 0 q && Qle_bool q 1 = true ->
  original_quantile files q = Ok (price_quantile records q).
Proof.
  intros Hq. unfold original_quantile, read_csv. rewrite Hfile. cbn [bind].
  fold (labelled records).
  rewrite getitem_rows with (i := 1) by reflexivity. cbn [bind].
  rewrite quantile_rows; [|exact Hq|].
  - unfold price_quantile. do 4 f_equal.
    rewrite <- (labelled_snd records) at 2. now rewrite map_map.
  - intros r Hr. peel Hr. reflexivity.
Qed.

Lemma read_csv_ok :
  read_csv files "data.csv" = Ok (mkDF raw_columns (labelled records)).
Proof. unfold read_csv. now rewrite Hfile. Qed.

Lemma raw_price_cell r :
  In r (labelled records) ->
  cell_at (mkDF raw_columns (labelled records)) r "price" = CNum (raw_price (snd r)).
Proof. intros Hr. peel Hr. reflexivity. Qed.

(** C1.  Outlier filtering in [data_prepared]: with [q10] and [q90] the 10th
    and 90th percentile of the price column of the file as read, the rows of
    the prepared table are, label by label and in order, exactly the rows of
    the file whose price satisfies [q10 <= price <= q90]; every row of the
    output has its price (unchanged) in that band, and every row of the file
    in the band is kept. *)
Theorem data_prepared_price_filter :
  exists raw out q10 q90,
    read_csv files "data.csv" = Ok raw /\
    original_quantile files (1 # 10) = Ok q10 /\
    original_quantile files (9 # 10) = Ok q90 /\
    data_prepared files to_timestamp = Ok out /\
    index out
    = map fst (filter (fun r => price_within q10 q90 (cell_at raw r "price"))
                      (rows raw)) /\
    (forall r', In r' (rows out) ->
       price_within q10 q90 (cell_at out r' "price") = true /\
       exists r, In r (rows raw) /\ fst r = fst r' /\
                 cell_at raw r "price" = cell_at out r' "price") /\
    (forall r, In r (rows raw) ->
       price_within q10 q90 (cell_at raw r "price") = true ->
       exists r', In r' (rows out) /\ fst r' = fst r /\
                  cell_at out r' "price" = cell_at raw r "price").
Proof.
  set (q10 := price_quantile records (1 # 10)).
  set (q90 := price_quantile records (9 # 10)).
  assert (Hband : forall r, In r (labelled records) ->
            price_within q10 q90 (cell_at (mkDF raw_columns (labelled records)) r "price")
            = in_band q10 q90 (snd r)).
  { intros r Hr. rewrite (raw_price_cell r Hr). reflexivity. }
  eexists _, _, q10, q90.
  split; [exact read_csv_ok|].
  split; [now apply original_quantile_ok|].
  split; [now apply original_quantile_ok|].
  split; [exact data_prepared_ok|].
  fold q10 q90. unfold index. cbn [rows columns].
  rewrite (filter_ext_in _ _ _ Hband).
  split; [now rewrite map_map|]. split.
  - intros r' Hr'. apply in_map_iff in Hr' as (r & <- & Hr).
    apply filter_In in Hr as [Hr Hb]. split.
    + exact Hb.
    + exists r. split; [exact Hr|split; [reflexivity|]].
      now rewrite (raw_price_cell r Hr).
  - intros r Hr Hb. rewrite (Hband r Hr) in Hb.
    exists (fst r, prepared_row (snd r)). split.
    + apply in_map_iff. exists r. split; [reflexivity|]. now apply filter_In.
    + split; [reflexivity|]. now rewrite (raw_price_cell r Hr).
Qed.


Lemma prepared_cells r :
  In r (labelled records) ->
  let out := mkDF prepared_columns
               (map (fun r => (fst r, prepared_row (snd r))) (labelled records)) in
  let r' := (fst r, prepared_row (snd r)) in
  cell_at out r' "price" = CNum (raw_price (snd r)) /\
  cell_at out r' "bedrooms" = CNum (raw_bedrooms (snd r)) /\
  cell_at out r' "bathrooms" = CNum (raw_bathrooms (snd r)) /\
  cell_at out r' "sqft_living" = CNum (raw_sqft_living (snd r)) /\
  cell_at out r' "bedrooms_to_bathrooms_ratio"
  = CNum (div (raw_bedrooms (snd r)) (raw_bathrooms (snd r))) /\
  cell_at out r' "price_per_sqft"
  = CNum (div (raw_price (snd r)) (raw_sqft_living (snd r))).
Proof. intros _; repeat split. Qed.

(** Every row of the prepared table holds the three derived features computed
    from its own price, bedrooms, bathrooms and sqft_living. *)
Lemma prepared_rows_derived out :
  data_prepared files to_timestamp = Ok out ->
  forall r, In r (rows out) ->
  exists price bedrooms bathrooms sqft_living,
    cell_at out r "price" = CNum price /\
    cell_at out r "bedrooms" = CNum bedrooms /\
    cell_at out r "bathrooms" = CNum bathrooms /\
    cell_at out r "sqft_living" = CNum sqft_living /\
    cell_at out r "bedrooms_to_bathrooms_ratio" = CNum (div bedrooms bathrooms) /\
    cell_at out r "price_per_sqft" = CNum (div price sqft_living) /\
    cell_at out r "bedrooms_bathrooms_interaction" = CNum (mul bedrooms bathrooms).
Proof.
  rewrite data_prepared_ok. intros E; inversion E; subst out; clear E.
  cbn [rows]. intros r Hr. apply in_map_iff in Hr as (r0 & <- & _).
  now eexists _, _, _, _.
Qed.

End PreparationFacts.

(** ** Column bookkeeping, independent of the cells *)

Lemma setitem_columns df c s df' :
  setitem df c s = Ok df' ->
  columns df' = match index_of c (columns df) with
                | Some _ => columns df
                | None => columns df ++ [c]
                end.
Proof.
  unfold setitem. destruct (negb _); [discriminate|].
  destruct (index_of c (columns df)); intros E; now inversion E.
Qed.

Lemma boolean_index_columns df m df' :
  boolean_index df m = Ok df' -> columns df' = columns df.
Proof.
  unfold boolean_index. destruct (negb _); [discriminate|].
  intros E. apply bind_ok in E as (bs & _ & E). now inversion E.
Qed.

Lemma drop_columns_columns df cs df' :
  drop_columns df cs = Ok df' ->
  columns df' = filter (fun c => negb (has_col cs c)) (columns df).
Proof.
  unfold drop_columns. destruct (first_missing _ _); [discriminate|].
  intros E; now inversion E.
Qed.

Ltac inv_binds H :=
  repeat (apply bind_ok in H; let x := fresh "x" in let E := fresh "E" in
          destruct H as (x & E & H)).

Lemma data_prepared_columns files to_timestamp records out :
  files "data.csv" = Some (raw_columns, records) ->
  data_prepared files to_timestamp = Ok out ->
  columns out = prepared_columns.
Proof.
  intros Hfile H. unfold data_prepared, read_csv in H. rewrite Hfile in H.
  cbn [bind] in H. inv_binds H. inversion H; subst out; clear H.
  repeat match goal with
         | E : setitem _ _ _ = Ok _ |- _ => apply setitem_columns in E
         | E : boolean_index _ _ = Ok _ |- _ => apply boolean_index_columns in E
         | E : drop_columns _ _ = Ok _ |- _ => apply drop_columns_columns in E
         end.
  repeat match goal with
         | E : columns ?d = _ |- _ => rewrite E; clear E
         end.
  reflexivity.
Qed.

(** ** The serving frame *)

Lemma input_data_inv b ba s f w v X :
  input_data b ba s f w v = Ok X ->
  exists x y inter,
    to_Q b = Ok x /\ to_Q ba = Ok y /\ Qeq_bool y 0 = false /\
    py_mul b ba = Ok inter /\
    X = mkDF serving_columns
          [(0, [to_cell b; to_cell ba; to_cell s; to_cell f; to_cell w;
                to_cell v; CNum (Fin (x / y)); CNum (Fin 0); to_cell inter])].
Proof.
  unfold input_data, py_truediv. intros H.
  apply bind_ok in H as (ratio & Hr & H).
  apply bind_ok in H as (inter & Hi & H).
  apply bind_ok in Hr as (x & Hx & Hr).
  apply bind_ok in Hr as (y & Hy & Hr).
  destruct (Qeq_bool y 0) eqn:Hz; [discriminate|].
  inversion Hr; subst ratio; clear Hr.
  inversion H; subst X; clear H.
  now exists x, y, inter.
Qed.

Lemma py_mul_ok b ba x y :
  to_Q b = Ok x -> to_Q ba = Ok y ->
  exists inter qi, py_mul b ba = Ok inter /\ to_cell inter = CNum (Fin qi).
Proof.
  destruct b, ba; simpl; try discriminate; intros; eexists _, _; split; reflexivity.
Qed.

Lemma input_data_ok b ba s f w v x y :
  to_Q b = Ok x -> to_Q ba = Ok y -> Qeq_bool y 0 = false ->
  exists X, input_data b ba s f w v = Ok X.
Proof.
  intros Hx Hy Hz. destruct (py_mul_ok _ _ _ _ Hx Hy) as (inter & qi & Hi & _).
  unfold input_data, py_truediv. rewrite Hx, Hy. cbn [bind]. rewrite Hz.
  cbn [bind]. rewrite Hi. cbn [bind]. eauto.
Qed.

Lemma to_Q_cell v x : to_Q v = Ok x -> to_cell v = CNum (Fin x).
Proof. destruct v; simpl; intros E; now inversion E. Qed.

(** ** Ranking of candidates *)

Lemma Qle_bool_false a b : Qle_bool a b = false <-> (b < a)%Q.
Proof.
  split; intros H.
  - apply Qnot_le_lt. intros Hle. apply Qle_bool_iff in Hle. congruence.
  - destruct (Qle_bool a b) eqn:E; [|reflexivity].
    apply Qle_bool_iff in E. lra.
Qed.

Ltac q_bools :=
  repeat match goal with
         | H : Qle_bool _ _ = true |- _ => apply Qle_bool_iff in H
         | H : Qle_bool _ _ = false |- _ => apply Qle_bool_false in H
         | |- Qle_bool _ _ = true => apply Qle_bool_iff
         | |- Qle_bool _ _ = false => apply Qle_bool_false
         end.













(** *** The folds partition the training rows *)








(** ** The notebook run *)

Section RunFacts.

Variable files : string -> option (list string * list (list cell)).
Variable to_timestamp : cell -> res cell.
Variable train_test_split :
  DataFrame -> Series -> Q -> Z ->
  res ((DataFrame * DataFrame) * (Series * Series)).
Variable rf_fit : RFParams -> DataFrame -> Series -> res Forest.
Variable imputer_fit : DataFrame -> res (list float64).
Variable imputer_transform : list float64 -> DataFrame -> res DataFrame.
Variable r2_score : Series -> list float64 -> res float64.
Variable mean_absolute_error : Series -> list float64 -> res float64.

Local Abbreviation run := (run_notebook files to_timestamp train_test_split rf_fit
                   imputer_fit imputer_transform r2_score mean_absolute_error).
Local Abbreviation fit_pipeline := (pipeline_fit rf_fit imputer_fit imputer_transform).
Local Abbreviation fit_grid := (grid_fit rf_fit imputer_fit imputer_transform r2_score).

Lemma run_notebook_inv k :
  run = Ok k ->
  exists out X y first parts m score p g,
    data_prepared files to_timestamp = Ok out /\
    drop_columns out ["price"] = Ok X /\
    getitem out "price" = Ok y /\
    train_test_split X y (3 # 10) 42 = Ok first /\
    train_test_split X y (2 # 10) 42 = Ok parts /\
    rfr_fit rf_fit (new_RandomForestRegressor 42) (fst (fst parts)) (fst (snd parts)) = Ok m /\
    rfr_score r2_score m (snd (fst parts)) (snd (snd parts)) = Ok score /\
    fit_pipeline the_pipeline (fst (fst parts)) (fst (snd parts)) = Ok p /\
    fit_grid (new_GridSearchCV p the_params 5 true) (fst (fst parts)) (fst (snd parts)) = Ok g /\
    lookup (globals k) "X_train" = Ok (OFrame (fst (fst parts))) /\
    lookup (globals k) "y_train" = Ok (OSeries (fst (snd parts))) /\
    lookup (globals k) "rf_reg" = Ok (OForest m) /\
    lookup (globals k) "rf" = Ok (OPipeline p) /\
    lookup (globals k) "model" = Ok (OGrid g) /\
    history k =
      [EvSplit (3 # 10) 42; EvSplit (2 # 10) 42;
       EvFit "rf_reg" (fst (fst parts)) (fst (snd parts));
       EvScore "rf_reg" (snd (fst parts)) (snd (snd parts));
       EvFit "rf" (fst (fst parts)) (fst (snd parts));
       EvPredict "rf" (fst (fst parts));
       EvPredict "rf" (snd (fst parts));
       EvFit "model" (fst (fst parts)) (fst (snd parts));
       EvPredict "model" (fst (fst parts));
       EvPredict "model" (snd (fst parts))].
Proof.
  unfold run_notebook. intros H.
  apply bind_ok in H as (k1 & H1 & H).
  apply bind_ok in H as (k2 & H2 & H).
  apply bind_ok in H as (k3 & H3 & H).
  apply bind_ok in H as (k4 & H4 & H).
  apply bind_ok in H as (k5 & H5 & H).
  apply bind_ok in H as (k6 & H6 & H).
  apply bind_ok in H as (k7 & H7 & H).
  apply bind_ok in H as (k8 & H8 & H).
  inversion H; subst k8; clear H.
  unfold cell_features_target in H1.
  apply bind_ok in H1 as (out & Hout & H1).
  apply bind_ok in H1 as (X & HX & H1).
  rewrite Hout in H1. cbn [bind] in H1.
  apply bind_ok in H1 as (y & Hy & H1).
  cbn in H1.
  apply bind_ok in H1 as (first & Hfirst & H1).
  inversion H1; subst k1; clear H1.
  unfold cell_rf_reg in H2. cbn in H2.
  apply bind_ok in H2 as (parts & Hparts & H2).
  apply bind_ok in H2 as (m & Hm & H2).
  apply bind_ok in H2 as (score & Hscore & H2).
  inversion H2; subst k2; clear H2.
  unfold cell_pipeline in H3. cbn in H3.
  apply bind_ok in H3 as (p & Hp & H3).
  inversion H3; subst k3; clear H3.
  unfold cell_pipeline_mae in H4. cbn in H4.
  apply bind_ok in H4 as (preds & Hpreds & H4).
  apply bind_ok in H4 as (preds' & Hpreds' & H4).
  apply bind_ok in H4 as (mae & Hmae & H4).
  apply bind_ok in H4 as (mae' & Hmae' & H4).
  inversion H4; subst k4; clear H4.
  unfold cell_params in H5. inversion H5; subst k5; clear H5.
  unfold cell_grid_search in H6. cbn in H6.
  apply bind_ok in H6 as (g & Hg & H6).
  inversion H6; subst k6; clear H6.
  unfold cell_cross_val in H7. cbn in H7.
  apply bind_ok in H7 as (folds & Hfolds & H7).
  destruct (cv_results_ g) as [results|]; [|discriminate].
  inversion H7; subst k7; clear H7.
  unfold cell_grid_mae in H8. cbn in H8.
  apply bind_ok in H8 as (gp & Hgp & H8).
  apply bind_ok in H8 as (gp' & Hgp' & H8).
  apply bind_ok in H8 as (gmae & Hgmae & H8).
  apply bind_ok in H8 as (gmae' & Hgmae' & H8).
  inversion H8; subst k; clear H8.
  exists out, X, y, first, parts, m, score, p, g.
  repeat (split; [assumption || reflexivity|]).
  reflexivity.
Qed.


Lemma the_candidates_grid : ParameterGrid the_params = the_candidates.
Proof. reflexivity. Qed.





End RunFacts.

Lemma set_params_candidate p d n :
  set_params (clone p) (candidate_of (d, n))
  = Ok (mkPipeline (mkImputer None)
          (mkRFR (mkRFParams n (Some d)
                    (random_state (rf_params (randomforestregressor p))))
                 None)).
Proof. reflexivity. Qed.

(** ** Shape of the formatted price *)

Lemma append_assoc (s1 s2 s3 : string) :
  ((s1 ++ s2) ++ s3 = s1 ++ (s2 ++ s3))%string.
Proof. induction s1 as [|a s1 IH]; simpl; [reflexivity|now rewrite IH]. Qed.

Lemma digit_shape d :
  (0 <= d < 10)%Z -> exists c, digit d = String c EmptyString /\ is_digit c = true.
Proof.
  intros H. unfold digit. eexists; split; [reflexivity|].
  assert (E : (d = 0 \/ d = 1 \/ d = 2 \/ d = 3 \/ d = 4 \/ d = 5 \/ d = 6 \/
               d = 7 \/ d = 8 \/ d = 9)%Z) by lia.
  repeat (destruct E as [->|E]; [reflexivity|]). now subst.
Qed.

Lemma pad3_groups n tail :
  (0 <= n < 1000)%Z -> groups tail = true ->
  groups ("," ++ pad3 n ++ tail) = true.
Proof.
  intros Hn Ht. unfold pad3.
  destruct (digit_shape (n / 100)) as (a & -> & Ha).
  { split; [apply Z.div_pos; lia|apply Z.div_lt_upper_bound; lia]. }
  destruct (digit_shape (n / 10 mod 10)) as (b & -> & Hb).
  { apply Z.mod_pos_bound; lia. }
  destruct (digit_shape (n mod 10)) as (c & -> & Hc).
  { apply Z.mod_pos_bound; lia. }
  simpl. now rewrite Ha, Hb, Hc, Ht.
Qed.

Lemma dec3_money n tail :
  (0 <= n < 1000)%Z -> groups tail = true -> is_money (dec3 n ++ tail) = true.
Proof.
  intros Hn Ht. unfold dec3.
  destruct (n <? 10)%Z eqn:E1; [|destruct (n <? 100)%Z eqn:E2].
  - apply Z.ltb_lt in E1.
    destruct (digit_shape n) as (a & -> & Ha); [lia|].
    simpl. now rewrite Ha, Ht.
  - apply Z.ltb_ge in E1. apply Z.ltb_lt in E2.
    destruct (digit_shape (n / 10)) as (a & -> & Ha).
    { split; [apply Z.div_pos; lia|apply Z.div_lt_upper_bound; lia]. }
    destruct (digit_shape (n mod 10)) as (b & -> & Hb).
    { apply Z.mod_pos_bound; lia. }
    simpl. rewrite Ha, Hb, Ht. simpl. now rewrite orb_true_r.
  - apply Z.ltb_ge in E2.
    destruct (digit_shape (n / 100)) as (a & -> & Ha).
    { split; [apply Z.div_pos; lia|apply Z.div_lt_upper_bound; lia]. }
    destruct (digit_shape (n / 10 mod 10)) as (b & -> & Hb).
    { apply Z.mod_pos_bound; lia. }
    destruct (digit_shape (n mod 10)) as (c & -> & Hc).
    { apply Z.mod_pos_bound; lia. }
    simpl. rewrite Ha, Hb, Hc, Ht. simpl. now rewrite !orb_true_r.
Qed.

Lemma group_fuel_money fuel : forall n tail,
  (0 <= n < 1000 * 1000 ^ Z.of_nat fuel)%Z -> groups tail = true ->
  is_money (group_fuel fuel n ++ tail) = true.
Proof.
  induction fuel as [|f IH]; intros n tail Hn Ht.
  - simpl in *. apply dec3_money; [lia|exact Ht].
  - cbn [group_fuel]. destruct (n <? 1000)%Z eqn:E.
    + apply Z.ltb_lt in E. apply dec3_money; [lia|exact Ht].
    + apply Z.ltb_ge in E.
      rewrite !append_assoc.
      apply IH.
      * split; [apply Z.div_pos; lia|].
        apply Z.div_lt_upper_bound; [lia|].
        rewrite Nat2Z.inj_succ, Z.pow_succ_r in Hn by lia. lia.
      * apply pad3_groups; [apply Z.mod_pos_bound; lia|exact Ht].
Qed.

Lemma group_thousands_money n tail :
  (0 <= n)%Z -> groups tail = true -> is_money (group_thousands n ++ tail) = true.
Proof.
  intros Hn Ht. unfold group_thousands. apply group_fuel_money; [|exact Ht].
  split; [exact Hn|].
  rewrite Z2Nat.id by apply Z.log2_nonneg.
  destruct (Z.eq_dec n 0) as [->|Hz]; [reflexivity|].
  assert (Hpos : (0 < n)%Z) by lia.
  pose proof (Z.log2_spec n Hpos) as [_ Hlt].
  rewrite Z.pow_succ_r in Hlt by apply Z.log2_nonneg.
  assert (2 ^ Z.log2 n <= 1000 ^ Z.log2 n)%Z
    by (apply Z.pow_le_mono_l; lia).
  lia.
Qed.

Lemma round_half_even_nonneg q : (0 <= q)%Q -> (0 <= round_half_even q)%Z.
Proof.
  intros Hq. unfold round_half_even.
  assert (Hn : (0 <= Qnum q)%Z).
  { unfold Qle in Hq. simpl in Hq. lia. }
  assert (Hfl : (0 <= Qnum q / Z.pos (Qden q))%Z) by (apply Z.div_pos; lia).
  repeat match goal with |- context [if ?b then _ else _] => destruct b end; lia.
Qed.

Lemma format_nonneg_currency q :
  (0 <= q)%Q -> is_currency ("$" ++ format_comma_2f (Fin q)) = true.
Proof.
  intros Hq. unfold format_comma_2f, Qlt_bool.
  assert (E : Qle_bool 0 q = true) by now apply Qle_bool_iff.
  rewrite E. cbn [negb].
  set (cents := round_half_even (Qabs q * 100)).
  assert (Hc : (0 <= cents)%Z).
  { apply round_half_even_nonneg. apply Qmult_le_0_compat; [apply Qabs_nonneg|easy]. }
  change (is_money (group_thousands (cents / 100) ++ "." ++
                    digit (cents mod 100 / 10) ++ digit (cents mod 10)) = true).
  apply group_thousands_money; [apply Z.div_pos; lia|].
  destruct (digit_shape (cents mod 100 / 10)) as (a & -> & Ha).
  { pose proof (Z.mod_pos_bound cents 100).
    split; [apply Z.div_pos; lia|apply Z.div_lt_upper_bound; lia]. }
  destruct (digit_shape (cents mod 10)) as (b & -> & Hb).
  { apply Z.mod_pos_bound; lia. }
  simpl. now rewrite Ha, Hb.
Qed.

(** ** The amount a formatted price shows *)

Lemma cents_acc_app (s1 s2 : string) : forall acc,
  cents_acc (s1 ++ s2) acc = cents_acc s2 (cents_acc s1 acc).
Proof.
  induction s1 as [|a s1 IH]; intros acc; simpl; [reflexivity|].
  destruct (is_digit a); apply IH.
Qed.

Lemma cents_acc_digit d acc :
  (0 <= d < 10)%Z -> cents_acc (digit d) acc = (10 * acc + d)%Z.
Proof.
  intros H.
  assert (E : (d = 0 \/ d = 1 \/ d = 2 \/ d = 3 \/ d = 4 \/ d = 5 \/ d = 6 \/
               d = 7 \/ d = 8 \/ d = 9)%Z) by lia.
  repeat (destruct E as [->|E]; [reflexivity|]). now subst.
Qed.

Lemma cents_acc_pad3 n acc :
  (0 <= n < 1000)%Z -> cents_acc (pad3 n) acc = (1000 * acc + n)%Z.
Proof.
  intros Hn. unfold pad3. rewrite !cents_acc_app.
  rewrite !cents_acc_digit
    by first [ apply Z.mod_pos_bound; lia
             | split; [apply Z.div_pos; lia|apply Z.div_lt_upper_bound; lia] ].
  pose proof (Z.div_mod n 100). pose proof (Z.div_mod n 10).
  pose proof (Z.div_mod (n / 10) 10).
  assert (n / 10 / 10 = n / 100)%Z by (rewrite Z.div_div by lia; reflexivity).
  pose proof (Z.mod_pos_bound n 10). pose proof (Z.mod_pos_bound (n / 10) 10).
  lia.
Qed.

Lemma cents_acc_dec3 n : (0 <= n < 1000)%Z -> cents_acc (dec3 n) 0 = n.
Proof.
  intros Hn. unfold dec3.
  destruct (n <? 10)%Z eqn:E1; [|destruct (n <? 100)%Z eqn:E2].
  - apply Z.ltb_lt in E1. rewrite cents_acc_digit by lia. lia.
  - apply Z.ltb_ge in E1. apply Z.ltb_lt in E2.
    rewrite cents_acc_app.
    rewrite !cents_acc_digit
      by first [ apply Z.mod_pos_bound; lia
               | split; [apply Z.div_pos; lia|apply Z.div_lt_upper_bound; lia] ].
    pose proof (Z.div_mod n 10). lia.
  - apply Z.ltb_ge in E2. change (cents_acc (pad3 n) 0 = n).
    rewrite cents_acc_pad3 by exact Hn. lia.
Qed.

Lemma cents_acc_group_fuel fuel : forall n,
  (0 <= n < 1000 * 1000 ^ Z.of_nat fuel)%Z -> cents_acc (group_fuel fuel n) 0 = n.
Proof.
  induction fuel as [|f IH]; intros n Hn.
  - simpl in *. apply cents_acc_dec3. lia.
  - cbn [group_fuel]. destruct (n <? 1000)%Z eqn:E.
    + apply Z.ltb_lt in E. apply cents_acc_dec3. lia.
    + apply Z.ltb_ge in E. rewrite !cents_acc_app, IH.
      * change (cents_acc "," (n / 1000)) with (n / 1000)%Z.
        rewrite cents_acc_pad3 by (apply Z.mod_pos_bound; lia).
        pose proof (Z.div_mod n 1000). lia.
      * split; [apply Z.div_pos; lia|].
        apply Z.div_lt_upper_bound; [lia|].
        rewrite Nat2Z.inj_succ, Z.pow_succ_r in Hn by lia. lia.
Qed.

Lemma cents_acc_group_thousands n :
  (0 <= n)%Z -> cents_acc (group_thousands n) 0 = n.
Proof.
  intros Hn. unfold group_thousands. apply cents_acc_group_fuel.
  split; [exact Hn|].
  rewrite Z2Nat.id by apply Z.log2_nonneg.
  destruct (Z.eq_dec n 0) as [->|Hz]; [reflexivity|].
  assert (Hpos : (0 < n)%Z) by lia.
  pose proof (Z.log2_spec n Hpos) as [_ Hlt].
  rewrite Z.pow_succ_r in Hlt by apply Z.log2_nonneg.
  assert (2 ^ Z.log2 n <= 1000 ^ Z.log2 n)%Z
    by (apply Z.pow_le_mono_l; lia).
  lia.
Qed.

Lemma round_half_even_nearest (r : Q) :
  (Qabs (r - inject_Z (round_half_even r)) <= 1 # 2)%Q.
Proof.
  apply Qabs_Qle_condition. unfold round_half_even.
  destruct r as [n d]. cbn [Qnum Qden].
  pose proof (Z.div_mod n (Z.pos d)) as Hdm.
  pose proof (Z.mod_pos_bound n (Z.pos d)) as Hb.
  assert (Hd : (0 < Z.pos d)%Z) by lia. specialize (Hb Hd).
  assert (Hdm' : (n = Z.pos d * (n / Z.pos d) + n mod Z.pos d)%Z) by (apply Hdm; lia).
  set (fl := (n / Z.pos d)%Z) in *. set (rem := (n mod Z.pos d)%Z) in *.
  destruct (2 * rem <? Z.pos d)%Z eqn:E1;
    [apply Z.ltb_lt in E1
    |apply Z.ltb_ge in E1; destruct (Z.pos d <? 2 * rem)%Z eqn:E2;
       [apply Z.ltb_lt in E2|apply Z.ltb_ge in E2; destruct (Z.even fl)]];
    unfold Qle, Qminus, Qplus, Qopp, inject_Z; cbn [Qnum Qden];
    split; nia.
Qed.

Lemma round_half_even_tie (r : Q) :
  (Qabs (r - inject_Z (round_half_even r)) == 1 # 2)%Q ->
  Z.even (round_half_even r) = true.
Proof.
  unfold round_half_even. destruct r as [n d]. cbn [Qnum Qden].
  pose proof (Z.div_mod n (Z.pos d)) as Hdm.
  pose proof (Z.mod_pos_bound n (Z.pos d)) as Hb.
  assert (Hd : (0 < Z.pos d)%Z) by lia. specialize (Hb Hd).
  assert (Hdm' : (n = Z.pos d * (n / Z.pos d) + n mod Z.pos d)%Z) by (apply Hdm; lia).
  set (fl := (n / Z.pos d)%Z) in *. set (rem := (n mod Z.pos d)%Z) in *.
  destruct (2 * rem <? Z.pos d)%Z eqn:E1;
    [apply Z.ltb_lt in E1
    |apply Z.ltb_ge in E1; destruct (Z.pos d <? 2 * rem)%Z eqn:E2;
       [apply Z.ltb_lt in E2|apply Z.ltb_ge in E2]].
  - intros H. exfalso.
    assert (Hlt : (Qabs ((n # d) - inject_Z fl) < 1 # 2)%Q).
    { apply Qabs_Qlt_condition.
      unfold Qlt, Qminus, Qplus, Qopp, inject_Z; cbn [Qnum Qden]. split; nia. }
    rewrite H in Hlt. discriminate Hlt.
  - intros H. exfalso.
    assert (Hlt : (Qabs ((n # d) - inject_Z (fl + 1)) < 1 # 2)%Q).
    { apply Qabs_Qlt_condition.
      unfold Qlt, Qminus, Qplus, Qopp, inject_Z; cbn [Qnum Qden]. split; nia. }
    rewrite H in Hlt. discriminate Hlt.
  - intros _. destruct (Z.even fl) eqn:Ev; [exact Ev|].
    rewrite Z.add_1_r, Z.even_succ. rewrite <- Z.negb_even. now rewrite Ev.
Qed.

Lemma money_starts_with_digit s :
  is_money s = true -> exists a, get 0 s = Some a /\ is_digit a = true.
Proof.
  destruct s as [|a r]; [discriminate|]. intros H.
  exists a. split; [reflexivity|].
  simpl in H. apply andb_true_iff in H. tauto.
Qed.

Lemma format_cents (q : Q) :
  cents_of_text (format_comma_2f (Fin q)) = round_half_even (Qabs q * 100).
Proof.
  assert (Hc : (0 <= round_half_even (Qabs q * 100))%Z).
  { apply round_half_even_nonneg. apply Qmult_le_0_compat; [apply Qabs_nonneg|easy]. }
  unfold cents_of_text, format_comma_2f.
  set (cents := round_half_even (Qabs q * 100)) in *.
  rewrite cents_acc_app.
  assert (E0 : cents_acc (if Qlt_bool q 0 then "-" else "") 0 = 0%Z)
    by (destruct (Qlt_bool q 0); reflexivity).
  rewrite E0, cents_acc_app.
  rewrite cents_acc_group_thousands by (apply Z.div_pos; lia).
  change (cents_acc ("." ++ digit (cents mod 100 / 10) ++ digit (cents mod 10))
                    (cents / 100))
    with (cents_acc (digit (cents mod 100 / 10) ++ digit (cents mod 10))
                    (cents / 100)).
  pose proof (Z.mod_pos_bound cents 100) as Hb.
  rewrite cents_acc_app.
  rewrite !cents_acc_digit
    by first [ apply Z.mod_pos_bound; lia
             | split; [apply Z.div_pos; lia|apply Z.div_lt_upper_bound; lia] ].
  assert (Hm : (cents mod 10 = (cents mod 100) mod 10)%Z).
  { symmetry. apply Z.mod_mod_divide. exists 10%Z. reflexivity. }
  pose proof (Z.div_mod cents 100). pose proof (Z.div_mod (cents mod 100) 10).
  lia.
Qed.

(** The digits shown for a non-negative price are within half a cent of
    it. *)
Lemma format_half_cent (q : Q) :
  (0 <= q)%Q ->
  (Qabs (q * 100 - inject_Z (cents_of_text (format_comma_2f (Fin q)))) <= 1 # 2)%Q.
Proof.
  intros Hq. rewrite format_cents.
  pose proof (round_half_even_nearest (Qabs q * 100)) as H.
  assert (E : (Qabs q * 100 == q * 100)%Q) by (now rewrite (Qabs_pos q Hq)).
  apply Qabs_Qle_condition. apply Qabs_Qle_condition in H.
  destruct H as [H1 H2]. split; lra.
Qed.

(** At a tie between two cents the even one is shown. *)
Lemma format_tie_even (q : Q) :
  (0 <= q)%Q ->
  (Qabs (q * 100 - inject_Z (cents_of_text (format_comma_2f (Fin q)))) == 1 # 2)%Q ->
  Z.even (cents_of_text (format_comma_2f (Fin q))) = true.
Proof.
  intros Hq. rewrite format_cents. intros H.
  apply round_half_even_tie.
  set (c := inject_Z (round_half_even (Qabs q * 100))) in *.
  assert (E : (Qabs q * 100 - c == q * 100 - c)%Q)
    by (now rewrite (Qabs_pos q Hq)).
  now rewrite E.
Qed.

Lemma digit_nonzero d :
  (1 <= d < 10)%Z ->
  exists c, digit d = String c EmptyString /\ c <> "0"%char.
Proof.
  intros H. unfold digit. eexists; split; [reflexivity|].
  assert (E : (d = 1 \/ d = 2 \/ d = 3 \/ d = 4 \/ d = 5 \/ d = 6 \/
               d = 7 \/ d = 8 \/ d = 9)%Z) by lia.
  repeat (destruct E as [->|E]; [discriminate|]). subst. discriminate.
Qed.

Lemma dec3_first n :
  (1 <= n < 1000)%Z -> exists c r, dec3 n = String c r /\ c <> "0"%char.
Proof.
  intros Hn. unfold dec3.
  destruct (n <? 10)%Z eqn:E1; [|destruct (n <? 100)%Z eqn:E2].
  - apply Z.ltb_lt in E1. destruct (digit_nonzero n) as (c & -> & Hc); [lia|].
    now exists c, EmptyString.
  - apply Z.ltb_ge in E1. apply Z.ltb_lt in E2.
    destruct (digit_nonzero (n / 10)) as (c & -> & Hc).
    { split; [apply Z.div_le_lower_bound; lia|apply Z.div_lt_upper_bound; lia]. }
    eexists c, _. split; [reflexivity|exact Hc].
  - apply Z.ltb_ge in E2.
    destruct (digit_nonzero (n / 100)) as (c & -> & Hc).
    { split; [apply Z.div_le_lower_bound; lia|apply Z.div_lt_upper_bound; lia]. }
    eexists c, _. split; [reflexivity|exact Hc].
Qed.

Lemma group_fuel_first fuel : forall n,
  (1 <= n < 1000 * 1000 ^ Z.of_nat fuel)%Z ->
  exists c r, group_fuel fuel n = String c r /\ c <> "0"%char.
Proof.
  induction fuel as [|f IH]; intros n Hn.
  - simpl in *. apply dec3_first. lia.
  - cbn [group_fuel]. destruct (n <? 1000)%Z eqn:E.
    + apply Z.ltb_lt in E. apply dec3_first. lia.
    + apply Z.ltb_ge in E.
      destruct (IH (n / 1000)%Z) as (c & r & -> & Hc).
      * split; [apply Z.div_le_lower_bound; lia|].
        apply Z.div_lt_upper_bound; [lia|].
        rewrite Nat2Z.inj_succ, Z.pow_succ_r in Hn by lia. lia.
      * eexists c, _. split; [reflexivity|exact Hc].
Qed.

Lemma group_thousands_first n :
  (1 <= n)%Z -> exists c r, group_thousands n = String c r /\ c <> "0"%char.
Proof.
  intros Hn. unfold group_thousands. apply group_fuel_first.
  split; [exact Hn|].
  rewrite Z2Nat.id by apply Z.log2_nonneg.
  assert (Hpos : (0 < n)%Z) by lia.
  pose proof (Z.log2_spec n Hpos) as [_ Hlt].
  rewrite Z.pow_succ_r in Hlt by apply Z.log2_nonneg.
  assert (2 ^ Z.log2 n <= 1000 ^ Z.log2 n)%Z
    by (apply Z.pow_le_mono_l; lia).
  lia.
Qed.

(** A formatted non-negative price has no leading zero but the single 0 of
    an amount below 1. *)
Lemma format_no_leading_zero (q : Q) (rest : string) :
  (0 <= q)%Q ->
  format_comma_2f (Fin q) = String "0" rest -> get 0 rest = Some "."%char.
Proof.
  intros Hq. unfold format_comma_2f, Qlt_bool.
  assert (E : Qle_bool 0 q = true) by now apply Qle_bool_iff.
  rewrite E. cbn [negb].
  set (cents := round_half_even (Qabs q * 100)).
  assert (Hc : (0 <= cents)%Z).
  { apply round_half_even_nonneg. apply Qmult_le_0_compat; [apply Qabs_nonneg|easy]. }
  assert (Hn : (0 <= cents / 100)%Z) by (apply Z.div_pos; lia).
  destruct (Z.eq_dec (cents / 100) 0) as [E0|Hnz].
  - rewrite E0. change (group_thousands 0) with "0". cbn [append].
    intros H. injection H as <-. reflexivity.
  - destruct (group_thousands_first (cents / 100)) as (c & r & -> & Hc0); [lia|].
    cbn [append]. intros H. injection H as Hc' _. contradiction.
Qed.

Lemma format_renders (q : Q) :
  (0 <= q)%Q -> renders (format_comma_2f (Fin q)) q.
Proof.
  intros Hq. split; [now apply format_nonneg_currency|].
  split; [now apply format_half_cent|].
  split; [now apply format_tie_even|].
  intros rest. now apply format_no_leading_zero.
Qed.

(** ** Predictions of a forest grown on non-negative targets *)

Lemma tree_predict_leaf t x : In (tree_predict t x) (tree_leaves t).
Proof.
  induction t as [v|f th l IHl r IHr]; simpl; [now left|].
  apply in_or_app. destruct (leb _ _); [now left|now right].
Qed.

Lemma leaf_within_nonneg y v :
  forallb nonneg_cell y = true -> leaf_within y v -> nonneg v.
Proof.
  intros Hy (a & b & Ha & Hb & Hav & Hvb).
  rewrite forallb_forall in Hy.
  pose proof (Hy _ Ha) as Ha'. pose proof (Hy _ Hb) as Hb'.
  destruct a as [qa| |]; try discriminate.
  destruct b as [qb| |]; try discriminate.
  simpl in Ha', Hb'. apply Qle_bool_iff in Ha'.
  destruct v as [qv|[|]|]; simpl in Hav, Hvb; try discriminate.
  apply Qle_bool_iff in Hav. exists qv. split; [reflexivity|lra].
Qed.

Lemma fold_add_nonneg l : forall acc,
  nonneg acc -> Forall nonneg l -> nonneg (fold_left add l acc).
Proof.
  induction l as [|x t IH]; intros acc Hacc Hl; simpl; [exact Hacc|].
  inversion Hl as [|? ? Hx Ht]; subst.
  apply IH; [|exact Ht].
  destruct Hacc as (a & -> & Ha), Hx as (b & -> & Hb).
  exists (a + b)%Q. split; [reflexivity|lra].
Qed.

Lemma forest_predict_row_nonneg f x :
  f <> [] ->
  (forall t, In t f -> Forall nonneg (tree_leaves t)) ->
  nonneg (forest_predict_row f x).
Proof.
  intros Hne Hleaves. unfold forest_predict_row, fsum.
  destruct (fold_add_nonneg (map (fun t => tree_predict t x) f) zero) as (s & -> & Hs).
  - exists 0%Q. split; [reflexivity|lra].
  - apply Forall_forall. intros v Hv. apply in_map_iff in Hv as (t & <- & Ht).
    pose proof (Hleaves t Ht) as Hl. rewrite Forall_forall in Hl.
    apply Hl, tree_predict_leaf.
  - unfold of_nat, of_Z, div.
    assert (Hlen : (0 < Z.of_nat (length f))%Z) by (destruct f; [congruence|simpl; lia]).
    assert (Hpos : (0 < inject_Z (Z.of_nat (length f)))%Q).
    { unfold Qlt; simpl. lia. }
    destruct (Qeq_bool (inject_Z (Z.of_nat (length f))) 0) eqn:E.
    + apply Qeq_bool_iff in E. lra.
    + eexists; split; [reflexivity|].
      apply Qle_shift_div_l; [exact Hpos|lra].
Qed.

(** ** The callback on a valid submission *)

Lemma in_range_finite lo hi v :
  in_range lo hi v = true ->
  exists q, to_Q v = Ok q /\ to_cell v = CNum (Fin q) /\
            (inject_Z lo <= q /\ q <= inject_Z hi)%Q.
Proof.
  destruct v as [|z|q]; simpl; [discriminate| |].
  - intros H. apply andb_true_iff in H as [H1 H2].
    apply Z.leb_le in H1, H2. exists (inject_Z z).
    repeat split; unfold Qle; simpl; lia.
  - intros H. apply andb_true_iff in H as [H1 H2].
    apply Qle_bool_iff in H1, H2. exists q. now repeat split.
Qed.

Lemma valid_form_features b ba s fl w v :
  valid_form b ba s fl w v = true ->
  exists X xs, input_data b ba s fl w v = Ok X /\ feature_matrix X = Ok [xs].
Proof.
  unfold valid_form. intros H.
  repeat (apply andb_true_iff in H; destruct H as [H ?]).
  destruct (in_range_finite _ _ _ H) as (qb & Fb & Cb & _ & _).
  destruct (in_range_finite 1 10 ba) as (qba & Fba & Cba & Hlo & _); [assumption|].
  destruct (in_range_finite 500 10000 s) as (qs & _ & Cs & _ & _); [assumption|].
  destruct (in_range_finite 1 5 fl) as (qf & _ & Cf & _ & _); [assumption|].
  destruct (in_range_finite 0 1 w) as (qw & _ & Cw & _ & _); [assumption|].
  destruct (in_range_finite 0 4 v) as (qv & _ & Cv & _ & _); [assumption|].
  destruct (py_mul_ok _ _ _ _ Fb Fba) as (inter & qi & Hi & Ci).
  assert (Hz : Qeq_bool qba 0 = false).
  { destruct (Qeq_bool qba 0) eqn:E; [|reflexivity].
    apply Qeq_bool_iff in E. change (inject_Z 1) with 1%Q in Hlo. lra. }
  unfold input_data, py_truediv. rewrite Fb, Fba. cbn [bind].
  rewrite Hz. cbn [bind]. rewrite Hi. cbn [bind].
  eexists _, _. split; [reflexivity|].
  unfold feature_matrix, single_row_frame. cbn [rows map fst snd mapM to_cell].
  rewrite Cb, Cba, Cs, Cf, Cw, Cv, Ci. reflexivity.
Qed.

Lemma update_output_served k n b ba s fl w v m X :
  (0 < n)%Z ->
  lookup (globals k) "rf_reg" = Ok (OForest m) ->
  input_data b ba s fl w v = Ok X ->
  update_output k n b ba s fl w v
  = (preds <- forest_predict m X ;;
     predicted_price <- first_item preds ;;
     Ok (Some (mkDiv ("Predicted Price: $" ++ format_comma_2f predicted_price) bold))).
Proof.
  intros Hn Hk HX. unfold update_output, get_forest.
  apply Z.gtb_lt in Hn. rewrite Hn, HX. cbn [bind]. rewrite Hk. reflexivity.
Qed.

(* ================================================================== *)
(** * The properties of the notebook *)

(** ** Data preparation *)

(** The price filter on the sample file. *)
Lemma data_prepared_price_filter_sample :
  exists raw out q10 q90,
    read_csv Sample.files "data.csv" = Ok raw /\
    original_quantile Sample.files (1 # 10) = Ok q10 /\
    original_quantile Sample.files (9 # 10) = Ok q90 /\
    data_prepared Sample.files Sample.to_timestamp = Ok out /\
    index out
    = map fst (filter (fun r => price_within q10 q90 (cell_at raw r "price"))
                      (rows raw)) /\
    (forall r', In r' (rows out) ->
       price_within q10 q90 (cell_at out r' "price") = true /\
       exists r, In r (rows raw) /\ fst r = fst r' /\
                 cell_at raw r "price" = cell_at out r' "price") /\
    (forall r, In r (rows raw) ->
       price_within q10 q90 (cell_at raw r "price") = true ->
       exists r', In r' (rows out) /\ fst r' = fst r /\
                  cell_at out r' "price" = cell_at raw r "price").
Proof.
  apply (data_prepared_price_filter Sample.files Sample.to_timestamp Sample.records);
    reflexivity.
Defined.


Lemma div_nonzero_price p s :
  ~ (p == 0)%Q -> is_inf s = false -> is_zero (div (Fin p) s) = false.
Proof.
  intros Hp Hs. destruct s as [q|[|]|]; simpl in *; try discriminate; try reflexivity.
  destruct (Qeq_bool q 0) eqn:Eq.
  - destruct (Qeq_bool p 0); reflexivity.
  - simpl. destruct (Qeq_bool (p / q) 0) eqn:E; [|reflexivity].
    apply Qeq_bool_iff in E. exfalso. apply Hp.
    assert (Hq : ~ (q == 0)%Q).
    { intros Hq. apply Qeq_bool_iff in Hq. congruence. }
    rewrite <- (Qmult_div_r p q Hq). rewrite E. ring.
Qed.

(** C2.  The one-row frame the callback assembles has the columns the model
    was trained on, that is the columns of [data_prepared()] without
    "price": the same names, in the same order, and as many of them. *)
Theorem serving_schema_equals_training_schema
  (files : string -> option (list string * list (list cell)))
  (to_timestamp : cell -> res cell) (records : list (list cell))
  (out X : DataFrame) (b ba s fl w v : pyval) (Xs : DataFrame) :
  files "data.csv" = Some (raw_columns, records) ->
  data_prepared files to_timestamp = Ok out ->
  drop_columns out ["price"] = Ok X ->
  input_data b ba s fl w v = Ok Xs ->
  columns X = filter (fun c => negb (String.eqb c "price")) (columns out) /\
  columns Xs = columns X /\
  length (columns Xs) = length (columns X) /\
  length (columns X) = 9.
Proof.
  intros Hfile Hout HX HXs.
  apply (data_prepared_columns _ _ _ _ Hfile) in Hout.
  apply drop_columns_columns in HX. rewrite Hout in HX.
  apply input_data_inv in HXs as (x & y & inter & _ & _ & _ & _ & ->).
  rewrite Hout, HX. cbn [columns]. repeat split.
Qed.

(** The two schemas on the sample file and the default submission. *)
Lemma serving_schema_equals_training_schema_sample :
  exists out X Xs,
    data_prepared Sample.files Sample.to_timestamp = Ok out /\
    drop_columns out ["price"] = Ok X /\
    input_data Sample.bedrooms Sample.bathrooms Sample.sqft_living
               Sample.floors Sample.waterfront Sample.view = Ok Xs /\
    columns Xs = columns X.
Proof.
  eexists _, _, _.
  split; [vm_compute; reflexivity|].
  split; [vm_compute; reflexivity|].
  split; [vm_compute; reflexivity|].
  eapply (serving_schema_equals_training_schema Sample.files Sample.to_timestamp
            Sample.records _ _ Sample.bedrooms Sample.bathrooms Sample.sqft_living
            Sample.floors Sample.waterfront Sample.view);
    vm_compute; reflexivity.
Defined.

Section PreparedRows.

Variable files : string -> option (list string * list (list cell)).
Variable to_timestamp : cell -> res cell.
Variable records : list (list cell).

Hypothesis Hfile : files "data.csv" = Some (raw_columns, records).
Hypothesis Hrecords : forallb (raw_record_ok to_timestamp) records = true.

Lemma raw_cells r :
  In r (labelled records) ->
  let raw := mkDF raw_columns (labelled records) in
  cell_at raw r "price" = CNum (raw_price (snd r)) /\
  cell_at raw r "bathrooms" = CNum (raw_bathrooms (snd r)).
Proof.
  destruct r as [i r]. intros H. apply labelled_In in H.
  rewrite forallb_forall in Hrecords. apply Hrecords in H.
  apply raw_record_ok_inv in H
    as (? & ? & ? & ? & ? & ? & ? & ? & ? & ? & ? & ? & ? & ? & ? & ? & ? & ? & ? & -> & ?).
  split; reflexivity.
Qed.

Lemma raw_rooms_cells r :
  In r (labelled records) ->
  let raw := mkDF raw_columns (labelled records) in
  cell_at raw r "bedrooms" = CNum (raw_bedrooms (snd r)) /\
  cell_at raw r "sqft_living" = CNum (raw_sqft_living (snd r)).
Proof.
  destruct r as [i r]. intros H. apply labelled_In in H.
  rewrite forallb_forall in Hrecords. apply Hrecords in H.
  apply raw_record_ok_inv in H
    as (? & ? & ? & ? & ? & ? & ? & ? & ? & ? & ? & ? & ? & ? & ? & ? & ? & ? & ? & -> & ?).
  split; reflexivity.
Qed.

(** A row of the file that passes the filter is a row of the prepared
    table. *)
Lemma kept_row_prepared r :
  In r (labelled records) ->
  price_within (price_quantile records (1 # 10)) (price_quantile records (9 # 10))
               (CNum (raw_price (snd r))) = true ->
  In (fst r, prepared_row (snd r))
     (map (fun r => (fst r, prepared_row (snd r)))
          (filter (fun r => in_band (price_quantile records (1 # 10))
                                    (price_quantile records (9 # 10)) (snd r))
                  (labelled records))).
Proof.
  intros Hr Hband. apply in_map_iff. exists r. split; [reflexivity|].
  apply filter_In. split; [exact Hr|exact Hband].
Qed.

(** C3.  In the prepared table [price_per_sqft] is [price / sqft_living] on
    every row, and every row of the file that passes the price filter is
    such a row, with the price and the [sqft_living] of the file.  The
    callback builds a frame for every numeric submission with a non-zero
    [bathrooms]; the frame has the nine serving columns and one row, and
    that row holds the constant 0 in [price_per_sqft] whatever the
    submission, so whenever the price of the house is a non-zero number the
    value served differs from the one the training-time formula gives for
    the submitted [sqft_living]. *)
Theorem price_per_sqft_training_versus_serving :
  (exists raw out q10 q90,
     read_csv files "data.csv" = Ok raw /\
     original_quantile files (1 # 10) = Ok q10 /\
     original_quantile files (9 # 10) = Ok q90 /\
     data_prepared files to_timestamp = Ok out /\
     columns out = prepared_columns /\
     (forall r, In r (rows out) ->
        exists price sqft_living,
          cell_at out r "price" = CNum price /\
          cell_at out r "sqft_living" = CNum sqft_living /\
          cell_at out r "price_per_sqft" = CNum (div price sqft_living)) /\
     (forall r, In r (rows raw) ->
        price_within q10 q90 (cell_at raw r "price") = true ->
        exists r',
          In r' (rows out) /\ fst r' = fst r /\
          cell_at out r' "price" = cell_at raw r "price" /\
          cell_at out r' "sqft_living" = cell_at raw r "sqft_living" /\
          cell_at out r' "price_per_sqft"
          = CNum (div (num_of (cell_at raw r "price"))
                      (num_of (cell_at raw r "sqft_living"))))) /\
  (forall b ba s fl w v,
     (forall x y, to_Q b = Ok x -> to_Q ba = Ok y -> ~ (y == 0)%Q ->
        exists X, input_data b ba s fl w v = Ok X) /\
     (forall X,
        input_data b ba s fl w v = Ok X ->
        columns X = serving_columns /\
        exists r,
          rows X = [r] /\
          cell_at X r "sqft_living" = to_cell s /\
          cell_at X r "price_per_sqft" = CNum (Fin 0) /\
          is_zero (num_of (cell_at X r "price_per_sqft")) = true /\
          forall price, ~ (price == 0)%Q ->
            is_zero (div (Fin price) (num_of (cell_at X r "sqft_living"))) = false)).
Proof.
  split.
  - eexists _, _, _, _.
    split; [apply (read_csv_ok _ _ Hfile)|].
    split; [now apply (original_quantile_ok _ _ _ Hfile Hrecords)|].
    split; [now apply (original_quantile_ok _ _ _ Hfile Hrecords)|].
    split; [apply (data_prepared_ok _ _ _ Hfile Hrecords)|].
    split; [reflexivity|]. split.
    + intros r Hr.
      destruct (prepared_rows_derived _ _ _ Hfile Hrecords _
                  (data_prepared_ok _ _ _ Hfile Hrecords) r Hr)
        as (p & be & ba & sl & Hp & _ & _ & Hsl & _ & Hpp & _).
      now exists p, sl.
    + cbn [rows]. intros r Hr Hband.
      destruct (raw_cells r Hr) as [Hp _]. destruct (raw_rooms_cells r Hr) as [_ Hs].
      cbn zeta in Hp, Hs. rewrite Hp in Hband. rewrite Hp, Hs.
      exists (fst r, prepared_row (snd r)).
      split; [now apply kept_row_prepared|]. repeat split.
  - intros b ba s fl w v. split.
    + intros x y Hx Hy Hnz. apply (input_data_ok b ba s fl w v x y Hx Hy).
      destruct (Qeq_bool y 0) eqn:E; [|reflexivity].
      apply Qeq_bool_iff in E. contradiction.
    + intros X HX.
      apply input_data_inv in HX as (x & y & inter & _ & _ & _ & _ & ->).
      split; [reflexivity|]. eexists. split; [reflexivity|].
      split; [reflexivity|]. split; [reflexivity|]. split; [reflexivity|].
      intros price Hp. change (cell_at _ _ "sqft_living") with (to_cell s).
      apply div_nonzero_price; [exact Hp|]. now destruct s.
Qed.

(** C5.  On every row of the prepared table whose [bathrooms] is not zero,
    [bedrooms_to_bathrooms_ratio] is [bedrooms / bathrooms]; for numbers
    this is the rational quotient; and every row of the file that passes the
    price filter is such a row, with the [bedrooms] and [bathrooms] of the
    file.  For a numeric submission with a non-zero [bathrooms] the callback
    builds a frame of the nine serving columns and one row, and the row
    holds the same quotient of the submitted [bedrooms] and [bathrooms]. *)
Theorem bedrooms_to_bathrooms_ratio_is_quotient :
  (exists raw out q10 q90,
     read_csv files "data.csv" = Ok raw /\
     original_quantile files (1 # 10) = Ok q10 /\
     original_quantile files (9 # 10) = Ok q90 /\
     data_prepared files to_timestamp = Ok out /\
     columns out = prepared_columns /\
     (forall r, In r (rows out) ->
        exists bedrooms bathrooms,
          cell_at out r "bedrooms" = CNum bedrooms /\
          cell_at out r "bathrooms" = CNum bathrooms /\
          (is_zero bathrooms = false ->
           cell_at out r "bedrooms_to_bathrooms_ratio" = CNum (div bedrooms bathrooms)) /\
          (forall p q, bedrooms = Fin p -> bathrooms = Fin q -> ~ (q == 0)%Q ->
           cell_at out r "bedrooms_to_bathrooms_ratio" = CNum (Fin (p / q)))) /\
     (forall r, In r (rows raw) ->
        price_within q10 q90 (cell_at raw r "price") = true ->
        exists r',
          In r' (rows out) /\ fst r' = fst r /\
          cell_at out r' "bedrooms" = cell_at raw r "bedrooms" /\
          cell_at out r' "bathrooms" = cell_at raw r "bathrooms" /\
          cell_at out r' "bedrooms_to_bathrooms_ratio"
          = CNum (div (num_of (cell_at raw r "bedrooms"))
                      (num_of (cell_at raw r "bathrooms"))))) /\
  (forall b ba s fl w v x y,
     to_Q b = Ok x -> to_Q ba = Ok y -> ~ (y == 0)%Q ->
     exists X r,
       input_data b ba s fl w v = Ok X /\
       columns X = serving_columns /\
       rows X = [r] /\
       cell_at X r "bedrooms" = CNum (Fin x) /\
       cell_at X r "bathrooms" = CNum (Fin y) /\
       cell_at X r "bedrooms_to_bathrooms_ratio" = CNum (Fin (x / y)) /\
       cell_at X r "bedrooms_to_bathrooms_ratio" = CNum (div (Fin x) (Fin y))).
Proof.
  split.
  - eexists _, _, _, _.
    split; [apply (read_csv_ok _ _ Hfile)|].
    split; [now apply (original_quantile_ok _ _ _ Hfile Hrecords)|].
    split; [now apply (original_quantile_ok _ _ _ Hfile Hrecords)|].
    split; [apply (data_prepared_ok _ _ _ Hfile Hrecords)|].
    split; [reflexivity|]. split.
    + intros r Hr.
      destruct (prepared_rows_derived _ _ _ Hfile Hrecords _
                  (data_prepared_ok _ _ _ Hfile Hrecords) r Hr)
        as (p & be & ba & sl & _ & Hbe & Hba & _ & Hratio & _).
      exists be, ba.
      split; [exact Hbe|]. split; [exact Hba|]. split; [intros _; exact Hratio|].
      intros p0 q0 -> -> Hq. rewrite Hratio. simpl.
      destruct (Qeq_bool q0 0) eqn:E; [|reflexivity].
      apply Qeq_bool_iff in E. contradiction.
    + cbn [rows]. intros r Hr Hband.
      destruct (raw_cells r Hr) as [Hp Hb]. destruct (raw_rooms_cells r Hr) as [Hbe _].
      cbn zeta in Hp, Hb, Hbe. rewrite Hp in Hband. rewrite Hb, Hbe.
      exists (fst r, prepared_row (snd r)).
      split; [now apply kept_row_prepared|]. repeat split.
  - intros b ba s fl w v x y Hx Hy Hnz.
    assert (Hz : Qeq_bool y 0 = false).
    { destruct (Qeq_bool y 0) eqn:E; [|reflexivity].
      apply Qeq_bool_iff in E. contradiction. }
    destruct (input_data_ok b ba s fl w v x y Hx Hy Hz) as (X & HX).
    pose proof HX as HX'.
    apply input_data_inv in HX' as (x' & y' & inter & Hx' & Hy' & _ & _ & ->).
    rewrite Hx in Hx'. rewrite Hy in Hy'. inversion Hx'; inversion Hy'; subst x' y'.
    eexists _, _. split; [exact HX|]. split; [reflexivity|]. split; [reflexivity|].
    cbn. rewrite (to_Q_cell _ _ Hx), (to_Q_cell _ _ Hy), Hz.
    split; [reflexivity|]. split; [reflexivity|]. split; reflexivity.
Qed.


End PreparedRows.

(** ** Training and model selection *)

Section NotebookRun.

Variable files : string -> option (list string * list (list cell)).
Variable to_timestamp : cell -> res cell.
Variable train_test_split :
  DataFrame -> Series -> Q -> Z ->
  res ((DataFrame * DataFrame) * (Series * Series)).
Variable rf_fit : RFParams -> DataFrame -> Series -> res Forest.
Variable imputer_fit : DataFrame -> res (list float64).
Variable imputer_transform : list float64 -> DataFrame -> res DataFrame.
Variable r2_score : Series -> list float64 -> res float64.
Variable mean_absolute_error : Series -> list float64 -> res float64.

Local Abbreviation run :=
  (run_notebook files to_timestamp train_test_split rf_fit imputer_fit
                imputer_transform r2_score mean_absolute_error).
Local Abbreviation fit_pipeline := (pipeline_fit rf_fit imputer_fit imputer_transform).
Local Abbreviation fit_grid := (grid_fit rf_fit imputer_fit imputer_transform r2_score).
Local Abbreviation score_fold :=
  (fold_score rf_fit imputer_fit imputer_transform r2_score).


(** C7.  The notebook splits the prepared features and target twice, first
    with test fraction 0.3 and then, overwriting [X_train], [X_test],
    [y_train] and [y_test], with test fraction 0.2, both with random state
    42.  Every fit that follows - of [rf_reg], of the pipeline [rf] and of
    the grid search [model] - receives the training part of the second
    split, and every evaluation uses its parts; nothing is fitted on the
    first split. *)
Theorem every_model_fitted_on_second_split (k : Kernel) :
  run = Ok k ->
  exists out X y first second k1 m p g,
    data_prepared files to_timestamp = Ok out /\
    drop_columns out ["price"] = Ok X /\
    getitem out "price" = Ok y /\
    train_test_split X y (3 # 10) 42 = Ok first /\
    train_test_split X y (2 # 10) 42 = Ok second /\
    cell_features_target files to_timestamp train_test_split fresh_kernel = Ok k1 /\
    lookup (globals k1) "X_train" = Ok (OFrame (fst (fst first))) /\
    lookup (globals k1) "y_train" = Ok (OSeries (fst (snd first))) /\
    history k1 = [EvSplit (3 # 10) 42] /\
    lookup (globals k) "X_train" = Ok (OFrame (fst (fst second))) /\
    lookup (globals k) "y_train" = Ok (OSeries (fst (snd second))) /\
    firstn 2 (history k) = [EvSplit (3 # 10) 42; EvSplit (2 # 10) 42] /\
    (forall name Xf yf, In (EvFit name Xf yf) (history k) ->
       (name = "rf_reg" \/ name = "rf" \/ name = "model") /\
       Xf = fst (fst second) /\ yf = fst (snd second)) /\
    In (EvFit "rf_reg" (fst (fst second)) (fst (snd second))) (history k) /\
    In (EvFit "rf" (fst (fst second)) (fst (snd second))) (history k) /\
    In (EvFit "model" (fst (fst second)) (fst (snd second))) (history k) /\
    lookup (globals k) "rf_reg" = Ok (OForest m) /\
    rfr_fit rf_fit (new_RandomForestRegressor 42) (fst (fst second)) (fst (snd second))
    = Ok m /\
    lookup (globals k) "rf" = Ok (OPipeline p) /\
    fit_pipeline the_pipeline (fst (fst second)) (fst (snd second)) = Ok p /\
    lookup (globals k) "model" = Ok (OGrid g) /\
    fit_grid (new_GridSearchCV p the_params 5 true)
             (fst (fst second)) (fst (snd second)) = Ok g /\
    (forall name Xe ye, In (EvScore name Xe ye) (history k) ->
       Xe = snd (fst second) /\ ye = snd (snd second)) /\
    (forall name Xp, In (EvPredict name Xp) (history k) ->
       Xp = fst (fst second) \/ Xp = snd (fst second)).
Proof.
  intros H.
  apply run_notebook_inv in H
    as (out & X & y & first & parts & m & score0 & p & g & Hout & HX & Hy &
        Hfirst & Hparts & Hm & _ & Hp & Hg & HXt & Hyt & Hreg & Hrf & Hmodel & Hhist).
  eexists out, X, y, first, parts, _, m, p, g.
  repeat (split; [eassumption|]).
  split.
  { unfold cell_features_target. rewrite Hout. cbn [bind]. rewrite HX. cbn [bind].
    rewrite Hy. cbn. rewrite Hfirst. cbn [bind]. reflexivity. }
  split; [reflexivity|]. split; [reflexivity|]. split; [reflexivity|].
  rewrite Hhist.
  split; [assumption|]. split; [assumption|]. split; [reflexivity|].
  split.
  { intros name Xf yf Hin. cbn [In] in Hin.
    repeat (destruct Hin as [E|Hin]; [try discriminate; inversion E; subst; auto|]).
    destruct Hin. }
  split; [cbn; tauto|]. split; [cbn; tauto|]. split; [cbn; tauto|].
  repeat (split; [assumption|]).
  split.
  { intros name Xe ye Hin. cbn [In] in Hin.
    repeat (destruct Hin as [E|Hin]; [try discriminate; inversion E; subst; auto|]).
    destruct Hin. }
  intros name Xp Hin. cbn [In] in Hin.
  repeat (destruct Hin as [E|Hin]; [try discriminate; inversion E; subst; auto|]).
  destruct Hin.
Qed.

(** ** Model deployment *)

Lemma update_output_rebind k name v n b ba s fl w vw :
  String.eqb "rf_reg" name = false ->
  update_output (assign k name v) n b ba s fl w vw
  = update_output k n b ba s fl w vw.
Proof.
  intros Hname. unfold update_output, get_forest, assign. cbn [globals lookup].
  now rewrite Hname.
Qed.

(** C10.  After a run of the notebook the callback predicts with [rf_reg]:
    the plain forest with default parameters and random state 42 that
    [rf_fit] grew directly on the training part of the 0.2 split, with no
    imputer in front of it.  For every submission the string returned is
    the formatted prediction of that forest, and it stays the same when
    [model] (or [rf]) is bound to any other estimator: the grid-searched
    model is never consulted. *)
Theorem callback_serves_rf_reg (k : Kernel) :
  run = Ok k ->
  exists X y second forest,
    train_test_split X y (2 # 10) 42 = Ok second /\
    rf_fit (mkRFParams 100 None (Some 42%Z)) (fst (fst second)) (fst (snd second))
    = Ok forest /\
    lookup (globals k) "rf_reg"
    = Ok (OForest (mkRFR (mkRFParams 100 None (Some 42%Z)) (Some forest))) /\
    (forall n b ba s fl w v Xs,
       (0 < n)%Z ->
       input_data b ba s fl w v = Ok Xs ->
       update_output k n b ba s fl w v
       = (xs <- feature_matrix Xs ;;
          predicted_price <- first_item (map (forest_predict_row forest) xs) ;;
          Ok (Some (mkDiv ("Predicted Price: $" ++ format_comma_2f predicted_price)
                          bold)))) /\
    (forall g' n b ba s fl w v,
       update_output (assign k "model" (OGrid g')) n b ba s fl w v
       = update_output k n b ba s fl w v) /\
    (forall p' n b ba s fl w v,
       update_output (assign k "rf" (OPipeline p')) n b ba s fl w v
       = update_output k n b ba s fl w v).
Proof.
  intros H.
  apply run_notebook_inv in H
    as (out & X & y & first & parts & m & score0 & p & g & _ & _ & _ &
        _ & Hparts & Hm & _ & _ & _ & _ & _ & Hreg & _ & _ & _).
  unfold rfr_fit in Hm. apply bind_ok in Hm as (forest & Hforest & Hm).
  inversion Hm; subst m; clear Hm.
  exists X, y, parts, forest.
  split; [exact Hparts|]. split; [exact Hforest|]. split; [exact Hreg|].
  split.
  { intros n b ba s fl w v Xs Hn HXs.
    rewrite (update_output_served k n b ba s fl w v _ Xs Hn Hreg HXs).
    unfold forest_predict. cbn [estimators_].
    destruct (feature_matrix Xs); reflexivity. }
  split; intros; now apply update_output_rebind.
Qed.

End NotebookRun.

(** C8.  Let [rf_reg] be a forest fitted on targets that are all
    non-negative numbers.  For every submission within the limits of the
    form - the default one, 3 bedrooms, 2 bathrooms, 1500 square feet, 1
    floor, no waterfront, view 0, among them - the callback makes exactly
    one prediction, a non-negative number, and returns the text
    "Predicted Price: " followed by that number as "$", digits grouped by
    thousands with commas, a point and two decimals.  The digits are those
    of the prediction: read as cents they are within half a cent of it, the
    even cent at a tie, and there is no leading zero but the single 0 of an
    amount below 1. *)
Theorem callback_returns_currency
  (rf_fit : RFParams -> DataFrame -> Series -> res Forest)
  (k : Kernel) (p : RFParams) (X : DataFrame) (y : Series) (forest : Forest)
  (n : Z) (b ba s fl w v : pyval) :
  fit_respects_targets rf_fit ->
  rf_fit p X y = Ok forest ->
  forallb nonneg_cell y = true ->
  lookup (globals k) "rf_reg" = Ok (OForest (mkRFR p (Some forest))) ->
  (0 < n)%Z ->
  valid_form b ba s fl w v = true ->
  exists Xs price,
    input_data b ba s fl w v = Ok Xs /\
    forest_predict (mkRFR p (Some forest)) Xs = Ok [Fin price] /\
    (0 <= price)%Q /\
    update_output k n b ba s fl w v
    = Ok (Some (mkDiv ("Predicted Price: $" ++ format_comma_2f (Fin price)) bold)) /\
    is_currency ("$" ++ format_comma_2f (Fin price)) = true /\
    renders (format_comma_2f (Fin price)) price.
Proof.
  intros Hfit Hforest Hy Hk Hn Hvalid.
  destruct (valid_form_features _ _ _ _ _ _ Hvalid) as (Xs & xs & HXs & Hxs).
  destruct (Hfit _ _ _ _ Hforest) as (Hne & Hleaves).
  destruct (forest_predict_row_nonneg forest xs Hne) as (price & Hprice & Hpos).
  { intros t Ht. apply Forall_forall. intros l Hl.
    apply (leaf_within_nonneg y); [exact Hy|]. now apply (Hleaves t). }
  exists Xs, price.
  assert (Hpred : forest_predict (mkRFR p (Some forest)) Xs = Ok [Fin price]).
  { unfold forest_predict. cbn [estimators_]. rewrite Hxs. cbn [bind map].
    now rewrite Hprice. }
  split; [exact HXs|]. split; [exact Hpred|]. split; [exact Hpos|]. split.
  { rewrite (update_output_served k n b ba s fl w v _ Xs Hn Hk HXs).
    rewrite Hpred. reflexivity. }
  split; [now apply format_nonneg_currency|].
  now apply format_renders.
Qed.

(** ** The properties on the sample files *)

Lemma sample_fit_respects_targets : fit_respects_targets Sample.rf_fit.
Proof.
  intros p X y f H. unfold Sample.rf_fit in H.
  apply bind_ok in H as (xs & _ & H).
  apply bind_ok in H as (ys & Hys & H).
  destruct (length ys =? 0) eqn:Elen; [discriminate|].
  destruct (n_estimators p <? 1)%Z eqn:En; [discriminate|].
  cbn [orb] in H. inversion H; subst f; clear H.
  apply Nat.eqb_neq in Elen. apply Z.ltb_ge in En.
  split.
  - destruct (Z.to_nat (n_estimators p)) eqn:E; [lia|discriminate].
  - intros t Ht v Hv. apply repeat_spec in Ht. subst t.
    destruct Hv as [<-|[]].
    assert (Hin : In (nth (Z.to_nat (n_estimators p) mod length ys) ys NaN) ys).
    { apply nth_In. apply Nat.mod_upper_bound. exact Elen. }
    destruct (mapM_In _ _ _ Hys _ Hin) as (c & Hc & Hcv).
    destruct c as [[q| |]| | | |]; try discriminate.
    simpl in Hcv. inversion Hcv as [E].
    exists (Fin q), (Fin q). repeat split; try exact Hc.
    + simpl. apply Qle_bool_iff. apply Qle_refl.
    + simpl. apply Qle_bool_iff. apply Qle_refl.
Qed.
(** The price per square foot on the sample file. *)
Lemma price_per_sqft_training_versus_serving_sample :
  (exists raw out q10 q90,
     read_csv Sample.files "data.csv" = Ok raw /\
     original_quantile Sample.files (1 # 10) = Ok q10 /\
     original_quantile Sample.files (9 # 10) = Ok q90 /\
     data_prepared Sample.files Sample.to_timestamp = Ok out /\
     columns out = prepared_columns /\
     (forall r, In r (rows out) ->
        exists price sqft_living,
          cell_at out r "price" = CNum price /\
          cell_at out r "sqft_living" = CNum sqft_living /\
          cell_at out r "price_per_sqft" = CNum (div price sqft_living)) /\
     (forall r, In r (rows raw) ->
        price_within q10 q90 (cell_at raw r "price") = true ->
        exists r',
          In r' (rows out) /\ fst r' = fst r /\
          cell_at out r' "price" = cell_at raw r "price" /\
          cell_at out r' "sqft_living" = cell_at raw r "sqft_living" /\
          cell_at out r' "price_per_sqft"
          = CNum (div (num_of (cell_at raw r "price"))
                      (num_of (cell_at raw r "sqft_living"))))) /\
  (forall b ba s fl w v,
     (forall x y, to_Q b = Ok x -> to_Q ba = Ok y -> ~ (y == 0)%Q ->
        exists X, input_data b ba s fl w v = Ok X) /\
     (forall X,
        input_data b ba s fl w v = Ok X ->
        columns X = serving_columns /\
        exists r,
          rows X = [r] /\
          cell_at X r "sqft_living" = to_cell s /\
          cell_at X r "price_per_sqft" = CNum (Fin 0) /\
          is_zero (num_of (cell_at X r "price_per_sqft")) = true /\
          forall price, ~ (price == 0)%Q ->
            is_zero (div (Fin price) (num_of (cell_at X r "sqft_living"))) = false)).
Proof.
  apply (price_per_sqft_training_versus_serving Sample.files Sample.to_timestamp
           Sample.records); reflexivity.
Defined.

(** The ratio on the sample file. *)
Lemma bedrooms_to_bathrooms_ratio_is_quotient_sample :
  (exists raw out q10 q90,
     read_csv Sample.files "data.csv" = Ok raw /\
     original_quantile Sample.files (1 # 10) = Ok q10 /\
     original_quantile Sample.files (9 # 10) = Ok q90 /\
     data_prepared Sample.files Sample.to_timestamp = Ok out /\
     columns out = prepared_columns /\
     (forall r, In r (rows out) ->
        exists bedrooms bathrooms,
          cell_at out r "bedrooms" = CNum bedrooms /\
          cell_at out r "bathrooms" = CNum bathrooms /\
          (is_zero bathrooms = false ->
           cell_at out r "bedrooms_to_bathrooms_ratio" = CNum (div bedrooms bathrooms)) /\
          (forall p q, bedrooms = Fin p -> bathrooms = Fin q -> ~ (q == 0)%Q ->
           cell_at out r "bedrooms_to_bathrooms_ratio" = CNum (Fin (p / q)))) /\
     (forall r, In r (rows raw) ->
        price_within q10 q90 (cell_at raw r "price") = true ->
        exists r',
          In r' (rows out) /\ fst r' = fst r /\
          cell_at out r' "bedrooms" = cell_at raw r "bedrooms" /\
          cell_at out r' "bathrooms" = cell_at raw r "bathrooms" /\
          cell_at out r' "bedrooms_to_bathrooms_ratio"
          = CNum (div (num_of (cell_at raw r "bedrooms"))
                      (num_of (cell_at raw r "bathrooms"))))) /\
  (forall b ba s fl w v x y,
     to_Q b = Ok x -> to_Q ba = Ok y -> ~ (y == 0)%Q ->
     exists X r,
       input_data b ba s fl w v = Ok X /\
       columns X = serving_columns /\
       rows X = [r] /\
       cell_at X r "bedrooms" = CNum (Fin x) /\
       cell_at X r "bathrooms" = CNum (Fin y) /\
       cell_at X r "bedrooms_to_bathrooms_ratio" = CNum (Fin (x / y)) /\
       cell_at X r "bedrooms_to_bathrooms_ratio" = CNum (div (Fin x) (Fin y))).
Proof.
  apply (bedrooms_to_bathrooms_ratio_is_quotient Sample.files Sample.to_timestamp
           Sample.records); reflexivity.
Defined.



(** On the sample file the selected combination is the second of the grid:
    its mean score is higher than that of the first and of the last, so
    neither the first nor the lowest-scoring candidate is the one kept. *)
Example sample_search_selects_second_candidate :
  exists g s1 s2 s12,
    get_grid Sample.kernel "model" = Ok g /\
    best_params_ g = Some (candidate_of (10, 50)%Z) /\
    option_map (fun r => nth 0 r ([], NaN)) (cv_results_ g)
    = Some (candidate_of (10, 25)%Z, Fin s1) /\
    option_map (fun r => nth 1 r ([], NaN)) (cv_results_ g)
    = Some (candidate_of (10, 50)%Z, Fin s2) /\
    option_map (fun r => nth 11 r ([], NaN)) (cv_results_ g)
    = Some (candidate_of (40, 75)%Z, Fin s12) /\
    (s1 < s2)%Q /\ (s12 < s2)%Q /\ (s1 < s12)%Q.
Proof.
  eexists _, _, _, _.
  split; [vm_compute; reflexivity|].
  split; [vm_compute; reflexivity|].
  split; [vm_compute; reflexivity|].
  split; [vm_compute; reflexivity|].
  split; [vm_compute; reflexivity|].
  split; [|split]; vm_compute; reflexivity.
Qed.

(** The run on the sample file. *)
Lemma every_model_fitted_on_second_split_sample :
  exists out X y first second k1 m p g,
    data_prepared Sample.files Sample.to_timestamp = Ok out /\
    drop_columns out ["price"] = Ok X /\
    getitem out "price" = Ok y /\
    Sample.train_test_split X y (3 # 10) 42 = Ok first /\
    Sample.train_test_split X y (2 # 10) 42 = Ok second /\
    cell_features_target Sample.files Sample.to_timestamp Sample.train_test_split fresh_kernel = Ok k1 /\
    lookup (globals k1) "X_train" = Ok (OFrame (fst (fst first))) /\
    lookup (globals k1) "y_train" = Ok (OSeries (fst (snd first))) /\
    history k1 = [EvSplit (3 # 10) 42] /\
    lookup (globals Sample.kernel) "X_train" = Ok (OFrame (fst (fst second))) /\
    lookup (globals Sample.kernel) "y_train" = Ok (OSeries (fst (snd second))) /\
    firstn 2 (history Sample.kernel) = [EvSplit (3 # 10) 42; EvSplit (2 # 10) 42] /\
    (forall name Xf yf, In (EvFit name Xf yf) (history Sample.kernel) ->
       (name = "rf_reg" \/ name = "rf" \/ name = "model") /\
       Xf = fst (fst second) /\ yf = fst (snd second)) /\
    In (EvFit "rf_reg" (fst (fst second)) (fst (snd second))) (history Sample.kernel) /\
    In (EvFit "rf" (fst (fst second)) (fst (snd second))) (history Sample.kernel) /\
    In (EvFit "model" (fst (fst second)) (fst (snd second))) (history Sample.kernel) /\
    lookup (globals Sample.kernel) "rf_reg" = Ok (OForest m) /\
    rfr_fit Sample.rf_fit (new_RandomForestRegressor 42) (fst (fst second)) (fst (snd second))
    = Ok m /\
    lookup (globals Sample.kernel) "rf" = Ok (OPipeline p) /\
    pipeline_fit Sample.rf_fit Sample.imputer_fit Sample.imputer_transform the_pipeline (fst (fst second)) (fst (snd second)) = Ok p /\
    lookup (globals Sample.kernel) "model" = Ok (OGrid g) /\
    grid_fit Sample.rf_fit Sample.imputer_fit Sample.imputer_transform Sample.r2_score (new_GridSearchCV p the_params 5 true)
             (fst (fst second)) (fst (snd second)) = Ok g /\
    (forall name Xe ye, In (EvScore name Xe ye) (history Sample.kernel) ->
       Xe = snd (fst second) /\ ye = snd (snd second)) /\
    (forall name Xp, In (EvPredict name Xp) (history Sample.kernel) ->
       Xp = fst (fst second) \/ Xp = snd (fst second)).
Proof.
  apply (every_model_fitted_on_second_split Sample.files Sample.to_timestamp Sample.train_test_split
           Sample.rf_fit Sample.imputer_fit Sample.imputer_transform Sample.r2_score
           Sample.mean_absolute_error Sample.kernel).
  vm_compute. reflexivity.
Defined.

(** The run on the sample file. *)
Lemma callback_serves_rf_reg_sample :
  exists X y second forest,
    Sample.train_test_split X y (2 # 10) 42 = Ok second /\
    Sample.rf_fit (mkRFParams 100 None (Some 42%Z)) (fst (fst second)) (fst (snd second))
    = Ok forest /\
    lookup (globals Sample.kernel) "rf_reg"
    = Ok (OForest (mkRFR (mkRFParams 100 None (Some 42%Z)) (Some forest))) /\
    (forall n b ba s fl w v Xs,
       (0 < n)%Z ->
       input_data b ba s fl w v = Ok Xs ->
       update_output Sample.kernel n b ba s fl w v
       = (xs <- feature_matrix Xs ;;
          predicted_price <- first_item (map (forest_predict_row forest) xs) ;;
          Ok (Some (mkDiv ("Predicted Price: $" ++ format_comma_2f predicted_price)
                          bold)))) /\
    (forall g' n b ba s fl w v,
       update_output (assign Sample.kernel "model" (OGrid g')) n b ba s fl w v
       = update_output Sample.kernel n b ba s fl w v) /\
    (forall p' n b ba s fl w v,
       update_output (assign Sample.kernel "rf" (OPipeline p')) n b ba s fl w v
       = update_output Sample.kernel n b ba s fl w v).
Proof.
  apply (callback_serves_rf_reg Sample.files Sample.to_timestamp Sample.train_test_split
           Sample.rf_fit Sample.imputer_fit Sample.imputer_transform Sample.r2_score
           Sample.mean_absolute_error Sample.kernel).
  vm_compute. reflexivity.
Defined.


(** The default submission against the sample kernel. *)
Lemma callback_returns_currency_sample :
  exists Xs price,
    input_data Sample.bedrooms Sample.bathrooms Sample.sqft_living
               Sample.floors Sample.waterfront Sample.view = Ok Xs /\
    forest_predict
      (mkRFR (mkRFParams 100 None (Some 42%Z))
             (Some (repeat (Leaf (Fin 335000)) 100))) Xs = Ok [Fin price] /\
    (0 <= price)%Q /\
    update_output Sample.kernel 1 Sample.bedrooms Sample.bathrooms
                  Sample.sqft_living Sample.floors Sample.waterfront Sample.view
    = Ok (Some (mkDiv ("Predicted Price: $" ++ format_comma_2f (Fin price)) bold)) /\
    is_currency ("$" ++ format_comma_2f (Fin price)) = true /\
    renders (format_comma_2f (Fin price)) price.
Proof.
  apply (callback_returns_currency Sample.rf_fit Sample.kernel
           (mkRFParams 100 None (Some 42%Z)) Sample.X_train Sample.y_train
           (repeat (Leaf (Fin 335000)) 100) 1).
  - exact sample_fit_respects_targets.
  - vm_compute. reflexivity.
  - reflexivity.
  - vm_compute. reflexivity.
  - lia.
  - reflexivity.
Defined.

(** On the sample files the tuned model and [rf_reg] disagree on the default
    submission, and the callback shows the prediction of [rf_reg]. *)
Example served_price_is_not_the_tuned_prediction :
  exists g Xs,
    get_grid Sample.kernel "model" = Ok g /\
    input_data Sample.bedrooms Sample.bathrooms Sample.sqft_living
               Sample.floors Sample.waterfront Sample.view = Ok Xs /\
    grid_predict Sample.imputer_transform g Xs = Ok [Fin (27500000 # 50)] /\
    format_comma_2f (Fin (27500000 # 50)) = "550,000.00" /\
    update_output Sample.kernel 1 Sample.bedrooms Sample.bathrooms
                  Sample.sqft_living Sample.floors Sample.waterfront Sample.view
    = Ok (Some (mkDiv "Predicted Price: $335,000.00" bold)).
Proof.
  eexists _, _.
  split; [vm_compute; reflexivity|].
  split; [vm_compute; reflexivity|].
  split; [vm_compute; reflexivity|].
  split; vm_compute; reflexivity.
Qed.


(* ================================================================== *)
(** * Further properties *)

(** ** Small files *)

Section SmallFiles.

Variable files : string -> option (list string * list (list cell)).
Variable to_timestamp : cell -> res cell.

(** X1.  A file with a single sale of finite price keeps it: both quantiles are
    its price. *)
Theorem data_prepared_single_record (r : list cell) :
  files "data.csv" = Some (raw_columns, [r]) ->
  raw_record_ok to_timestamp r = true ->
  finite_price r = true ->
  original_quantile files (1 # 10) = Ok (raw_price r) /\
  original_quantile files (9 # 10) = Ok (raw_price r) /\
  data_prepared files to_timestamp
  = Ok (mkDF prepared_columns [(0, prepared_row r)]).
Proof.
  intros Hfile Hr Hfin.
  assert (Hrs : forallb (raw_record_ok to_timestamp) [r] = true)
    by (cbn; now rewrite Hr).
  rewrite !(original_quantile_ok files to_timestamp [r] Hfile Hrs) by reflexivity.
  rewrite (data_prepared_ok files to_timestamp [r] Hfile Hrs).
  unfold price_quantile, in_band, labelled. cbn [map length seq combine filter snd].
  unfold finite_price in Hfin.
  destruct (raw_price r) as [p|[|]|]; try discriminate.
  cbn. assert (E : Qle_bool p p = true) by (apply Qle_bool_iff, Qle_refl).
  now rewrite E.
Qed.

End SmallFiles.

(** ** Row labels *)

Lemma labelled_nth_error {A : Type} (l : list A) : forall (a i : nat) (x : A),
  In (i, x) (combine (seq a (length l)) l) ->
  a <= i /\ nth_error l (i - a) = Some x.
Proof.
  induction l as [|y t IH]; intros a i x H; simpl in H; [destruct H|].
  destruct H as [E|H].
  - inversion E; subst. split; [lia|]. now rewrite Nat.sub_diag.
  - apply IH in H as [Hle Hn]. split; [lia|].
    replace (i - a) with (S (i - S a)) by lia. exact Hn.
Qed.

Lemma labels_sorted {A : Type} (f : nat * A -> bool) (l : list A) : forall a,
  StronglySorted lt (map fst (filter f (combine (seq a (length l)) l))) /\
  Forall (fun i => a <= i < a + length l)
         (map fst (filter f (combine (seq a (length l)) l))).
Proof.
  induction l as [|y t IH]; intros a; simpl.
  - split; constructor.
  - destruct (IH (S a)) as [Hs Hf].
    assert (Hf' : Forall (fun i => a <= i < a + S (length t))
                    (map fst (filter f (combine (seq (S a) (length t)) t)))).
    { eapply Forall_impl; [|exact Hf]. simpl. intros; lia. }
    destruct (f (a, y)); simpl.
    + split.
      * constructor; [exact Hs|]. eapply Forall_impl; [|exact Hf].
        simpl. intros; lia.
      * constructor; [lia|exact Hf'].
    + split; assumption.
Qed.

Section PreparedLabels.

Variable files : string -> option (list string * list (list cell)).
Variable to_timestamp : cell -> res cell.
Variable records : list (list cell).

Hypothesis Hfile : files "data.csv" = Some (raw_columns, records).
Hypothesis Hrecords : forallb (raw_record_ok to_timestamp) records = true.

(** X2.  The prepared table keeps the labels [read_csv] gave: its index is
    strictly increasing (so without repetition), every label is a position of
    the file, and the row labelled [i] is computed from record number [i]
    and from no other; the index is never renumbered after the filter. *)
Theorem data_prepared_keeps_labels :
  exists out,
    data_prepared files to_timestamp = Ok out /\
    StronglySorted lt (index out) /\
    Forall (fun i => i < length records) (index out) /\
    forall i cells, In (i, cells) (rows out) ->
      exists r, nth_error records i = Some r /\ cells = prepared_row r.
Proof.
  eexists. split; [apply (data_prepared_ok _ _ _ Hfile Hrecords)|].
  unfold index, labelled. cbn [rows]. rewrite map_map. cbn [fst].
  destruct (labels_sorted
              (fun r => in_band (price_quantile records (1 # 10))
                                (price_quantile records (9 # 10)) (snd r))
              records 0) as [Hs Hf].
  split; [exact Hs|]. split.
  - eapply Forall_impl; [|exact Hf]. simpl. intros; lia.
  - intros i cells Hin. apply in_map_iff in Hin as ([j r] & E & Hin).
    inversion E; subst; clear E. apply filter_In in Hin as [Hin _].
    apply labelled_nth_error in Hin as [_ Hn]. rewrite Nat.sub_0_r in Hn.
    now exists r.
Qed.

End PreparedLabels.

(** The labels on the sample file. *)
Lemma data_prepared_keeps_labels_sample :
  exists out,
    data_prepared Sample.files Sample.to_timestamp = Ok out /\
    StronglySorted lt (index out) /\
    Forall (fun i => i < length Sample.records) (index out) /\
    forall i cells, In (i, cells) (rows out) ->
      exists r, nth_error Sample.records i = Some r /\ cells = prepared_row r.
Proof.
  apply (data_prepared_keeps_labels Sample.files Sample.to_timestamp Sample.records);
    reflexivity.
Defined.

(** ** What [data_prepared] reads *)

Lemma labelled_map (g : list cell -> list cell) (l : list (list cell)) :
  labelled (map g l) = map (fun r => (fst r, g (snd r))) (labelled l).
Proof.
  unfold labelled. rewrite length_map. generalize 0%nat.
  induction l as [|x t IH]; intros a; simpl; [reflexivity|]. now rewrite IH.
Qed.

Lemma prepared_rows_from_kept (records : list (list cell)) :
  map (fun r => (fst r, prepared_row (snd r)))
      (filter (fun r => in_band (price_quantile records (1 # 10))
                                (price_quantile records (9 # 10)) (snd r))
              (labelled records))
  = prepared_from_kept (map kept_cells records).
Proof.
  unfold prepared_from_kept. cbn zeta.
  rewrite labelled_map, filter_map_comm, !map_map. reflexivity.
Qed.

(** X4.  [data_prepared] looks at seven cells of each record only.  Two files
    with the raw schema whose records agree on price, bedrooms, bathrooms,
    sqft_living, floors, waterfront and view are prepared into the same
    table, whatever their other eleven columns hold (the dates only have to
    be convertible). *)
Theorem data_prepared_ignores_dropped_columns
  (files1 files2 : string -> option (list string * list (list cell)))
  (to_timestamp1 to_timestamp2 : cell -> res cell)
  (records1 records2 : list (list cell)) :
  files1 "data.csv" = Some (raw_columns, records1) ->
  files2 "data.csv" = Some (raw_columns, records2) ->
  forallb (raw_record_ok to_timestamp1) records1 = true ->
  forallb (raw_record_ok to_timestamp2) records2 = true ->
  map kept_cells records1 = map kept_cells records2 ->
  data_prepared files1 to_timestamp1 = data_prepared files2 to_timestamp2 /\
  data_prepared files1 to_timestamp1
  = Ok (mkDF prepared_columns (prepared_from_kept (map kept_cells records1))).
Proof.
  intros Hf1 Hf2 Hr1 Hr2 Hk.
  rewrite (data_prepared_ok _ _ _ Hf1 Hr1), (data_prepared_ok _ _ _ Hf2 Hr2).
  rewrite !prepared_rows_from_kept, Hk. split; reflexivity.
Qed.

(** ** Errors of [data_prepared] *)

Lemma mapM_raise {A B : Type} (f : A -> res B) (e : pyerr) (l : list A) :
  (forall x, In x l -> f x = Raise e \/ exists y, f x = Ok y) ->
  (exists x, In x l /\ f x = Raise e) ->
  mapM f l = Raise e.
Proof.
  induction l as [|a t IH]; intros Hall (x & Hin & Hx); [destruct Hin|].
  simpl. destruct (Hall a (or_introl eq_refl)) as [Ha|(y & Ha)]; rewrite Ha;
    [reflexivity|].
  cbn [bind]. rewrite IH; [reflexivity| |].
  - intros z Hz. apply Hall. now right.
  - destruct Hin as [<-|Hin]; [congruence|]. now exists x.
Qed.

Lemma In_labelled (records : list (list cell)) (r : list cell) :
  In r records -> exists i, In (i, r) (labelled records).
Proof.
  intros H. rewrite <- (labelled_snd records) in H.
  apply in_map_iff in H as ([i r'] & E & H). simpl in E. subst r'. now exists i.
Qed.

Lemma nth_set_nth_0 {A : Type} (j : nat) (v d : A) (l : list A) :
  nth (S j) (set_nth 0 v l) d = nth (S j) l d.
Proof. destruct l; reflexivity. Qed.

(** X5.  A price that is text is not skipped: when the dates of a file with the
    raw schema convert but some record holds a string in the price column,
    [data_prepared] raises [TypeError] (at the first quantile) and returns
    no table. *)
Theorem data_prepared_text_price
  (files : string -> option (list string * list (list cell)))
  (to_timestamp : cell -> res cell) (records : list (list cell)) :
  files "data.csv" = Some (raw_columns, records) ->
  (forall r, In r records -> exists d, to_timestamp (nth 0 r missing) = Ok d) ->
  (exists r s, In r records /\ nth 1 r missing = CStr s) ->
  data_prepared files to_timestamp = Raise TypeError.
Proof.
  intros Hfile Hdates (bad & s & Hbad & Hs).
  assert (Hnum : is_num (nth 1 bad missing) = false) by (now rewrite Hs).
  unfold data_prepared, read_csv. rewrite Hfile. cbn [bind].
  fold (labelled records).
  rewrite getitem_rows with (i := 0) by reflexivity. cbn [bind].
  unfold to_datetime.
  rewrite (mapM_map to_timestamp _ (fun r => ts_of to_timestamp (nth 0 (snd r) missing))).
  2:{ intros [i r] Hr. apply labelled_In in Hr.
      destruct (Hdates r Hr) as (d & Hd). unfold ts_of. cbn [snd]. now rewrite Hd. }
  cbn [bind].
  rewrite setitem_old with (i := 0) by reflexivity. cbn [bind].
  rewrite getitem_rows with (i := 1) by reflexivity. cbn [bind].
  unfold quantile at 1. cbn [Qle_bool andb negb].
  change (Qle_bool 0 (1 # 10) && Qle_bool (1 # 10) 1) with true. cbn [negb].
  rewrite (mapM_raise as_num TypeError); [reflexivity| |].
  - intros c _. destruct c; simpl; eauto.
  - destruct (In_labelled _ _ Hbad) as (i & Hi).
    exists (nth 1 bad missing). split.
    + rewrite map_map. apply in_map_iff. exists (i, bad). split; [|exact Hi].
      cbn [snd fst]. apply nth_set_nth_0.
    + destruct (nth 1 bad missing); simpl in *; congruence.
Qed.

Lemma index_of_In c cs i : index_of c cs = Some i -> In c cs.
Proof.
  revert i; induction cs as [|c' t IH]; simpl; intros i H; [discriminate|].
  destruct (String.eqb c c') eqn:E.
  - apply String.eqb_eq in E. now left.
  - destruct (index_of c t); [|discriminate]. right. now apply (IH n).
Qed.

Lemma index_of_None c cs : index_of c cs = None -> ~ In c cs.
Proof.
  induction cs as [|c' t IH]; simpl; intros H; [tauto|].
  destruct (String.eqb c c') eqn:E; [discriminate|].
  apply String.eqb_neq in E.
  destruct (index_of c t); [discriminate|].
  intros [->|Hin]; [congruence|]. now apply IH.
Qed.

Lemma has_col_In cs c : has_col cs c = true <-> In c cs.
Proof.
  unfold has_col. rewrite existsb_exists. split.
  - intros (x & Hx & E). apply String.eqb_eq in E. now subst.
  - intros H. exists c. split; [exact H|apply String.eqb_refl].
Qed.

Lemma getitem_In df c s : getitem df c = Ok s -> In c (columns df).
Proof.
  unfold getitem. destruct (index_of c (columns df)) eqn:E; [|discriminate].
  intros _. now apply index_of_In in E.
Qed.

Lemma setitem_In df c s df' :
  setitem df c s = Ok df' ->
  forall x, In x (columns df') <-> In x (columns df) \/ x = c.
Proof.
  intros H x. rewrite (setitem_columns _ _ _ _ H).
  destruct (index_of c (columns df)) eqn:E.
  - apply index_of_In in E. split; [now left|]. intros [Hx| ->]; assumption.
  - rewrite in_app_iff. simpl. intuition.
Qed.

Lemma drop_columns_In df cs df' :
  drop_columns df cs = Ok df' ->
  (forall c, In c cs -> In c (columns df)) /\
  (forall x, In x (columns df') <-> In x (columns df) /\ ~ In x cs).
Proof.
  unfold drop_columns, first_missing.
  destruct (find _ cs) eqn:E; [discriminate|].
  intros H; inversion H; subst df'; clear H. cbn [columns]. split.
  - intros c Hc. pose proof (find_none _ _ E c Hc) as Hn.
    apply negb_false_iff in Hn. now apply has_col_In.
  - intros x. rewrite filter_In, negb_true_iff.
    split; intros [H1 H2]; split; auto.
    + intros Hin. apply has_col_In in Hin. congruence.
    + destruct (has_col cs x) eqn:Eh; [|reflexivity].
      apply has_col_In in Eh. contradiction.
Qed.

(** X6.  [data_prepared] returns a table only for a file that has every column it
    reads or drops, fifteen in all; "floors", "waterfront" and "view" are
    not among them.  The columns of the table are then the columns of the
    file and the three derived ones, less the eleven dropped. *)
Theorem data_prepared_requires_columns
  (files : string -> option (list string * list (list cell)))
  (to_timestamp : cell -> res cell) (out : DataFrame) :
  data_prepared files to_timestamp = Ok out ->
  exists header records,
    files "data.csv" = Some (header, records) /\
    (forall c, In c read_columns \/ In c dropped_columns -> In c header) /\
    (forall c, In c (columns out) <->
               (In c header \/ In c derived_columns) /\ ~ In c dropped_columns).
Proof.
  unfold data_prepared, read_csv. intros H.
  destruct (files "data.csv") as [[header records]|]; [|discriminate].
  cbn [bind] in H. exists header, records. split; [reflexivity|].
  set (df0 := mkDF header _) in H.
  apply bind_ok in H as (date & Gdate & H).
  apply bind_ok in H as (date' & _ & H).
  apply bind_ok in H as (df1 & S1 & H).
  apply bind_ok in H as (price & Gprice & H).
  apply bind_ok in H as (? & _ & H). apply bind_ok in H as (? & _ & H).
  apply bind_ok in H as (? & _ & H). apply bind_ok in H as (? & _ & H).
  apply bind_ok in H as (? & _ & H). apply bind_ok in H as (? & _ & H).
  apply bind_ok in H as (? & _ & H). apply bind_ok in H as (? & _ & H).
  apply bind_ok in H as (df2 & B2 & H).
  apply bind_ok in H as (? & Gbed & H). apply bind_ok in H as (? & Gbath & H).
  apply bind_ok in H as (? & _ & H).
  apply bind_ok in H as (df3 & S3 & H).
  apply bind_ok in H as (? & _ & H). apply bind_ok in H as (? & Gsqft & H).
  apply bind_ok in H as (? & _ & H).
  apply bind_ok in H as (df4 & S4 & H).
  apply bind_ok in H as (? & _ & H). apply bind_ok in H as (? & _ & H).
  apply bind_ok in H as (? & _ & H).
  apply bind_ok in H as (df5 & S5 & H).
  apply bind_ok in H as (df6 & D6 & H).
  apply bind_ok in H as (df7 & D7 & H).
  inversion H; subst df7; clear H.
  apply getitem_In in Gdate, Gprice, Gbed, Gbath, Gsqft.
  pose proof (setitem_In _ _ _ _ S1) as C1.
  apply boolean_index_columns in B2.
  pose proof (setitem_In _ _ _ _ S3) as C3.
  pose proof (setitem_In _ _ _ _ S4) as C4.
  pose proof (setitem_In _ _ _ _ S5) as C5.
  apply drop_columns_In in D6 as [R6 C6].
  apply drop_columns_In in D7 as [R7 C7].
  rewrite B2 in *. cbn [columns df0] in *.
  assert (Hcols5 : forall z, In z (columns df5) <->
                             In z header \/ In z derived_columns).
  { intros z. rewrite C5, C4, C3, C1. unfold derived_columns. cbn [In].
    split; [|intuition (subst; auto)].
    intros [[[[Hz| ->]| ->]| ->]| ->]; auto. }
  split.
  - intros c [Hc|Hc].
    + unfold read_columns in Hc. cbn [In] in Hc.
      assert (Hc3 : In "sqft_living" header).
      { apply C3 in Gsqft as [Hin|E]; [|discriminate]. apply C1 in Hin as [Hin|E];
          [exact Hin|discriminate]. }
      assert (Hbed : In "bedrooms" header)
        by (apply C1 in Gbed as [Hin|E]; [exact Hin|discriminate]).
      assert (Hbath : In "bathrooms" header)
        by (apply C1 in Gbath as [Hin|E]; [exact Hin|discriminate]).
      assert (Hprice : In "price" header)
        by (apply C1 in Gprice as [Hin|E]; [exact Hin|discriminate]).
      repeat (destruct Hc as [<-|Hc]; [assumption|]). destruct Hc.
    + assert (H5 : In c (columns df5)).
      { unfold dropped_columns in Hc. cbn [In] in Hc.
        destruct Hc as [<-|[<-|Hc]]; [apply R6; cbn; tauto|apply R6; cbn; tauto|].
        apply (C6 c), R7. cbn [In]. tauto. }
      apply Hcols5 in H5 as [Hh|Hd]; [exact Hh|].
      exfalso. unfold derived_columns, dropped_columns in *. cbn [In] in Hc, Hd.
      repeat (destruct Hd as [<-|Hd];
              [repeat (destruct Hc as [Hc|Hc]; [discriminate|]); destruct Hc|]).
      destruct Hd.
  - intros c. rewrite C7, C6, Hcols5. unfold dropped_columns. cbn [In]. tauto.
Qed.

(** ** Features and target *)

Section FeaturesAndTarget.

Variable files : string -> option (list string * list (list cell)).
Variable to_timestamp : cell -> res cell.
Variable records : list (list cell).

Hypothesis Hfile : files "data.csv" = Some (raw_columns, records).
Hypothesis Hrecords : forallb (raw_record_ok to_timestamp) records = true.

(** X7.  The feature table [X] and the target [y] of the first modelling cell
    come from two calls of [data_prepared] and stay aligned: [X] has the
    labels of the prepared table and no "price" column, [y] has one entry
    per row of [X], and the features hold the target divided: on every row
    the [price_per_sqft] of [X] is the entry of [y] at the same position
    divided by the [sqft_living] of the row. *)
Theorem features_hold_target_per_sqft :
  exists out X y,
    data_prepared files to_timestamp = Ok out /\
    drop_columns out ["price"] = Ok X /\
    getitem out "price" = Ok y /\
    index X = index out /\
    columns X = serving_columns /\
    length y = length (rows X) /\
    forall n rx,
      nth_error (rows X) n = Some rx ->
      exists p s,
        nth_error y n = Some (CNum p) /\
        cell_at X rx "sqft_living" = CNum s /\
        cell_at X rx "price_per_sqft" = CNum (div p s).
Proof.
  eexists _, _, _.
  split; [apply (data_prepared_ok _ _ _ Hfile Hrecords)|].
  split; [apply drop_columns_rows; reflexivity|].
  split; [apply getitem_rows with (i := 0); reflexivity|].
  set (kept := filter _ (labelled records)).
  unfold index. cbn [rows columns]. rewrite !map_map. cbn [fst snd].
  split; [reflexivity|]. split; [reflexivity|].
  split; [now rewrite !length_map|].
  intros n rx Hrx.
  rewrite nth_error_map in Hrx. rewrite nth_error_map.
  destruct (nth_error kept n) as [[i r]|]; [|discriminate].
  cbn in Hrx. inversion Hrx; subst rx; clear Hrx.
  exists (raw_price r), (raw_sqft_living r).
  split; [reflexivity|]. split; reflexivity.
Qed.

End FeaturesAndTarget.

(** ** The serving row *)


Section Interaction.

Variable files : string -> option (list string * list (list cell)).
Variable to_timestamp : cell -> res cell.
Variable records : list (list cell).

Hypothesis Hfile : files "data.csv" = Some (raw_columns, records).
Hypothesis Hrecords : forallb (raw_record_ok to_timestamp) records = true.


End Interaction.

(** ** Errors of the callback *)

(** X9.  After a click the callback divides before it looks at the model.  With
    an empty [bedrooms] or [bathrooms] field it raises [TypeError], and with
    [bathrooms] equal to 0 it raises [ZeroDivisionError], where the training
    table stores an infinity or NaN; in both cases whatever the kernel
    holds and whatever the other fields are. *)
Theorem callback_rejects_missing_or_zero_rooms
  (k : Kernel) (n : Z) (b ba s fl w v : pyval) :
  (0 < n)%Z ->
  (b = PyNone \/ ba = PyNone ->
   update_output k n b ba s fl w v = Raise TypeError) /\
  (forall x y, to_Q b = Ok x -> to_Q ba = Ok y -> (y == 0)%Q ->
   update_output k n b ba s fl w v = Raise ZeroDivisionError).
Proof.
  intros Hn. apply Z.gtb_lt in Hn. unfold update_output. rewrite Hn.
  unfold input_data, py_truediv. split.
  - intros [-> | ->]; [reflexivity|]. now destruct b.
  - intros x y Hx Hy Hz. rewrite Hx, Hy. cbn [bind].
    apply Qeq_bool_iff in Hz. now rewrite Hz.
Qed.

(** X10.  The callback reads the global [rf_reg] at each call.  On a
    submission whose frame can be built it raises [NameError] in a kernel
    that does not bind [rf_reg], and the not-fitted error of the estimator
    in a kernel where [rf_reg] was created and not yet fitted; a text is
    returned only in a kernel that binds [rf_reg]. *)
Theorem callback_needs_rf_reg
  (k : Kernel) (n : Z) (b ba s fl w v : pyval) (X : DataFrame) :
  (0 < n)%Z ->
  input_data b ba s fl w v = Ok X ->
  (lookup (globals k) "rf_reg" = Raise (NameError "rf_reg") ->
   update_output k n b ba s fl w v = Raise (NameError "rf_reg")) /\
  (forall params,
     lookup (globals k) "rf_reg" = Ok (OForest (mkRFR params None)) ->
     update_output k n b ba s fl w v = Raise (LibraryError 0)) /\
  (forall text style,
     update_output k n b ba s fl w v = Ok (Some (mkDiv text style)) ->
     exists o, lookup (globals k) "rf_reg" = Ok o).
Proof.
  intros Hn HX. apply Z.gtb_lt in Hn. unfold update_output, get_forest.
  rewrite Hn, HX. cbn [bind]. split; [|split].
  - intros ->. reflexivity.
  - intros params ->. reflexivity.
  - intros text style H.
    destruct (lookup (globals k) "rf_reg") as [o|e]; [now exists o|discriminate].
Qed.

(** ** The amount shown *)

(** X11.  The text shows the prediction rounded to the nearest cent.  For every
    finite prediction [q] the digits of the formatted text, read as a number
    of cents, are [|q| * 100] rounded to the nearest integer (ties to even),
    at most half a cent away from it; the text starts with a minus sign
    when [q] is negative and with a digit otherwise. *)
Theorem shown_amount_is_rounded_prediction (q : Q) :
  cents_of_text (format_comma_2f (Fin q)) = round_half_even (Qabs q * 100) /\
  (Qabs (Qabs q * 100 - inject_Z (cents_of_text (format_comma_2f (Fin q))))
   <= 1 # 2)%Q /\
  (if Qlt_bool q 0
   then get 0 (format_comma_2f (Fin q)) = Some "-"%char
   else exists a, get 0 (format_comma_2f (Fin q)) = Some a /\ is_digit a = true).
Proof.
  assert (Hc : (0 <= round_half_even (Qabs q * 100))%Z).
  { apply round_half_even_nonneg. apply Qmult_le_0_compat; [apply Qabs_nonneg|easy]. }
  assert (Hdigits :
    cents_of_text (format_comma_2f (Fin q)) = round_half_even (Qabs q * 100)).
  { unfold cents_of_text, format_comma_2f.
    set (cents := round_half_even (Qabs q * 100)) in *.
    rewrite cents_acc_app.
    assert (E0 : cents_acc (if Qlt_bool q 0 then "-" else "") 0 = 0%Z)
      by (destruct (Qlt_bool q 0); reflexivity).
    rewrite E0, cents_acc_app.
    rewrite cents_acc_group_thousands by (apply Z.div_pos; lia).
    change (cents_acc ("." ++ digit (cents mod 100 / 10) ++ digit (cents mod 10))
                      (cents / 100))
      with (cents_acc (digit (cents mod 100 / 10) ++ digit (cents mod 10))
                      (cents / 100)).
    pose proof (Z.mod_pos_bound cents 100) as Hb.
    rewrite cents_acc_app.
    rewrite !cents_acc_digit
      by first [ apply Z.mod_pos_bound; lia
               | split; [apply Z.div_pos; lia|apply Z.div_lt_upper_bound; lia] ].
    assert (Hm : (cents mod 10 = (cents mod 100) mod 10)%Z).
    { symmetry. apply Z.mod_mod_divide. exists 10%Z. reflexivity. }
    pose proof (Z.div_mod cents 100). pose proof (Z.div_mod (cents mod 100) 10).
    lia. }
  split; [exact Hdigits|]. split.
  - rewrite Hdigits. apply round_half_even_nearest.
  - unfold format_comma_2f. destruct (Qlt_bool q 0); [reflexivity|].
    apply money_starts_with_digit.
    change (is_money (group_thousands (round_half_even (Qabs q * 100) / 100) ++
                      "." ++
                      digit (round_half_even (Qabs q * 100) mod 100 / 10) ++
                      digit (round_half_even (Qabs q * 100) mod 10)) = true).
    apply group_thousands_money; [apply Z.div_pos; lia|].
    pose proof (Z.mod_pos_bound (round_half_even (Qabs q * 100)) 100).
    destruct (digit_shape (round_half_even (Qabs q * 100) mod 100 / 10))
      as (a & -> & Ha).
    { split; [apply Z.div_pos; lia|apply Z.div_lt_upper_bound; lia]. }
    destruct (digit_shape (round_half_even (Qabs q * 100) mod 10)) as (b & -> & Hb).
    { apply Z.mod_pos_bound; lia. }
    simpl. now rewrite Ha, Hb.
Qed.

(** ** The form and the callback *)

(** X12.  Dash calls the callback with the click count and the values of
    the six [State] components in the order of the decorator.  With the
    click count 0 of the page as loaded the call returns [None], whatever
    the kernel and the fields hold.  The default values of the layout
    respect its [min] and [max]; and after a click on a form whose six
    fields do, with [rf_reg] a forest fitted on non-negative targets, the
    call returns "Predicted Price: $" and the one prediction of the forest
    for the row of the six fields: a non-negative amount in currency format
    whose digits, read as cents, are within half a cent of the prediction,
    the even cent at a tie, with no leading zero. *)
Theorem click_on_a_form_within_limits :
  (forall k fields, dispatch k button_n_clicks fields = Ok None) /\
  (forall k n fields,
     dispatch k n fields
     = update_output k n (field_value fields "bedrooms")
                     (field_value fields "bathrooms")
                     (field_value fields "sqft_living")
                     (field_value fields "floors")
                     (field_value fields "waterfront")
                     (field_value fields "view")) /\
  forallb (within_limits form_defaults) layout_inputs = true /\
  (forall (rf_fit : RFParams -> DataFrame -> Series -> res Forest)
          (k : Kernel) (p : RFParams) (X : DataFrame) (y : Series)
          (forest : Forest) (n : Z) (fields : list (string * pyval)),
     fit_respects_targets rf_fit ->
     rf_fit p X y = Ok forest ->
     forallb nonneg_cell y = true ->
     lookup (globals k) "rf_reg" = Ok (OForest (mkRFR p (Some forest))) ->
     forallb (within_limits fields) layout_inputs = true ->
     (0 < n)%Z ->
     exists Xs price,
       input_data (field_value fields "bedrooms") (field_value fields "bathrooms")
                  (field_value fields "sqft_living") (field_value fields "floors")
                  (field_value fields "waterfront") (field_value fields "view")
       = Ok Xs /\
       forest_predict (mkRFR p (Some forest)) Xs = Ok [Fin price] /\
       (0 <= price)%Q /\
       dispatch k n fields
       = Ok (Some (mkDiv ("Predicted Price: $" ++ format_comma_2f (Fin price)) bold)) /\
       is_currency ("$" ++ format_comma_2f (Fin price)) = true /\
       renders (format_comma_2f (Fin price)) price).
Proof.
  split; [reflexivity|]. split; [reflexivity|]. split; [reflexivity|].
  intros rf_fit k p X y forest n fields Hfit Hforest Hy Hk Hlim Hn.
  unfold dispatch. cbn [map callback_state].
  assert (Hvalid : valid_form (field_value fields "bedrooms")
                              (field_value fields "bathrooms")
                              (field_value fields "sqft_living")
                              (field_value fields "floors")
                              (field_value fields "waterfront")
                              (field_value fields "view") = true).
  { unfold valid_form. cbn in Hlim. unfold within_limits in Hlim. cbn in Hlim.
    repeat (apply andb_true_iff in Hlim; destruct Hlim as [? Hlim]).
    repeat (apply andb_true_iff; split); assumption. }
  destruct (valid_form_features _ _ _ _ _ _ Hvalid) as (Xs & xs & HXs & Hxs).
  destruct (Hfit _ _ _ _ Hforest) as (Hne & Hleaves).
  destruct (forest_predict_row_nonneg forest xs Hne) as (price & Hprice & Hpos).
  { intros t Ht. apply Forall_forall. intros l Hl.
    apply (leaf_within_nonneg y); [exact Hy|]. now apply (Hleaves t). }
  assert (Hpred : forest_predict (mkRFR p (Some forest)) Xs = Ok [Fin price]).
  { unfold forest_predict. cbn [estimators_]. rewrite Hxs. cbn [bind map].
    now rewrite Hprice. }
  exists Xs, price.
  split; [exact HXs|]. split; [exact Hpred|]. split; [exact Hpos|]. split.
  { rewrite (update_output_served k n _ _ _ _ _ _ _ Xs Hn Hk HXs).
    now rewrite Hpred. }
  split; [now apply format_nonneg_currency|].
  now apply format_renders.
Qed.

(** ** The grid search and the size of the training part *)

Section FiveFolds.

Variable files : string -> option (list string * list (list cell)).
Variable to_timestamp : cell -> res cell.
Variable train_test_split :
  DataFrame -> Series -> Q -> Z -> res ((DataFrame * DataFrame) * (Series * Series)).
Variable rf_fit : RFParams -> DataFrame -> Series -> res Forest.
Variable imputer_fit : DataFrame -> res (list float64).
Variable imputer_transform : list float64 -> DataFrame -> res DataFrame.
Variable r2_score : Series -> list float64 -> res float64.
Variable mean_absolute_error : Series -> list float64 -> res float64.

Lemma grid_fit_few_rows (p : Pipeline) (X : DataFrame) (y : Series) :
  length (rows X) < 5 ->
  grid_fit rf_fit imputer_fit imputer_transform r2_score
           (new_GridSearchCV p the_params 5 true) X y
  = Raise ValueError.
Proof.
  intros Hn. unfold grid_fit.
  cbn [estimator param_grid cv refit new_GridSearchCV].
  rewrite the_candidates_grid.
  unfold the_candidates, grid_pairs. cbn [list_prod map app mapM].
  rewrite set_params_candidate. cbn [bind].
  unfold cross_val_mean, KFold.
  assert (E : (length (rows X) <? 5) = true) by (apply Nat.ltb_lt; exact Hn).
  rewrite E. reflexivity.
Qed.

(** X13.  The five-fold search needs five training rows: a run of the
    notebook that reaches its end has bound [X_train] to a frame of at least
    five rows, and the search of the notebook, whatever pipeline it is given,
    raises [ValueError] on every frame of fewer. *)
Theorem grid_search_needs_five_training_rows (k : Kernel) :
  run_notebook files to_timestamp train_test_split rf_fit imputer_fit
               imputer_transform r2_score mean_absolute_error = Ok k ->
  (exists X_train,
     lookup (globals k) "X_train" = Ok (OFrame X_train) /\
     5 <= length (rows X_train)) /\
  (forall p X y,
     length (rows X) < 5 ->
     grid_fit rf_fit imputer_fit imputer_transform r2_score
              (new_GridSearchCV p the_params 5 true) X y
     = Raise ValueError).
Proof.
  intros Hrun. split; [|intros p X y; apply grid_fit_few_rows].
  destruct (run_notebook_inv _ _ _ _ _ _ _ _ k Hrun)
    as (out & X & y & first & parts & m & score & p & g & _ & _ & _ & _ & _ &
        _ & _ & _ & Hg & HX & _).
  exists (fst (fst parts)). split; [exact HX|].
  destruct (Nat.lt_ge_cases (length (rows (fst (fst parts)))) 5) as [Hlt|Hge];
    [|exact Hge].
  rewrite grid_fit_few_rows in Hg by exact Hlt. discriminate.
Qed.

End FiveFolds.

(** ** The band of the training targets *)

Section TrainingBand.

Variable files : string -> option (list string * list (list cell)).
Variable to_timestamp : cell -> res cell.
Variable train_test_split :
  DataFrame -> Series -> Q -> Z ->
  res ((DataFrame * DataFrame) * (Series * Series)).
Variable rf_fit : RFParams -> DataFrame -> Series -> res Forest.
Variable imputer_fit : DataFrame -> res (list float64).
Variable imputer_transform : list float64 -> DataFrame -> res DataFrame.
Variable r2_score : Series -> list float64 -> res float64.
Variable mean_absolute_error : Series -> list float64 -> res float64.
Variable records : list (list cell).

Hypothesis Hfile : files "data.csv" = Some (raw_columns, records).
Hypothesis Hrecords : forallb (raw_record_ok to_timestamp) records = true.

(** X14.  The price filter bounds what every model of the notebook is
    trained on.  When the split hands on targets it was given, after a run
    of the notebook every entry of [y_train], and every target any fit
    received ([rf_reg], [rf] and [model]), is a price between the 0.1 and
    the 0.9 quantile of the prices of the file, bounds included. *)
Theorem training_targets_within_price_band (k : Kernel) :
  split_keeps_targets train_test_split ->
  run_notebook files to_timestamp train_test_split rf_fit imputer_fit
               imputer_transform r2_score mean_absolute_error = Ok k ->
  exists q10 q90 X_train y_train,
    original_quantile files (1 # 10) = Ok q10 /\
    original_quantile files (9 # 10) = Ok q90 /\
    lookup (globals k) "X_train" = Ok (OFrame X_train) /\
    lookup (globals k) "y_train" = Ok (OSeries y_train) /\
    (forall c, In c y_train -> price_within q10 q90 c = true) /\
    In (EvFit "rf_reg" X_train y_train) (history k) /\
    In (EvFit "rf" X_train y_train) (history k) /\
    In (EvFit "model" X_train y_train) (history k) /\
    (forall name Xf yf, In (EvFit name Xf yf) (history k) ->
       forall c, In c yf -> price_within q10 q90 c = true).
Proof.
  intros Hsplit Hrun.
  destruct (run_notebook_inv _ _ _ _ _ _ _ _ k Hrun)
    as (out & X & y & first & parts & m & score & p & g & Hprep & _ & Hy & _ &
        Hparts & _ & _ & _ & _ & HXt & Hyt & _ & _ & _ & Hhist).
  exists (price_quantile records (1 # 10)), (price_quantile records (9 # 10)),
         (fst (fst parts)), (fst (snd parts)).
  split; [now apply (original_quantile_ok _ _ _ Hfile Hrecords)|].
  split; [now apply (original_quantile_ok _ _ _ Hfile Hrecords)|].
  split; [exact HXt|]. split; [exact Hyt|].
  rewrite (data_prepared_ok files to_timestamp records Hfile Hrecords) in Hprep.
  inversion Hprep; subst out; clear Hprep.
  unfold getitem in Hy. cbn [columns rows] in Hy.
  change (index_of "price" prepared_columns) with (Some 0) in Hy.
  inversion Hy; subst y; clear Hy.
  assert (Htargets : forall c, In c (fst (snd parts)) ->
            price_within (price_quantile records (1 # 10))
                         (price_quantile records (9 # 10)) c = true).
  { intros c Hc. apply (Hsplit _ _ _ _ _ Hparts) in Hc.
    apply in_map_iff in Hc as ([i c0] & <- & Hc).
    apply in_map_iff in Hc as ([j r] & E & Hc). inversion E; subst i c0; clear E.
    apply filter_In in Hc as [_ Hband]. exact Hband. }
  split; [exact Htargets|]. rewrite Hhist.
  split; [cbn; tauto|]. split; [cbn; tauto|]. split; [cbn; tauto|].
  intros name Xf yf Hin. cbn [In] in Hin.
  repeat (destruct Hin as [E|Hin];
          [try discriminate; inversion E; subst; exact Htargets|]).
  destruct Hin.
Qed.

End TrainingBand.

(** ** The further properties on sample files *)

(** The file with one sale. *)
Lemma data_prepared_single_record_sample :
  original_quantile Variant.one_record (1 # 10) = Ok (Fin 313000) /\
  original_quantile Variant.one_record (9 # 10) = Ok (Fin 313000) /\
  data_prepared Variant.one_record Sample.to_timestamp
  = Ok (mkDF prepared_columns [(0, prepared_row Variant.one_house)]).
Proof.
  apply (data_prepared_single_record Variant.one_record Sample.to_timestamp
           Variant.one_house); reflexivity.
Defined.

(** The sample file and its relocated copy, each with its own date
    conversion. *)
Lemma data_prepared_ignores_dropped_columns_sample :
  data_prepared Sample.files Sample.to_timestamp
  = data_prepared Variant.relocated Variant.to_timestamp /\
  data_prepared Sample.files Sample.to_timestamp
  = Ok (mkDF prepared_columns (prepared_from_kept (map kept_cells Sample.records))).
Proof.
  apply (data_prepared_ignores_dropped_columns Sample.files Variant.relocated
           Sample.to_timestamp Variant.to_timestamp
           Sample.records Variant.relocated_records); reflexivity.
Defined.

(** The file with a price that is text. *)
Lemma data_prepared_text_price_sample :
  data_prepared Variant.text_price Sample.to_timestamp = Raise TypeError.
Proof.
  apply (data_prepared_text_price Variant.text_price Sample.to_timestamp
           Variant.text_price_records).
  - reflexivity.
  - intros r Hin. simpl in Hin.
    destruct Hin as [E|[E|[]]]; subst r; eexists; reflexivity.
  - exists (set_nth 1 (CStr "420,000 USD") Variant.other_house), "420,000 USD".
    split; [right; left; reflexivity|reflexivity].
Defined.

(** The columns of the sample file and of its prepared table. *)
Lemma data_prepared_requires_columns_sample :
  exists header records,
    Sample.files "data.csv" = Some (header, records) /\
    (forall c, In c read_columns \/ In c dropped_columns -> In c header) /\
    (forall c, In c (columns Variant.prepared) <->
               (In c header \/ In c derived_columns) /\ ~ In c dropped_columns).
Proof.
  apply (data_prepared_requires_columns Sample.files Sample.to_timestamp
           Variant.prepared).
  vm_compute. reflexivity.
Defined.

(** Features and target of the sample file. *)
Lemma features_hold_target_per_sqft_sample :
  exists out X y,
    data_prepared Sample.files Sample.to_timestamp = Ok out /\
    drop_columns out ["price"] = Ok X /\
    getitem out "price" = Ok y /\
    index X = index out /\
    columns X = serving_columns /\
    length y = length (rows X) /\
    forall n rx,
      nth_error (rows X) n = Some rx ->
      exists p s,
        nth_error y n = Some (CNum p) /\
        cell_at X rx "sqft_living" = CNum s /\
        cell_at X rx "price_per_sqft" = CNum (div p s).
Proof.
  apply (features_hold_target_per_sqft Sample.files Sample.to_timestamp
           Sample.records); reflexivity.
Defined.


(** A click with an empty [bedrooms] field and a click with no bathroom. *)
Lemma callback_rejects_missing_or_zero_rooms_sample :
  update_output Sample.kernel 1 PyNone Sample.bathrooms Sample.sqft_living
                Sample.floors Sample.waterfront Sample.view
  = Raise TypeError /\
  update_output Sample.kernel 1 Sample.bedrooms (PyInt 0) Sample.sqft_living
                Sample.floors Sample.waterfront Sample.view
  = Raise ZeroDivisionError.
Proof.
  split.
  - apply (callback_rejects_missing_or_zero_rooms Sample.kernel 1 PyNone
             Sample.bathrooms Sample.sqft_living Sample.floors Sample.waterfront
             Sample.view); [lia|left; reflexivity].
  - apply (proj2 (callback_rejects_missing_or_zero_rooms Sample.kernel 1
                    Sample.bedrooms (PyInt 0) Sample.sqft_living Sample.floors
                    Sample.waterfront Sample.view ltac:(lia)) 3%Q 0%Q);
      reflexivity.
Defined.

(** A click in a kernel that ran no cell, and in the kernel of the sample
    run. *)
Lemma callback_needs_rf_reg_sample :
  update_output fresh_kernel 1 Sample.bedrooms Sample.bathrooms
                Sample.sqft_living Sample.floors Sample.waterfront Sample.view
  = Raise (NameError "rf_reg") /\
  exists o, lookup (globals Sample.kernel) "rf_reg" = Ok o.
Proof.
  split.
  - eapply (callback_needs_rf_reg fresh_kernel 1 Sample.bedrooms
              Sample.bathrooms Sample.sqft_living Sample.floors Sample.waterfront
              Sample.view); [lia|vm_compute; reflexivity|reflexivity].
  - eapply (callback_needs_rf_reg Sample.kernel 1 Sample.bedrooms
              Sample.bathrooms Sample.sqft_living Sample.floors Sample.waterfront
              Sample.view); [lia|vm_compute; reflexivity|vm_compute; reflexivity].
Defined.

(** A click on the untouched form against the sample kernel. *)
Lemma click_on_a_form_within_limits_sample :
  exists Xs price,
    input_data (field_value form_defaults "bedrooms")
               (field_value form_defaults "bathrooms")
               (field_value form_defaults "sqft_living")
               (field_value form_defaults "floors")
               (field_value form_defaults "waterfront")
               (field_value form_defaults "view")
    = Ok Xs /\
    forest_predict
      (mkRFR (mkRFParams 100 None (Some 42%Z))
             (Some (repeat (Leaf (Fin 335000)) 100))) Xs = Ok [Fin price] /\
    (0 <= price)%Q /\
    dispatch Sample.kernel 1 form_defaults
    = Ok (Some (mkDiv ("Predicted Price: $" ++ format_comma_2f (Fin price)) bold)) /\
    is_currency ("$" ++ format_comma_2f (Fin price)) = true /\
    renders (format_comma_2f (Fin price)) price.
Proof.
  apply (proj2 (proj2 (proj2 click_on_a_form_within_limits))
           Sample.rf_fit Sample.kernel
           (mkRFParams 100 None (Some 42%Z)) Sample.X_train Sample.y_train
           (repeat (Leaf (Fin 335000)) 100) 1%Z form_defaults).
  - exact sample_fit_respects_targets.
  - vm_compute. reflexivity.
  - reflexivity.
  - vm_compute. reflexivity.
  - reflexivity.
  - lia.
Defined.

(** The sample run. *)
Lemma grid_search_needs_five_training_rows_sample :
  (exists X_train,
     lookup (globals Sample.kernel) "X_train" = Ok (OFrame X_train) /\
     5 <= length (rows X_train)) /\
  (forall p X y,
     length (rows X) < 5 ->
     grid_fit Sample.rf_fit Sample.imputer_fit Sample.imputer_transform
              Sample.r2_score (new_GridSearchCV p the_params 5 true) X y
     = Raise ValueError).
Proof.
  apply (grid_search_needs_five_training_rows Sample.files Sample.to_timestamp
           Sample.train_test_split Sample.rf_fit Sample.imputer_fit
           Sample.imputer_transform Sample.r2_score Sample.mean_absolute_error
           Sample.kernel).
  vm_compute. reflexivity.
Defined.

Lemma sample_split_keeps_targets : split_keeps_targets Sample.train_test_split.
Proof.
  intros X y size seed parts H. unfold Sample.train_test_split in H.
  destruct (_ || _) in H; [discriminate|].
  inversion H; subst parts; clear H. cbn [fst snd].
  intros c Hc.
  rewrite <- (firstn_skipn (length (rows X) -
                Z.to_nat (Qceiling (size * inject_Z (Z.of_nat (length (rows X)))))) y).
  apply in_or_app. now left.
Qed.

(** The targets of the sample run. *)
Lemma training_targets_within_price_band_sample :
  exists q10 q90 X_train y_train,
    original_quantile Sample.files (1 # 10) = Ok q10 /\
    original_quantile Sample.files (9 # 10) = Ok q90 /\
    lookup (globals Sample.kernel) "X_train" = Ok (OFrame X_train) /\
    lookup (globals Sample.kernel) "y_train" = Ok (OSeries y_train) /\
    (forall c, In c y_train -> price_within q10 q90 c = true) /\
    In (EvFit "rf_reg" X_train y_train) (history Sample.kernel) /\
    In (EvFit "rf" X_train y_train) (history Sample.kernel) /\
    In (EvFit "model" X_train y_train) (history Sample.kernel) /\
    (forall name Xf yf, In (EvFit name Xf yf) (history Sample.kernel) ->
       forall c, In c yf -> price_within q10 q90 c = true).
Proof.
  apply (training_targets_within_price_band Sample.files Sample.to_timestamp
           Sample.train_test_split Sample.rf_fit Sample.imputer_fit
           Sample.imputer_transform Sample.r2_score Sample.mean_absolute_error
           Sample.records eq_refl eq_refl Sample.kernel).
  - exact sample_split_keeps_targets.
  - vm_compute. reflexivity.
Defined.
